(** * Verification of the tabular data pipeline of Performance-debate-BP

    The development embeds the data pipeline of the React application
    (value parser, metadata inference, filtering, sorting, paging,
    CSV export, group-mean and histogram aggregation) and proves or
    refutes the properties its specification states about it.

    Layout: a model of the JavaScript platform operations the code calls
    ([Module JS]: IEEE-754 binary64 numbers, string trimming, [parseFloat],
    [Number], relational comparison, [Array.prototype.slice]), then one
    module per source file, then the theorems. *)

From Stdlib Require Import ZArith List Bool Ascii String Lia QArith Qround.
From Stdlib Require Import SpecFloat Permutation Sorting.Sorted.
Import ListNotations.

Local Open Scope string_scope.
Local Open Scope Z_scope.

(* ================================================================== *)
(** * The JavaScript platform *)
(* ================================================================== *)

Module JS.

(** ** Numbers

    A JavaScript number is an IEEE-754 binary64 value.  It is modelled by
    the Standard Library's [spec_float] at precision 53 and exponent bound
    1024, with the library's own (computable) rounding and arithmetic. *)

Definition prec : Z := 53.
Definition emax : Z := 1024.

Definition number : Type := spec_float.

Definition NaN : number := S754_nan.
Definition Infinity : number := S754_infinity false.
Definition zero : number := S754_zero false.

Definition isNaN (x : number) : bool :=
  match x with S754_nan => true | _ => false end.

Definition add : number -> number -> number := SFadd prec emax.
Definition sub : number -> number -> number := SFsub prec emax.
Definition mul : number -> number -> number := SFmul prec emax.
Definition div : number -> number -> number := SFdiv prec emax.

(** [x < y], [x <= y], [x > y], [x >= y] on numbers: false as soon as one
    side is [NaN]. *)
Definition lt (x y : number) : bool := SFltb x y.
Definition le (x y : number) : bool := SFleb x y.
Definition gt (x y : number) : bool := SFltb y x.
Definition ge (x y : number) : bool := SFleb y x.

(** The number nearest to the integer [z] (exact below 2^53). *)
Definition of_Z (z : Z) : number := binary_normalize prec emax z 0 false.

(** The number nearest to [n / d] for positive [n] and [d], with sign [s]:
    the quotient is computed with at least 54 significant bits and the
    position of the remainder is handed to the library's rounding. *)
Definition of_ratio (s : bool) (n d : Z) : number :=
  let k := Z.max 0 (55 + Z.log2 d - Z.log2 n) in
  let '(q, r) := Z.div_eucl (Z.shiftl n k) d in
  binary_round_aux prec emax s q (- k) (new_location d r).

(** The number nearest to [m * 10 ^ e10], [0 <= m], with sign [s]. *)
Definition of_decimal (s : bool) (m e10 : Z) : number :=
  if m =? 0 then S754_zero s
  else if 0 <=? e10
       then binary_normalize prec emax
              (if s then - (m * 10 ^ e10) else m * 10 ^ e10) 0 s
       else of_ratio s m (10 ^ (- e10)).

(** Truthiness of a number: [0], [-0] and [NaN] are falsy. *)
Definition truthy_number (x : number) : bool :=
  match x with
  | S754_zero _ | S754_nan => false
  | _ => true
  end.

(** [Math.floor].  A finite number with a non-negative exponent is already
    an integer; otherwise the integer part is below 2^53 and exact. *)
Definition floor (x : number) : number :=
  match x with
  | S754_finite s m e =>
      if 0 <=? e then x
      else
        let z := (if s then Z.neg m else Z.pos m) / 2 ^ (- e) in
        if z =? 0 then S754_zero s else of_Z z
  | _ => x
  end.

(** [Math.min] of two numbers: [NaN] if either is, and [-0] below [+0]. *)
Definition min2 (x y : number) : number :=
  match SFcompare x y with
  | None => NaN
  | Some Lt => x
  | Some Gt => y
  | Some Eq =>
      match x with
      | S754_zero true => x
      | _ => y
      end
  end.

(** [Math.max] of two numbers. *)
Definition max2 (x y : number) : number :=
  match SFcompare x y with
  | None => NaN
  | Some Gt => x
  | Some Lt => y
  | Some Eq =>
      match x with
      | S754_zero false => x
      | _ => y
      end
  end.

(** [Math.min(...values)] and [Math.max(...values)]. *)
Definition min_list (l : list number) : number :=
  fold_left min2 l Infinity.
Definition max_list (l : list number) : number :=
  fold_left max2 l (S754_infinity true).

(** The array index a number denotes when used as a property key of an
    array of length [len]: integers in range, [-0] included. *)
Definition to_index (len : nat) (x : number) : option nat :=
  match x with
  | S754_zero _ => if (0 <? len)%nat then Some 0%nat else None
  | S754_finite false m e =>
      if 0 <=? e
      then let z := Z.pos m * 2 ^ e in
           if z <? Z.of_nat len then Some (Z.to_nat z) else None
      else
        let p := 2 ^ (- e) in
        if Z.pos m mod p =? 0
        then let z := Z.pos m / p in
             if z <? Z.of_nat len then Some (Z.to_nat z) else None
        else None
  | _ => None
  end.

(** ** Characters and strings

    Strings are sequences of code units; the model carries the code units
    below 256.  White space ([\s] of regular expressions, and what [trim]
    removes) is, in that range, TAB, LF, VT, FF, CR, SP and NBSP. *)

Definition code (c : ascii) : Z := Z.of_N (N_of_ascii c).

Definition is_digit (c : ascii) : bool :=
  (48 <=? code c) && (code c <=? 57).

Definition is_space (c : ascii) : bool :=
  ((9 <=? code c) && (code c <=? 13)) || (code c =? 32) || (code c =? 160).


Definition digit_val (c : ascii) : Z := code c - 48.

Fixpoint trimStart (s : string) : string :=
  match s with
  | String c s' => if is_space c then trimStart s' else s
  | EmptyString => EmptyString
  end.

Fixpoint trimEnd (s : string) : string :=
  match s with
  | String c s' =>
      match trimEnd s' with
      | EmptyString => if is_space c then EmptyString else String c EmptyString
      | t => String c t
      end
  | EmptyString => EmptyString
  end.

Definition trim (s : string) : string := trimEnd (trimStart s).

Fixpoint forallb_str (p : ascii -> bool) (s : string) : bool :=
  match s with
  | String c s' => p c && forallb_str p s'
  | EmptyString => true
  end.

Fixpoint existsb_str (p : ascii -> bool) (s : string) : bool :=
  match s with
  | String c s' => p c || existsb_str p s'
  | EmptyString => false
  end.

(** [s.replace(/[^...]/g, '')]: keep the characters of the class. *)
Fixpoint filter_str (p : ascii -> bool) (s : string) : string :=
  match s with
  | String c s' => if p c then String c (filter_str p s') else filter_str p s'
  | EmptyString => EmptyString
  end.

(** [s.replace(a, b)] for one-character strings [a] and [b]: only the
    first occurrence is replaced. *)
Fixpoint replace_first (a b : ascii) (s : string) : string :=
  match s with
  | String c s' =>
      if Ascii.eqb c a then String b s' else String c (replace_first a b s')
  | EmptyString => EmptyString
  end.

(** [s.includes(t)]. *)
Fixpoint includes (s t : string) : bool :=
  prefix t s ||
  match s with
  | String _ s' => includes s' t
  | EmptyString => false
  end.

(** [l.join(sep)]. *)
Fixpoint join (sep : string) (l : list string) : string :=
  match l with
  | [] => ""
  | [x] => x
  | x :: l' => x ++ sep ++ join sep l'
  end.

(** The longest run of characters of the class at the head of [s], and
    what follows it. *)
Fixpoint span (p : ascii -> bool) (s : string) : string * string :=
  match s with
  | String c s' =>
      if p c then let '(a, b) := span p s' in (String c a, b)
      else (EmptyString, s)
  | EmptyString => (EmptyString, EmptyString)
  end.

(** Value of a string of digits in base [b]. *)
Fixpoint digits_val_from (b : Z) (dv : ascii -> Z) (acc : Z) (s : string) : Z :=
  match s with
  | String c s' => digits_val_from b dv (b * acc + dv c) s'
  | EmptyString => acc
  end.

Definition decimal_val (s : string) : Z := digits_val_from 10 digit_val 0 s.

Definition strip_prefix (p s : string) : option string :=
  if prefix p s
  then Some (substring (String.length p) (String.length s - String.length p) s)
  else None.

(** ** Numeric literals *)

(** A parsed [StrDecimalLiteral]: [Infinity], or sign, integer digits,
    fraction digits and decimal exponent. *)
Inductive literal : Type :=
| LitInfinity (neg : bool)
| LitDecimal (neg : bool) (int frac : string) (exp : Z).

Definition literal_value (l : literal) : number :=
  match l with
  | LitInfinity neg => S754_infinity neg
  | LitDecimal neg int frac exp =>
      of_decimal neg (decimal_val (int ++ frac))
                 (exp - Z.of_nat (String.length frac))
  end.

(** An optional sign at the head of [s]: whether it is [-], and the rest. *)
Definition split_sign (s : string) : bool * string :=
  match s with
  | String c t =>
      if Ascii.eqb c "+" then (false, t)
      else if Ascii.eqb c "-" then (true, t)
      else (false, s)
  | EmptyString => (false, s)
  end.

(** [ExponentPart] at the head of [s], if there is one. *)
Definition parse_exponent (s : string) : Z * string :=
  match s with
  | String c s1 =>
      if Ascii.eqb c "e" || Ascii.eqb c "E" then
        let '(neg, s2) := split_sign s1 in
        let '(ds, rest) := span is_digit s2 in
        match ds with
        | EmptyString => (0, s)
        | _ => (if neg then - decimal_val ds else decimal_val ds, rest)
        end
      else (0, s)
  | EmptyString => (0, s)
  end.

(** The literal of integer digits [int] and fraction digits [frac], one
    of them at least present, with the exponent that may follow in [s]. *)
Definition with_exponent (neg : bool) (int frac s : string) : option (literal * string) :=
  match int ++ frac with
  | EmptyString => None
  | _ => let '(e, rest) := parse_exponent s in
         Some (LitDecimal neg int frac e, rest)
  end.

(** [DecimalDigits . DecimalDigits? ExponentPart?], [. DecimalDigits
    ExponentPart?] or [DecimalDigits ExponentPart?] at the head of [s]. *)
Definition parse_unsigned (neg : bool) (s : string) : option (literal * string) :=
  let '(int, s2) := span is_digit s in
  match s2 with
  | String c s3 =>
      if Ascii.eqb c "."
      then let '(frac, s4) := span is_digit s3 in with_exponent neg int frac s4
      else with_exponent neg int EmptyString s2
  | EmptyString => with_exponent neg int EmptyString s2
  end.

(** The longest prefix of [s] that is a [StrDecimalLiteral], with the
    rest of the string; [None] when no prefix is one. *)
Definition parse_decimal_prefix (s : string) : option (literal * string) :=
  let '(neg, s1) := split_sign s in
  match strip_prefix "Infinity" s1 with
  | Some rest => Some (LitInfinity neg, rest)
  | None => parse_unsigned neg s1
  end.

(** [parseFloat(s)]. *)
Definition parseFloat (s : string) : number :=
  match parse_decimal_prefix (trimStart s) with
  | Some (l, _) => literal_value l
  | None => NaN
  end.

Definition is_hex_digit (c : ascii) : bool :=
  is_digit c || ((65 <=? code c) && (code c <=? 70))
             || ((97 <=? code c) && (code c <=? 102)).

Definition hex_val (c : ascii) : Z :=
  if is_digit c then code c - 48
  else if code c <=? 70 then code c - 55 else code c - 87.

Definition is_octal_digit (c : ascii) : bool :=
  (48 <=? code c) && (code c <=? 55).

Definition is_binary_digit (c : ascii) : bool :=
  (48 <=? code c) && (code c <=? 49).

(** [NonDecimalIntegerLiteral]: [0x], [0o] and [0b] forms. *)
Definition parse_non_decimal (s : string) : option Z :=
  match s with
  | String "0" (String k ds) =>
      let radix :=
        if Ascii.eqb k "x" || Ascii.eqb k "X" then Some (16, is_hex_digit, hex_val)
        else if Ascii.eqb k "o" || Ascii.eqb k "O" then Some (8, is_octal_digit, digit_val)
        else if Ascii.eqb k "b" || Ascii.eqb k "B" then Some (2, is_binary_digit, digit_val)
        else None in
      match radix, ds with
      | Some (b, ok, dv), String _ _ =>
          if forallb_str ok ds then Some (digits_val_from b dv 0 ds) else None
      | _, _ => None
      end
  | _ => None
  end.

(** [Number(s)] for a string [s] ([StringToNumber]). *)
Definition StringToNumber (s : string) : number :=
  match trim s with
  | EmptyString => zero
  | t =>
      match parse_non_decimal t with
      | Some z => of_Z z
      | None =>
          match parse_decimal_prefix t with
          | Some (l, EmptyString) => literal_value l
          | _ => NaN
          end
      end
  end.

(** ** Arrays *)

(** The relative index of [slice]: negative counts from the end. *)
Definition relative_index (len k : Z) : Z :=
  if k <? 0 then Z.max (len + k) 0 else Z.min k len.

(** [l.slice(start, end)]. *)
Definition slice {A : Type} (l : list A) (s e : Z) : list A :=
  let len := Z.of_nat (List.length l) in
  let k := relative_index len s in
  let final := relative_index len e in
  firstn (Z.to_nat (final - k)) (skipn (Z.to_nat k) l).

(** [l.sort(cmp)] for a comparator returning a number: a stable sort,
    modelled as insertion from the right.  [x] stays in front of [y]
    unless [cmp(x, y) > 0]; a [NaN] result counts as [0].  Under a
    consistent comparator every stable sort gives this list; under an
    inconsistent one (a [NaN] among the values compared, numbers mixed
    with texts that are no numbers) the language leaves the order to the
    engine, and this is one of the orders allowed. *)
Fixpoint insert_by {A : Type} (cmp : A -> A -> number) (x : A) (l : list A) : list A :=
  match l with
  | [] => [x]
  | y :: l' => if gt (cmp x y) zero then y :: insert_by cmp x l' else x :: l
  end.

Definition sort {A : Type} (cmp : A -> A -> number) (l : list A) : list A :=
  fold_right (insert_by cmp) [] l.

(** [s.toLowerCase()] on the code units below 256: A-Z and the Latin-1
    capitals (U+00C0-U+00DE but U+00D7) move up by 32. *)
Definition lower_char (c : ascii) : ascii :=
  let n := code c in
  if ((65 <=? n) && (n <=? 90)) || ((192 <=? n) && (n <=? 214))
     || ((216 <=? n) && (n <=? 222))
  then ascii_of_N (Z.to_N (n + 32)) else c.

Fixpoint toLowerCase (s : string) : string :=
  match s with
  | String c s' => String (lower_char c) (toLowerCase s')
  | EmptyString => EmptyString
  end.

(** ** Objects used as dictionaries

    An object is the list of its own properties in enumeration order
    ([Object.keys]): the array-index keys first, by ascending value, then
    the other keys in the order they were created. *)

Definition object (A : Type) : Type := list (string * A).

Definition keys {A : Type} (o : object A) : list string := map fst o.
Definition values {A : Type} (o : object A) : list A := map snd o.

(** [o[k]]: [None] stands for [undefined]. *)
Fixpoint get {A : Type} (o : object A) (k : string) : option A :=
  match o with
  | [] => None
  | (k', v) :: o' => if String.eqb k' k then Some v else get o' k
  end.

(** The array index a key denotes: a canonical decimal numeral (no
    leading zero) of value at most 2^32 - 2. *)
Definition array_index (k : string) : option Z :=
  match k with
  | EmptyString => None
  | String c rest =>
      if forallb_str is_digit k
         && (negb (Ascii.eqb c "0") || String.eqb rest EmptyString)
         && (Z.of_nat (String.length k) <=? 10)
         && (decimal_val k <=? 4294967294)
      then Some (decimal_val k) else None
  end.

(** Whether a new key [k] is enumerated before the existing key [k']. *)
Definition key_before (k k' : string) : bool :=
  match array_index k, array_index k' with
  | Some i, Some j => i <? j
  | Some _, None => true
  | None, _ => false
  end.

(** Creation of the property [k] (absent from [o]) with value [v]. *)
Fixpoint create {A : Type} (o : object A) (k : string) (v : A) : object A :=
  match o with
  | [] => [(k, v)]
  | (k', v') :: o' =>
      if key_before k k' then (k, v) :: o else (k', v') :: create o' k v
  end.

(** Assignment to the existing property [k]: the order is unchanged. *)
Fixpoint update {A : Type} (o : object A) (k : string) (v : A) : object A :=
  match o with
  | [] => []
  | (k', v') :: o' =>
      if String.eqb k' k then (k', v) :: o' else (k', v') :: update o' k v
  end.

(** [o[k] = v]. *)
Definition set {A : Type} (o : object A) (k : string) (v : A) : object A :=
  match get o k with
  | Some _ => update o k v
  | None => create o k v
  end.

Definition newline : string := String (ascii_of_nat 10) EmptyString.

(** The properties every plain object inherits from [Object.prototype]:
    read on an object that has no own property of that name, they yield
    a function (or, for [__proto__], the prototype), never [undefined]. *)
Definition object_prototype_names : list string :=
  [ "constructor"; "hasOwnProperty"; "isPrototypeOf"; "propertyIsEnumerable";
    "toLocaleString"; "toString"; "valueOf"; "__proto__";
    "__defineGetter__"; "__defineSetter__"; "__lookupGetter__"; "__lookupSetter__" ].

Definition inherited (k : string) : bool :=
  existsb (String.eqb k) object_prototype_names.

(** What a call produces: a value, or a thrown [TypeError]. *)
Inductive outcome (A : Type) : Type :=
| Returned (a : A)
| TypeError.
Arguments Returned {A} a.
Arguments TypeError {A}.

Definition bind {A B : Type} (x : outcome A) (f : A -> outcome B) : outcome B :=
  match x with
  | Returned a => f a
  | TypeError => TypeError
  end.

End JS.

Import JS.

(* ================================================================== *)
(** * The data model *)
(* ================================================================== *)

Module Types.

(** Modelled from the spec: the declarations of [types.ts] ([DataRow],
    [ColumnMetadata]) are imported by every source file but are not among
    the sources.  A record maps column names to cell values; a cell value
    is a number or a text; a column is described by its name and its
    inferred type, ['number'] or ['string']. *)
Inductive CellValue : Type :=
| VNum (n : number)
| VStr (s : string).

Definition DataRow : Type := object CellValue.

Inductive ColumnType : Type := TNumber | TString.

Record ColumnMetadata : Type := { name : string; type : ColumnType }.

Definition is_TNumber (t : ColumnType) : bool :=
  match t with TNumber => true | TString => false end.
Definition is_TString (t : ColumnType) : bool :=
  match t with TString => true | TNumber => false end.

(** The renderings as text that the code relies on and that are left to
    the platform: [String(x)] and [x.toFixed(1)] of a number [x], and
    [String(m)] of a member [m] inherited from [Object.prototype].  No
    property below depends on the text they produce, so they are kept as
    parameters. *)
Record Printer : Type :=
  { numberToString : number -> string;
    toFixed1 : number -> string;
    memberToString : string -> string }.

(** What reading [row[col]] yields: the value of an own property, a member
    inherited from [Object.prototype] (a function or the prototype) when
    the record owns no such column but every object has the name, or
    [undefined]. *)
Inductive Read : Type :=
| Own (v : CellValue)
| Inherited (k : string)
| Undefined.

Definition read (row : DataRow) (col : string) : Read :=
  match get row col with
  | Some v => Own v
  | None => if inherited col then Inherited col else Undefined
  end.

(** [typeof v === 'number']. *)
Definition is_number (v : Read) : bool :=
  match v with Own (VNum _) => true | _ => false end.

(** [String(v)]. *)
Definition ToString (F : Printer) (v : Read) : string :=
  match v with
  | Undefined => "undefined"
  | Inherited k => memberToString F k
  | Own (VStr s) => s
  | Own (VNum n) => numberToString F n
  end.

(** [Number(v)]: an inherited member is cast through its text, which is
    no numeric literal. *)
Definition ToNumber (v : Read) : number :=
  match v with
  | Undefined => NaN
  | Inherited _ => NaN
  | Own (VStr s) => StringToNumber s
  | Own (VNum n) => n
  end.

(** Truthiness. *)
Definition truthy (v : Read) : bool :=
  match v with
  | Undefined => false
  | Inherited _ => true
  | Own (VStr s) => negb (String.eqb s "")
  | Own (VNum n) => truthy_number n
  end.

(** Truthiness of a text. *)
Definition nonempty (s : string) : bool := negb (String.eqb s "").

End Types.
Import Types.

(** What the grouped charts are drawn from. *)
Module Chart.

(** A bar or sector: [{ name, value }]. *)
Record Datum : Type := { name : string; value : number }.

(** [l.reduce((a, b) => a + b, 0) / l.length]. *)
Definition mean (l : list number) : number :=
  div (fold_left add l zero) (of_Z (Z.of_nat (List.length l))).

(** The groups under construction: key to the values pushed so far. *)
Definition groups : Type := object (list number).

(** [grouped[key]] is given an empty array when it reads as falsy, then
    [y] is pushed to it.  A key that [grouped] does not own but inherits
    reads as a function: no array is created and calling its [push]
    throws. *)
Definition push (grouped : groups) (key : string) (y : number) : outcome groups :=
  match get grouped key with
  | Some l => Returned (set grouped key (l ++ [y])%list)
  | None =>
      if inherited key then TypeError
      else Returned (set grouped key [y])
  end.

(** [key => ({ name: key, value: mean of grouped[key] })]. *)
Definition datum_of (grouped : groups) (key : string) : Datum :=
  {| name := key;
     value := mean (match get grouped key with Some l => l | None => [] end) |}.

(** The comparator [(a, b) => b.value - a.value]. *)
Definition by_value_desc (a b : Datum) : number := sub (value b) (value a).

End Chart.

(* ================================================================== *)
(** * ProfilePage.tsx: the value parser *)
(* ================================================================== *)

Module ProfilePage.

(** What a raw cell can be: the CSV reader yields texts, the spreadsheet
    decoder also numbers, booleans and absent cells. *)
Inductive RawValue : Type :=
| RNull
| RUndefined
| RNumber (n : number)
| RString (s : string)
| RBoolean (b : bool).

Definition raw_text (val : RawValue) : string :=
  match val with
  | RNull => "null"
  | RUndefined => "undefined"
  | RNumber _ => ""  (* a number is returned before its text is asked *)
  | RString s => s
  | RBoolean b => if b then "true" else "false"
  end.

(** The class of [/[^\d.,-]/g]: what the stripping keeps. *)
Definition candidate_char (c : ascii) : bool :=
  is_digit c || Ascii.eqb c "." || Ascii.eqb c "," || Ascii.eqb c "-".

(** The class of [/^[\d.,\s$%+-]+$/]. *)
Definition guard_char (c : ascii) : bool :=
  is_digit c || Ascii.eqb c "." || Ascii.eqb c "," || is_space c
  || Ascii.eqb c "$" || Ascii.eqb c "%" || Ascii.eqb c "+" || Ascii.eqb c "-".

(** [/^[\d.,\s$%+-]+$/.test(clean)]. *)
Definition guard (clean : string) : bool :=
  nonempty clean && forallb_str guard_char clean.

(** [clean.replace(/[^\d.,-]/g, '').replace(',', '.')]. *)
Definition numericCandidate (clean : string) : string :=
  replace_first "," "." (filter_str candidate_char clean).

Definition robustParseValue (val : RawValue) : CellValue :=
  match val with
  | RNull | RUndefined => VStr ""
  | RNumber n => VNum n
  | _ =>
      let clean := trim (raw_text val) in
      if String.eqb clean "" then VStr ""
      else
        let parsed := parseFloat (numericCandidate clean) in
        if negb (isNaN parsed) && guard clean then VNum parsed
        else VStr clean
  end.

Definition processDataRows (rawRows : list (object RawValue)) : list DataRow :=
  map (fun row => map (fun kv => (fst kv, robustParseValue (snd kv))) row) rawRows.

End ProfilePage.

(* ================================================================== *)
(** * The analysis page: metadata and the global filters *)
(* ================================================================== *)

Module AnalysisPage.

(** [numericCount > data.length / 2].  Both sides are integers below 2^32
    or halves of such, on which binary64 division by 2 and comparison are
    exact; they are computed in the rationals. *)
Definition more_than_half (numericCount len : nat) : bool :=
  negb (Qle_bool (inject_Z (Z.of_nat numericCount))
                 (inject_Z (Z.of_nat len) / 2)).

Definition numericCount (data : list DataRow) (header : string) : nat :=
  List.length (filter (fun row => is_number (read row header)) data).

Definition metadata (data : list DataRow) : list ColumnMetadata :=
  match data with
  | [] => []
  | first :: _ =>
      map (fun header =>
             {| name := header;
                type := if more_than_half (numericCount data header) (List.length data)
                        then TNumber else TString |})
          (keys first)
  end.

(** [metadata.find(m => m.type === 'string')?.name]. *)
Definition first_string_column (md : list ColumnMetadata) : option string :=
  option_map name (find (fun m => is_TString (type m)) md).

Section Filters.
Context (F : Printer).

Definition matchesSearch (searchTerm : string) (row : DataRow) : bool :=
  existsb (fun val => includes (toLowerCase (ToString F (Own val)))
                               (toLowerCase searchTerm))
          (values row).

Definition matchesCategory (md : list ColumnMetadata) (globalCategory : string)
           (row : DataRow) : bool :=
  String.eqb globalCategory "All"
  || match first_string_column md with
     | Some stringCol =>
         nonempty stringCol
         && String.eqb (ToString F (read row stringCol)) globalCategory
     | None => false
     end.

Definition filteredData (data : list DataRow) (searchTerm globalCategory : string)
  : list DataRow :=
  filter (fun row => matchesSearch searchTerm row
                     && matchesCategory (metadata data) globalCategory row)
         data.

(** [Array.from(new Set(...)).slice(0, 30)]: the distinct values in
    first-occurrence order. *)
Fixpoint distinct (seen l : list string) : list string :=
  match l with
  | [] => []
  | x :: l' =>
      if existsb (String.eqb x) seen then distinct seen l'
      else x :: distinct (x :: seen) l'
  end.

Definition categories (data : list DataRow) : list string :=
  match filter (fun m => is_TString (type m)) (metadata data) with
  | [] => []
  | m :: _ =>
      slice (distinct [] (filter nonempty
               (map (fun d => ToString F (read d (name m))) data))) 0 30
  end.
End Filters.

End AnalysisPage.

(* ================================================================== *)
(** * Dashboard.tsx: the dashboard chart *)
(* ================================================================== *)

Module Dashboard.

Section Dashboard.
Context (F : Printer).

Definition numCols (md : list ColumnMetadata) : list ColumnMetadata :=
  filter (fun m => is_TNumber (type m)) md.
Definition strCols (md : list ColumnMetadata) : list ColumnMetadata :=
  filter (fun m => is_TString (type m)) md.

(** [cols[0]?.name]. *)
Definition first_name (cols : list ColumnMetadata) : option string :=
  match cols with [] => None | m :: _ => Some (name m) end.

Definition grouped (data : list DataRow) (stringCol numCol : string)
  : outcome Chart.groups :=
  fold_left
    (fun acc d =>
       bind acc (fun g =>
         Chart.push g (ToString F (read d stringCol)) (ToNumber (read d numCol))))
    (slice data 0 100) (Returned []).

Definition chartData (data : list DataRow) (md : list ColumnMetadata)
  : outcome (list Chart.Datum) :=
  match first_name (strCols md), first_name (numCols md) with
  | Some stringCol, Some numCol =>
      if nonempty stringCol && nonempty numCol then
        bind (grouped data stringCol numCol) (fun g =>
          Returned (sort Chart.by_value_desc
                         (map (Chart.datum_of g) (slice (keys g) 0 10))))
      else Returned []
  | _, _ => Returned []
  end.
End Dashboard.

End Dashboard.

(* ================================================================== *)
(** * Dashboard.tsx, second component: the data table *)
(* ================================================================== *)

Module DataTable.

Definition PAGE_SIZE : Z := 10.

Inductive Direction : Type := asc | desc.

Record SortConfig : Type := { key : string; direction : Direction }.

(** A range filter: either bound may be missing. *)
Record Range : Type := { min : option string; max : option string }.

(** [if (bound)]: the bound is present and not the empty text. *)
Definition bound_set (b : option string) : bool :=
  match b with Some s => nonempty s | None => false end.

(** [Number(bound)]. *)
Definition bound_number (b : option string) : number :=
  match b with Some s => StringToNumber s | None => NaN end.

(** [a < b] on cell values: texts by code units, otherwise both sides as
    numbers. *)
Definition less (a b : CellValue) : bool :=
  match a, b with
  | VStr s, VStr t => String.ltb s t
  | _, _ => lt (ToNumber (Own a)) (ToNumber (Own b))
  end.

Section DataTable.
Context (F : Printer).

(** [row[key] ?? ''], as the comparisons see it: an inherited member is
    compared through its text. *)
Definition value_or_empty (row : DataRow) (k : string) : CellValue :=
  match read row k with
  | Own v => v
  | Inherited m => VStr (memberToString F m)
  | Undefined => VStr ""
  end.

Definition compare_rows (cfg : SortConfig) (a b : DataRow) : number :=
  let aVal := value_or_empty a (key cfg) in
  let bVal := value_or_empty b (key cfg) in
  if less aVal bVal then
    match direction cfg with asc => of_Z (-1) | desc => of_Z 1 end
  else if less bVal aVal then
    match direction cfg with asc => of_Z 1 | desc => of_Z (-1) end
  else zero.

(** One pass of the loop over the column text filters. *)
Definition apply_column_filter (filtered : list DataRow) (entry : string * string)
  : list DataRow :=
  let '(col, text) := entry in
  let val := toLowerCase text in
  if nonempty val
  then filter (fun row => includes (toLowerCase (ToString F (read row col))) val) filtered
  else filtered.

Definition min_ok (col : string) (r : Range) (row : DataRow) : bool :=
  ge (ToNumber (read row col)) (bound_number (min r)).
Definition max_ok (col : string) (r : Range) (row : DataRow) : bool :=
  le (ToNumber (read row col)) (bound_number (max r)).

(** One pass of the loop over the range filters. *)
Definition apply_range_filter (filtered : list DataRow) (entry : string * Range)
  : list DataRow :=
  let '(col, r) := entry in
  let filtered1 :=
    if bound_set (min r) then filter (min_ok col r) filtered else filtered in
  if bound_set (max r) then filter (max_ok col r) filtered1 else filtered1.

Definition filtered_rows (data : list DataRow)
           (columnFilters : object string) (rangeFilters : object Range)
  : list DataRow :=
  fold_left apply_range_filter rangeFilters
            (fold_left apply_column_filter columnFilters data).

Definition processedData (data : list DataRow)
           (columnFilters : object string) (rangeFilters : object Range)
           (sortConfig : option SortConfig) : list DataRow :=
  let filtered := filtered_rows data columnFilters rangeFilters in
  match sortConfig with
  | Some cfg => sort (compare_rows cfg) filtered
  | None => filtered
  end.

(** [Math.ceil(processedData.length / PAGE_SIZE)], computed in the
    rationals: a length is an integer below 2^32, whose binary64
    quotient by 10 has the same ceiling. *)
Definition totalPages (processed : list DataRow) : Z :=
  Qceiling (inject_Z (Z.of_nat (List.length processed)) / inject_Z PAGE_SIZE).

Definition paginatedData (processed : list DataRow) (currentPage : Z) : list DataRow :=
  slice processed ((currentPage - 1) * PAGE_SIZE) (currentPage * PAGE_SIZE).

End DataTable.

End DataTable.

(* ================================================================== *)
(** * ChartBuilder.tsx: histogram and grouped charts *)
(* ================================================================== *)

Module ChartBuilder.

Inductive ChartType : Type := bar | line | pie | histogram.

Record Bin : Type := { range : string; frequency : nat }.

Definition bins : Z := 10.

(** [distribution[i].frequency++] at a valid index. *)
Fixpoint increment (distribution : list Bin) (i : nat) : list Bin :=
  match distribution, i with
  | [], _ => []
  | b :: rest, O => {| range := range b; frequency := S (frequency b) |} :: rest
  | b :: rest, S i' => b :: increment rest i'
  end.

Section ChartBuilder.
Context (F : Printer).

(** [data.map(d => Number(d[yAxis])).filter(v => !isNaN(v))]. *)
Definition numeric_values (data : list DataRow) (yAxis : string) : list number :=
  filter (fun v => negb (isNaN v)) (map (fun d => ToNumber (read d yAxis)) data).

Definition empty_bin (lo step : number) (i : Z) : Bin :=
  {| range := toFixed1 F (add lo (mul (of_Z i) step)) ++ " - "
              ++ toFixed1 F (add lo (mul (of_Z (i + 1)) step));
     frequency := 0 |}.

Definition binIndex (lo step v : number) : number :=
  min2 (floor (div (sub v lo) step)) (of_Z (bins - 1)).

(** One pass of [values.forEach]: reading [frequency] off
    [distribution[binIndex]] throws when the index denotes no element. *)
Definition count_value (lo step : number) (acc : outcome (list Bin)) (v : number)
  : outcome (list Bin) :=
  match acc with
  | Returned distribution =>
      match to_index (List.length distribution) (binIndex lo step v) with
      | Some i => Returned (increment distribution i)
      | None => TypeError
      end
  | TypeError => TypeError
  end.

Definition histogramData (data : list DataRow) (yAxis : string) : outcome (list Bin) :=
  let values := numeric_values data yAxis in
  match values with
  | [] => Returned []
  | _ =>
      let lo := min_list values in
      let hi := max_list values in
      let step := div (sub hi lo) (of_Z bins) in
      let distribution :=
        map (fun i => empty_bin lo step (Z.of_nat i)) (seq 0 (Z.to_nat bins)) in
      fold_left (count_value lo step) values (Returned distribution)
  end.

(** [String(d[xAxis] || 'N/A')]. *)
Definition xVal (d : DataRow) (xAxis : string) : string :=
  if truthy (read d xAxis) then ToString F (read d xAxis) else "N/A".

(** [Number(d[yAxis]) || 0]. *)
Definition yVal (d : DataRow) (yAxis : string) : number :=
  let y := ToNumber (read d yAxis) in
  if truthy_number y then y else zero.

Definition grouped (data : list DataRow) (xAxis yAxis : string)
  : outcome Chart.groups :=
  fold_left
    (fun acc d => bind acc (fun g => Chart.push g (xVal d xAxis) (yVal d yAxis)))
    (slice data 0 500) (Returned []).

Definition groupedData (data : list DataRow) (xAxis yAxis : string)
  : outcome (list Chart.Datum) :=
  bind (grouped data xAxis yAxis) (fun g =>
    Returned (slice (sort Chart.by_value_desc (map (Chart.datum_of g) (keys g))) 0 15)).

Definition chartData (data : list DataRow) (xAxis yAxis : string) (chartType : ChartType)
  : outcome (list Bin + list Chart.Datum) :=
  match chartType with
  | histogram => bind (histogramData data yAxis) (fun d => Returned (inl d))
  | _ => bind (groupedData data xAxis yAxis) (fun d => Returned (inr d))
  end.
End ChartBuilder.

End ChartBuilder.

(* ================================================================== *)
(** * The analysis page, continued: the table it renders *)
(* ================================================================== *)

(** How the analysis page wires the table: the table receives the
    globally filtered records as its data, shows [processedData] of them,
    and exports from its data. *)
Module Page.
Section Page.
Context (F : Printer).



End Page.
End Page.

(* ================================================================== *)
(** * ProfilePage.tsx, continued: reading a CSV file *)
(* ================================================================== *)

Module FileUpload.

Definition LF : ascii := ascii_of_nat 10.
Definition CR : ascii := ascii_of_nat 13.
Definition DQUOTE : ascii := ascii_of_nat 34.

(** [text.split(/\r?\n/)]. *)
Fixpoint split_lines (text : string) : list string :=
  match text with
  | EmptyString => [EmptyString]
  | String c rest =>
      if Ascii.eqb c LF then EmptyString :: split_lines rest
      else
        match rest with
        | String d rest' =>
            if Ascii.eqb c CR && Ascii.eqb d LF
            then EmptyString :: split_lines rest'
            else match split_lines rest with
                 | line :: lines => String c line :: lines
                 | [] => [String c EmptyString]
                 end
        | EmptyString => [String c EmptyString]
        end
  end.

(** The number of double quotes of a text. *)
Fixpoint count_quotes (s : string) : nat :=
  match s with
  | EmptyString => 0
  | String c rest => (if Ascii.eqb c DQUOTE then 1 else 0) + count_quotes rest
  end.

(** The lookahead of the splitting expression (pairs of double quotes,
    then none, up to the end): what follows holds an even number of
    double quotes. *)
Definition outside_quotes (rest : string) : bool := Nat.even (count_quotes rest).

(** [line.split(...)] on a comma with that lookahead: the line is cut at
    the commas that stand outside quoted parts. *)
Fixpoint split_fields (line : string) : list string :=
  match line with
  | EmptyString => [EmptyString]
  | String c rest =>
      if Ascii.eqb c "," && outside_quotes rest
      then EmptyString :: split_fields rest
      else match split_fields rest with
           | field :: fields => String c field :: fields
           | [] => [String c EmptyString]
           end
  end.

(** The first alternative of the quote-removing expression: a double
    quote at the start. *)
Definition drop_leading_quote (s : string) : string :=
  match s with
  | String c rest => if Ascii.eqb c DQUOTE then rest else s
  | EmptyString => s
  end.

(** The second alternative: a double quote at the end. *)
Fixpoint drop_trailing_quote (s : string) : string :=
  match s with
  | EmptyString => EmptyString
  | String c EmptyString => if Ascii.eqb c DQUOTE then EmptyString else s
  | String c rest => String c (drop_trailing_quote rest)
  end.

(** [s.trim().replace(...)]: trimmed, then without a double quote at the
    start and without one at the end. *)
Definition clean_field (s : string) : string :=
  drop_trailing_quote (drop_leading_quote (trim s)).

(** [row[header] = value] on an object literal [{}]: the name
    [__proto__] reaches the inherited setter, which ignores a text, and
    no property is created. *)
Definition assign {A : Type} (row : object A) (header : string) (value : A) : object A :=
  if String.eqb header "__proto__" then row else set row header value.

(** [headers.forEach((header, index) => { row[header] = ... })] from the
    empty object, the value being the cleaned [values[index] || '']. *)
Definition build_row (headers values : list string) : object string :=
  fold_left
    (fun row ih => assign row (snd ih) (clean_field (nth (fst ih) values EmptyString)))
    (combine (seq 0 (List.length headers)) headers) [].

(** The lines that are not blank. *)
Definition csv_lines (text : string) : list string :=
  filter (fun line => negb (String.eqb (trim line) EmptyString)) (split_lines text).

Definition csv_headers (lines : list string) : list string :=
  map clean_field (split_fields (hd EmptyString lines)).

(** The CSV branch of [handleFileUpload]: the records handed to
    [onDataImport], or [None] when [Error("Archivo insuficiente")] is
    thrown and nothing is imported. *)
Definition importCSV (text : string) : option (list DataRow) :=
  let lines := csv_lines text in
  if (List.length lines <? 2)%nat then None
  else
    let headers := csv_headers lines in
    let rawRows :=
      map (fun line => build_row headers (split_fields line)) (skipn 1 lines) in
    Some (ProfilePage.processDataRows
            (map (fun row => map (fun kv => (fst kv, ProfilePage.RString (snd kv))) row)
                 rawRows)).

(** [{ rows: jsonData.length, cols: ... }]. *)
Definition dataStats (jsonData : list DataRow) : nat * nat :=
  (List.length jsonData,
   match jsonData with
   | first :: _ => List.length (keys first)
   | [] => 0%nat
   end).

End FileUpload.

(* ================================================================== *)
(** * Dashboard.tsx, continued: the indicators *)
(* ================================================================== *)

Module Kpis.





(** [data.map(d => Number(d[mainCol])).filter(v => !isNaN(v))]. *)
Definition values (data : list DataRow) (mainCol : string) : list number :=
  filter (fun v => negb (isNaN v)) (map (fun d => ToNumber (read d mainCol)) data).



End Kpis.

(* ================================================================== *)
(** * Dashboard.tsx, second component, continued: the state of the table *)
(* ================================================================== *)

Module TableState.
Import DataTable.

(** [handleSort(key)]: the sort configuration that is set. *)
Definition handleSort (sortConfig : option SortConfig) (k : string) : SortConfig :=
  {| key := k;
     direction :=
       match sortConfig with
       | Some cfg =>
           if String.eqb (key cfg) k
              && match direction cfg with asc => true | desc => false end
           then desc else asc
       | None => asc
       end |}.

(** [{ ...prev, [col]: text }]. *)
Definition setColumnFilter (prev : object string) (col text : string) : object string :=
  set prev col text.

(** [{ ...prev[col] }]: the bounds already set for the column, if any. *)
Definition range_of (prev : object Range) (col : string) : Range :=
  match get prev col with
  | Some r => r
  | None => {| min := None; max := None |}
  end.

(** [{ ...prev, [col]: { ...prev[col], min: text } }]. *)
Definition setRangeMin (prev : object Range) (col text : string) : object Range :=
  set prev col {| min := Some text; max := max (range_of prev col) |}.

(** [{ ...prev, [col]: { ...prev[col], max: text } }]. *)
Definition setRangeMax (prev : object Range) (col text : string) : object Range :=
  set prev col {| min := min (range_of prev col); max := Some text |}.

(** The two numbers of the line Mostrando a - b de n:
    [Math.min(n, (currentPage - 1) * PAGE_SIZE + 1)] and
    [Math.min(n, currentPage * PAGE_SIZE)], on integers. *)
Definition showing (n currentPage : Z) : Z * Z :=
  (Z.min n ((currentPage - 1) * PAGE_SIZE + 1), Z.min n (currentPage * PAGE_SIZE)).

(** The previous and next buttons: whether each is enabled, and where
    it leads. *)
Definition prev_enabled (currentPage : Z) : bool := negb (currentPage =? 1).
Definition next_enabled (currentPage totalPages : Z) : bool :=
  negb (currentPage =? totalPages).
Definition prev_page (currentPage : Z) : Z := currentPage - 1.
Definition next_page (currentPage : Z) : Z := currentPage + 1.

(** The numbered buttons: [idx + 1] for [idx] below [Math.min(5,
    totalPages)]. *)
Definition page_buttons (totalPages : Z) : list Z :=
  map (fun idx => Z.of_nat idx + 1) (seq 0 (Z.to_nat (Z.min 5 totalPages))).

End TableState.

(* ================================================================== *)
(** * ChartBuilder.tsx, continued: the axes first selected *)
(* ================================================================== *)

Module ChartAxes.

(** [metadata.find(m => m.type === t)?.name || metadata[0].name]: reading
    [name] off [metadata[0]] throws when there is no column. *)
Definition initial_axis (wanted : ColumnType -> bool) (md : list ColumnMetadata)
  : outcome string :=
  match find (fun m => wanted (type m)) md with
  | Some m =>
      if nonempty (name m) then Returned (name m)
      else match md with
           | first :: _ => Returned (name first)
           | [] => TypeError
           end
  | None =>
      match md with
      | first :: _ => Returned (name first)
      | [] => TypeError
      end
  end.

Definition initial_xAxis : list ColumnMetadata -> outcome string :=
  initial_axis is_TString.
Definition initial_yAxis : list ColumnMetadata -> outcome string :=
  initial_axis is_TNumber.

End ChartAxes.

(* ================================================================== *)
(** * The vocabulary of the specification *)
(* ================================================================== *)

Module Spec.

(** ** The value parser *)

(** An unsigned literal starts with a digit, or with a point and a digit. *)
Definition unsigned_start (s : string) : bool :=
  match s with
  | String c t =>
      is_digit c
      || (Ascii.eqb c "."
          && match t with String d _ => is_digit d | EmptyString => false end)
  | EmptyString => false
  end.

(** The candidate begins a number: an optional [-], then the above. *)
Definition begins_number (s : string) : bool :=
  match s with
  | String c t => if Ascii.eqb c "-" then unsigned_start t else unsigned_start s
  | EmptyString => false
  end.

(** The comma.  A text cut at its first comma: what stands before the
    comma, and what stands after it. *)
Fixpoint at_first_comma (s : string) : option (string * string) :=
  match s with
  | EmptyString => None
  | String c t =>
      if Ascii.eqb c "," then Some (EmptyString, t)
      else match at_first_comma t with
           | Some (pre, post) => Some (String c pre, post)
           | None => None
           end
  end.

(** Whether a text starts with a minus sign, and the text without it. *)
Definition leading_minus (s : string) : bool * string :=
  match s with
  | String c t => if Ascii.eqb c "-" then (true, t) else (false, s)
  | EmptyString => (false, s)
  end.

(** The digits that a text starts with. *)
Definition leading_digits (s : string) : string := fst (span is_digit s).

(** ** Metadata inference *)

(** A record holds a number in a column when it has the column and the
    value there is a number. *)
Definition holds_number (col : string) (row : DataRow) : bool :=
  match get row col with
  | Some (VNum _) => true
  | _ => false
  end.

(** How many of the records hold a number in the column. *)
Fixpoint holding_number (records : list DataRow) (col : string) : nat :=
  match records with
  | [] => 0
  | row :: rest =>
      ((if holds_number col row then 1 else 0) + holding_number rest col)%nat
  end.

(** ** The query engine *)

(** Filters applied one after the other. *)
Definition apply_stages (stages : list (DataRow -> bool)) (rows : list DataRow)
  : list DataRow :=
  fold_left (fun acc p => filter p acc) stages rows.

(** The conjunction of the filters. *)
Definition all_pass (stages : list (DataRow -> bool)) (row : DataRow) : bool :=
  forallb (fun p => p row) stages.

(** A row is within a range when it meets each bound that is set. *)
Definition within (col : string) (r : DataTable.Range) (row : DataRow) : bool :=
  (if DataTable.bound_set (DataTable.min r)
   then ge (ToNumber (read row col)) (DataTable.bound_number (DataTable.min r))
   else true)
  && (if DataTable.bound_set (DataTable.max r)
      then le (ToNumber (read row col)) (DataTable.bound_number (DataTable.max r))
      else true).

(** ** The histogram *)

(** The sum of the frequencies of the bins. *)
Definition total (d : list ChartBuilder.Bin) : nat :=
  fold_right (fun b acc => (ChartBuilder.frequency b + acc)%nat) 0%nat d.

(** ** Sorting and grouping *)

(** [a] may stand in front of [b]: the comparator does not ask for the
    opposite. *)
Definition in_order {A : Type} (cmp : A -> A -> number) (a b : A) : Prop :=
  gt (cmp a b) zero = false.

(** The values filed under a group by a run of [push]. *)
Definition filed (entries : list (string * number)) (k : string) : list number :=
  map snd (filter (fun e => String.eqb (fst e) k) entries).

Definition fill (acc : outcome Chart.groups) (e : string * number) : outcome Chart.groups :=
  bind acc (fun g => Chart.push g (fst e) (snd e)).

Definition holds (g : Chart.groups) (entries : list (string * number)) : Prop :=
  NoDup (keys g)
  /\ forall k, get g k = match filed entries k with [] => None | l => Some l end.

Section WithFormat.
Context (F : Printer).

(** The filters of one query, one predicate per filter that is set, in
    the order the code applies them: search, category, column texts,
    then ranges. *)
Definition column_stage (entry : string * string) : list (DataRow -> bool) :=
  let '(col, text) := entry in
  if nonempty (toLowerCase text)
  then [fun row => includes (toLowerCase (ToString F (read row col)))
                            (toLowerCase text)]
  else [].

Definition range_stage (entry : string * DataTable.Range) : list (DataRow -> bool) :=
  let '(col, r) := entry in
  ((if DataTable.bound_set (DataTable.min r) then [DataTable.min_ok col r] else [])
   ++ (if DataTable.bound_set (DataTable.max r) then [DataTable.max_ok col r] else []))%list.

Definition query_stages (data : list DataRow) (searchTerm globalCategory : string)
           (columnFilters : object string) (rangeFilters : object DataTable.Range)
  : list (DataRow -> bool) :=
  (AnalysisPage.matchesSearch F searchTerm
   :: AnalysisPage.matchesCategory F (AnalysisPage.metadata data) globalCategory
   :: flat_map column_stage columnFilters
   ++ flat_map range_stage rangeFilters)%list.



(** The group mean as the specification words it: records grouped by the
    stringified group column (a missing value counts as "N/A"), the
    numeric cast of the value column averaged per group (what is not a
    number counts as 0), the groups sorted by mean, greatest first, and
    the first [limit] of them returned. *)
Definition group_of (groupCol : string) (row : DataRow) : string :=
  match get row groupCol with
  | None => "N/A"
  | Some v => ToString F (Own v)
  end.

Definition value_of (valueCol : string) (row : DataRow) : number :=
  let y := ToNumber (read row valueCol) in
  if isNaN y then zero else y.

Definition group_mean (records : list DataRow) (groupCol valueCol g : string) : Chart.Datum :=
  {| Chart.name := g;
     Chart.value :=
       Chart.mean (map (value_of valueCol)
                       (filter (fun row => String.eqb (group_of groupCol row) g) records)) |}.

Definition groupMean (records : list DataRow) (groupCol valueCol : string) (limit : nat)
  : list Chart.Datum :=
  firstn limit
    (sort Chart.by_value_desc
       (map (group_mean records groupCol valueCol)
            (AnalysisPage.distinct [] (map (group_of groupCol) records)))).
End WithFormat.

End Spec.

(** The records of the examples. *)
Module Examples.

(** A printer for examples whose records hold no number in a rendered
    position: nothing in them depends on what it prints. *)
Definition blank_printer : Printer :=
  {| numberToString := fun _ => ""; toFixed1 := fun _ => "";
     memberToString := fun _ => "" |}.

Definition sale (region : string) (amount : Z) : DataRow :=
  [("region", VStr region); ("sales", VNum (of_Z amount))].

(** Eleven regions, each with one sale; the last one sells most. *)
Definition sales_by_region : list DataRow :=
  [ sale "a" 1; sale "b" 2; sale "c" 3; sale "d" 4; sale "e" 5; sale "f" 6;
    sale "g" 7; sale "h" 8; sale "i" 9; sale "j" 10; sale "k" 11 ].

Definition bar (region : string) (amount : Z) : Chart.Datum :=
  {| Chart.name := region; Chart.value := of_Z amount |}.

End Examples.

(** Further vocabulary, for the properties of the code beyond the
    specification. *)
Module Vocabulary.

(** A parsed cell, seen again as a raw cell. *)
Definition raw_of (v : CellValue) : ProfilePage.RawValue :=
  match v with
  | VNum n => ProfilePage.RNumber n
  | VStr s => ProfilePage.RString s
  end.

(** What the value parser makes of a text: a number that is not [NaN], or
    a text without white space at either end. *)
Definition clean_cell (v : CellValue) : Prop :=
  match v with
  | VNum n => isNaN n = false
  | VStr t => trim t = t
  end.

(** The number of commas of a text. *)
Fixpoint count_commas (s : string) : nat :=
  match s with
  | EmptyString => 0
  | String c rest => (if Ascii.eqb c "," then 1 else 0) + count_commas rest
  end.

(** The columns of a row built from [headers], whatever the values. *)
Definition schema (headers : list string) : list string :=
  keys (FileUpload.build_row headers []).

(** An object without the property [k]. *)
Definition remove_key {A : Type} (o : object A) (k : string) : object A :=
  filter (fun kv => negb (String.eqb (fst kv) k)) o.

(** In a sorted table, the value of a row at the sort column is never
    ranked before that of the row above it (ascending), or after it
    (descending). *)
Definition follows (F : Printer) (cfg : DataTable.SortConfig) (above below : DataRow) : Prop :=
  let a := DataTable.value_or_empty F above (DataTable.key cfg) in
  let b := DataTable.value_or_empty F below (DataTable.key cfg) in
  match DataTable.direction cfg with
  | DataTable.asc => DataTable.less b a = false
  | DataTable.desc => DataTable.less a b = false
  end.

(** The number of values that the histogram sends to the bin [i] of
    [len], with [lo] the least value and [step] the width of a bin. *)
Definition landed (len : nat) (lo step : number) (values : list number) (i : nat) : nat :=
  List.length
    (filter (fun v => match to_index len (ChartBuilder.binIndex lo step v) with
                      | Some j => Nat.eqb j i
                      | None => false
                      end) values).

(** The frequency of the bin [i], 0 where there is no such bin. *)
Definition frequency_at (d : list ChartBuilder.Bin) (i : nat) : nat :=
  match nth_error d i with
  | Some b => ChartBuilder.frequency b
  | None => 0
  end.


(** Cells that the comparison of the table ranks consistently: all of
    them texts, or all of them numbers none of which is [NaN]. *)
Definition rankable (cells : list CellValue) : bool :=
  forallb (fun v => match v with VStr _ => true | VNum _ => false end) cells
  || forallb (fun v => match v with VNum n => negb (isNaN n) | VStr _ => false end) cells.

(** The cells of the rows at a column, as the comparison sees them. *)
Definition cells_at (F : Printer) (rows : list DataRow) (col : string) : list CellValue :=
  map (fun row => DataTable.value_or_empty F row col) rows.

(** A number that is not below zero: a zero, a positive number or
    infinity. *)
Definition not_negative (x : number) : bool :=
  match x with
  | S754_zero _ => true
  | S754_infinity s | S754_finite s _ _ => negb s
  | S754_nan => false
  end.

(** A positive number that is not infinite. *)
Definition positive_finite (x : number) : bool :=
  match x with
  | S754_finite false _ _ => true
  | _ => false
  end.

(** A number that is neither infinite nor [NaN]. *)
Definition bounded_number (x : number) : bool :=
  match x with
  | S754_zero _ | S754_finite _ _ _ => true
  | _ => false
  end.

(** A binary64 number: its mantissa and exponent are those of the
    format. *)
Definition is_double (x : number) : bool := valid_binary prec emax x.

(** What rounding a mantissa that is not negative gives: zero, infinity
    or a positive number whose exponent is not below the one given. *)
Definition rounded_from (e : Z) (x : number) : Prop :=
  match x with
  | S754_zero s | S754_infinity s => s = false
  | S754_finite s _ e' => s = false /\ e <= e'
  | S754_nan => False
  end.

(** The number 9, the index of the last bin. *)
Definition nine : number := S754_finite false 5066549580791808 (-49).

End Vocabulary.

(* ================================================================== *)
(** * Properties *)
(* ================================================================== *)

(** ** Lists *)

Section ListFacts.
Context {A : Type}.

Lemma filter_filter (p q : A -> bool) (l : list A) :
  filter q (filter p l) = filter (fun x => p x && q x) l.
Proof.
  induction l as [|x l IH]; simpl; [reflexivity|].
  destruct (p x); simpl; [destruct (q x)|]; now rewrite IH.
Qed.

Lemma firstn_plus (n m : nat) (l : list A) :
  firstn (n + m) l = (firstn n l ++ firstn m (skipn n l))%list.
Proof.
  revert l; induction n as [|n IH]; intros l; simpl; [reflexivity|].
  destruct l as [|x l]; simpl.
  - now rewrite firstn_nil.
  - now rewrite IH.
Qed.

(** Cutting a list in consecutive pieces of [size] elements. *)
Lemma chunks_firstn (size n : nat) (l : list A) :
  List.concat (map (fun i => firstn size (skipn (i * size) l)) (seq 0 n))
  = firstn (n * size) l.
Proof.
  induction n as [|n IH]; [reflexivity|].
  rewrite seq_S, map_app, concat_app, IH; simpl.
  rewrite app_nil_r, (Nat.add_comm size), firstn_plus; reflexivity.
Qed.
End ListFacts.

(** ** The pager *)

Module PagerFacts.
Import DataTable.

Lemma relative_index_range (len k : Z) :
  0 <= len -> 0 <= relative_index len k <= len.
Proof.
  intros H; unfold relative_index; destruct (k <? 0) eqn:E; lia.
Qed.

Lemma relative_index_nonneg (len k : Z) :
  0 <= len -> 0 <= k -> relative_index len k = Z.min k len.
Proof.
  intros _ H; unfold relative_index.
  destruct (Z.ltb_spec k 0); [lia | reflexivity].
Qed.

Lemma relative_index_step (len s e : Z) :
  0 <= len -> s <= e -> relative_index len e - relative_index len s <= e - s.
Proof.
  intros Hl H; unfold relative_index.
  destruct (Z.ltb_spec e 0), (Z.ltb_spec s 0); lia.
Qed.

Lemma slice_length_le {A : Type} (l : list A) (s e : Z) :
  s <= e -> Z.of_nat (List.length (slice l s e)) <= e - s.
Proof.
  intros H; unfold slice.
  pose proof (relative_index_step (Z.of_nat (List.length l)) s e
                (Nat2Z.is_nonneg _) H) as Hs.
  pose proof (firstn_le_length
                (Z.to_nat (relative_index (Z.of_nat (List.length l)) e
                           - relative_index (Z.of_nat (List.length l)) s))
                (skipn (Z.to_nat (relative_index (Z.of_nat (List.length l)) s)) l)).
  lia.
Qed.

(** A slice between non-negative bounds is a [firstn] of a [skipn]. *)
Lemma slice_nonneg {A : Type} (l : list A) (k size : nat) :
  slice l (Z.of_nat k) (Z.of_nat k + Z.of_nat size) = firstn size (skipn k l).
Proof.
  unfold slice.
  rewrite !relative_index_nonneg by lia.
  set (len := List.length l).
  destruct (Nat.le_gt_cases len k) as [Hk|Hk].
  - rewrite (skipn_all2 l) by (unfold len in Hk; lia).
    rewrite skipn_all2 by (fold len; lia).
    now rewrite !firstn_nil.
  - replace (Z.to_nat (Z.min (Z.of_nat k) (Z.of_nat len))) with k by lia.
    destruct (Nat.le_gt_cases (k + size) len) as [Hs|Hs].
    + f_equal; lia.
    + rewrite !firstn_all2; [reflexivity | | ]; rewrite length_skipn; fold len; lia.
Qed.

Lemma paginatedData_firstn (l : list DataRow) (i : nat) :
  paginatedData l (Z.of_nat (S i)) = firstn 10 (skipn (i * 10) l).
Proof.
  unfold paginatedData, PAGE_SIZE.
  replace ((Z.of_nat (S i) - 1) * 10) with (Z.of_nat (i * 10)) by lia.
  replace (Z.of_nat (S i) * 10) with (Z.of_nat (i * 10) + Z.of_nat 10) by lia.
  apply slice_nonneg.
Qed.

Lemma totalPages_div (l : list DataRow) :
  totalPages l = (Z.of_nat (List.length l) + 9) / 10.
Proof.
  unfold totalPages, PAGE_SIZE, Qceiling, Qfloor.
  set (n := Z.of_nat (List.length l)); simpl.
  rewrite Z.mul_1_r.
  assert (Hn : 0 <= n) by (unfold n; lia).
  pose proof (Z.div_mod (- n) 10 ltac:(lia)) as H1.
  pose proof (Z.mod_pos_bound (- n) 10 ltac:(lia)) as H2.
  apply Z.div_unique with (r := n + 9 - 10 * - (- n / 10)); lia.
Qed.

End PagerFacts.

(** C9: a page holds at most ten records whatever the page number, and
    page [p] from 1 on holds the ten records (or fewer, at the end) that
    follow the first [(p - 1) * 10]; [totalPages] is the ceiling of the
    count over ten, hence zero for no record; and the pages 1 to
    [totalPages], one after the other, give back the whole sequence in
    order. *)
Theorem pager_pages_partition_the_view :
  forall (processed : list DataRow),
    (forall p : Z, (List.length (DataTable.paginatedData processed p) <= 10)%nat)
    /\ (forall i : nat,
          DataTable.paginatedData processed (Z.of_nat (S i))
          = firstn 10 (skipn (i * 10) processed))
    /\ (let count := Z.of_nat (List.length processed) in
        10 * (DataTable.totalPages processed - 1) < count
        <= 10 * DataTable.totalPages processed)
    /\ (processed = [] -> DataTable.totalPages processed = 0)
    /\ List.concat
         (map (fun p => DataTable.paginatedData processed (Z.of_nat p))
              (seq 1 (Z.to_nat (DataTable.totalPages processed))))
       = processed.
Proof.
  intros processed.
  pose proof (PagerFacts.totalPages_div processed) as Ht.
  set (n := Z.of_nat (List.length processed)) in *.
  assert (Hn : 0 <= n) by (unfold n; lia).
  pose proof (Z.div_mod (n + 9) 10 ltac:(lia)) as H1.
  pose proof (Z.mod_pos_bound (n + 9) 10 ltac:(lia)) as H2.
  repeat split.
  - intros p.
    pose proof (PagerFacts.slice_length_le processed
                  ((p - 1) * DataTable.PAGE_SIZE) (p * DataTable.PAGE_SIZE)) as H.
    unfold DataTable.paginatedData, DataTable.PAGE_SIZE in *. lia.
  - apply PagerFacts.paginatedData_firstn.
  - cbv zeta. fold n. lia.
  - cbv zeta. fold n. lia.
  - intros ->. reflexivity.
  - rewrite <- seq_shift, map_map.
    rewrite (map_ext _ (fun i => firstn 10 (skipn (i * 10) processed)))
      by (intros i; apply PagerFacts.paginatedData_firstn).
    rewrite chunks_firstn.
    apply firstn_all2. fold n in Ht. lia.
Qed.

(** ** Metadata inference *)

Module MetadataFacts.
Import AnalysisPage.

Lemma more_than_half_spec (c n : nat) :
  more_than_half c n = true <-> (n < 2 * c)%nat.
Proof.
  unfold more_than_half, Qle_bool; simpl.
  rewrite negb_true_iff, Z.leb_gt. lia.
Qed.

Lemma metadata_names (first : DataRow) (rest : list DataRow) :
  map name (metadata (first :: rest)) = keys first.
Proof.
  unfold metadata. rewrite map_map. simpl. apply map_id.
Qed.

Lemma metadata_entry (data : list DataRow) (m : ColumnMetadata) :
  In m (metadata data) ->
  type m = if more_than_half (numericCount data (name m)) (List.length data)
           then TNumber else TString.
Proof.
  destruct data as [|first rest]; simpl; [tauto|].
  intros H. apply in_map_iff in H. destruct H as [h [<- _]]. reflexivity.
Qed.

(** The count of the code is the number of records that hold a number in
    the column. *)
Lemma numericCount_holding (data : list DataRow) (header : string) :
  numericCount data header = Spec.holding_number data header.
Proof.
  unfold numericCount. induction data as [|row data IH]; simpl; [reflexivity|].
  rewrite <- IH. unfold Spec.holds_number, read.
  destruct (get row header) as [[n|s]|]; simpl; try reflexivity.
  destruct (inherited header); reflexivity.
Qed.

End MetadataFacts.

(** C7: over a non-empty record set the inferred columns are those of the
    first record, and a column is typed numeric exactly when the records
    that hold a number in it are strictly more than half of all records,
    and textual otherwise; in particular at exactly half (one of two) the
    column is textual. *)
Theorem metadata_numeric_iff_strict_majority :
  forall (data : list DataRow),
    data <> [] ->
    map name (AnalysisPage.metadata data) = keys (hd [] data)
    /\ forall m, In m (AnalysisPage.metadata data) ->
         let holding := Spec.holding_number data (name m) in
         (type m = TNumber <-> (List.length data < 2 * holding)%nat)
         /\ (type m = TString <-> (2 * holding <= List.length data)%nat)
         /\ (List.length data = (2 * holding)%nat -> type m = TString).
Proof.
  intros data Hne. destruct data as [|first rest]; [congruence|].
  split; [apply MetadataFacts.metadata_names|].
  intros m Hm holding. rewrite (MetadataFacts.metadata_entry _ _ Hm).
  pose proof (MetadataFacts.more_than_half_spec
                (AnalysisPage.numericCount (first :: rest) (name m))
                (List.length (first :: rest))) as Hs.
  rewrite MetadataFacts.numericCount_holding in Hs. fold holding in Hs.
  rewrite MetadataFacts.numericCount_holding. fold holding.
  destruct (AnalysisPage.more_than_half holding (List.length (first :: rest))).
  - assert (Hlt : (List.length (first :: rest) < 2 * holding)%nat) by now apply Hs.
    repeat split; try reflexivity; try discriminate; try (intros _; exact Hlt);
      intros; lia.
  - assert (Hge : (2 * holding <= List.length (first :: rest))%nat).
    { destruct (Nat.le_gt_cases (2 * holding) (List.length (first :: rest)))
        as [H|H]; [exact H|]. apply Hs in H. discriminate H. }
    repeat split; try reflexivity; try discriminate; try (intros _; exact Hge);
      intros; lia.
Qed.

(** The scenario of the specification: [age] holds a number in one record
    of two, and is inferred textual; with a number in two records of
    three it is inferred numeric. *)
Lemma metadata_numeric_iff_strict_majority_witness :
  let data := [ [("name", VStr "Ana"); ("age", VNum (of_Z 30))];
                [("name", VStr "Luis"); ("age", VStr "abc")] ] in
  let more := ([("name", VStr "Eva"); ("age", VNum (of_Z 41))] :: data)%list in
  AnalysisPage.metadata data
  = [ {| name := "name"; type := TString |}; {| name := "age"; type := TString |} ]
  /\ AnalysisPage.metadata more
     = [ {| name := "name"; type := TString |}; {| name := "age"; type := TNumber |} ]
  /\ Spec.holding_number data "age" = 1%nat
  /\ Spec.holding_number more "age" = 2%nat
  /\ (forall m, In m (AnalysisPage.metadata data) -> name m = "age" ->
        type m = TString)
  /\ (forall m, In m (AnalysisPage.metadata more) -> name m = "age" ->
        type m = TNumber).
Proof.
  intros data more.
  assert (Hd : data <> []) by discriminate.
  assert (Hm : more <> []) by discriminate.
  repeat split.
  - intros m Hin Hn.
    apply (proj2 (proj2 (proj2 (metadata_numeric_iff_strict_majority data Hd) m Hin))).
    rewrite Hn. reflexivity.
  - intros m Hin Hn.
    apply (proj1 (proj2 (metadata_numeric_iff_strict_majority more Hm) m Hin)).
    rewrite Hn. vm_compute. lia.
Defined.

(** ** The filters of the query engine *)

Module FilterFacts.
Import Spec.

Lemma apply_stages_conjunction (stages : list (DataRow -> bool)) (rows : list DataRow) :
  apply_stages stages rows = filter (all_pass stages) rows.
Proof.
  revert rows; induction stages as [|p ps IH]; intros rows; simpl.
  - unfold all_pass; simpl. symmetry; apply filter_true.
  - unfold apply_stages in *; simpl. rewrite IH, filter_filter. reflexivity.
Qed.

Lemma apply_stages_app (ps qs : list (DataRow -> bool)) (rows : list DataRow) :
  apply_stages (ps ++ qs) rows = apply_stages qs (apply_stages ps rows).
Proof. unfold apply_stages. apply fold_left_app. Qed.

Lemma all_pass_permutation (ps qs : list (DataRow -> bool)) (row : DataRow) :
  Permutation ps qs -> all_pass ps row = all_pass qs row.
Proof.
  intros H; unfold all_pass.
  induction H; simpl; try congruence.
  now rewrite !andb_assoc, (andb_comm (y row)).
Qed.

Lemma column_filters_stages (F : Printer) (cf : object string) (rows : list DataRow) :
  fold_left (DataTable.apply_column_filter F) cf rows
  = apply_stages (flat_map (column_stage F) cf) rows.
Proof.
  revert rows; induction cf as [|[col text] cf IH]; intros rows; simpl; [reflexivity|].
  rewrite apply_stages_app, IH. f_equal.
  unfold DataTable.apply_column_filter. simpl.
  destruct (nonempty (toLowerCase text)); reflexivity.
Qed.

Lemma range_filters_stages (rf : object DataTable.Range) (rows : list DataRow) :
  fold_left DataTable.apply_range_filter rf rows
  = apply_stages (flat_map range_stage rf) rows.
Proof.
  revert rows; induction rf as [|[col r] rf IH]; intros rows; simpl; [reflexivity|].
  rewrite apply_stages_app, IH. f_equal.
  unfold DataTable.apply_range_filter, range_stage.
  destruct (DataTable.bound_set (DataTable.min r)),
           (DataTable.bound_set (DataTable.max r)); reflexivity.
Qed.

(** The rows the table shows are the rows of the data set that pass the
    stages one after the other. *)
Lemma query_is_stages (F : Printer) (data : list DataRow)
      (searchTerm globalCategory : string)
      (cf : object string) (rf : object DataTable.Range) :
  DataTable.filtered_rows F
    (AnalysisPage.filteredData F data searchTerm globalCategory) cf rf
  = apply_stages (query_stages F data searchTerm globalCategory cf rf) data.
Proof.
  unfold DataTable.filtered_rows, query_stages.
  rewrite column_filters_stages, range_filters_stages.
  change (?a :: ?b :: ?l)%list with ([a; b] ++ l)%list.
  rewrite !apply_stages_app. do 2 f_equal.
  unfold AnalysisPage.filteredData, apply_stages; simpl.
  now rewrite filter_filter.
Qed.

End FilterFacts.

(** C8: the rows left by the search, category, column-text and range
    filters are the rows that pass all of them, and applying the same
    filters in any other order leaves the same rows. *)
Theorem query_filters_conjunctive_any_order :
  forall (F : Printer) (data : list DataRow) (searchTerm globalCategory : string)
         (columnFilters : object string) (rangeFilters : object DataTable.Range)
         (stages' : list (DataRow -> bool)),
    Permutation
      (Spec.query_stages F data searchTerm globalCategory columnFilters rangeFilters)
      stages' ->
    let shown :=
      DataTable.filtered_rows F
        (AnalysisPage.filteredData F data searchTerm globalCategory)
        columnFilters rangeFilters in
    Spec.apply_stages stages' data = shown
    /\ shown = filter (Spec.all_pass
                         (Spec.query_stages F data searchTerm globalCategory
                                                   columnFilters rangeFilters)) data.
Proof.
  intros F data s c cf rf stages' HP shown. subst shown.
  rewrite FilterFacts.query_is_stages, !FilterFacts.apply_stages_conjunction.
  split; [|reflexivity].
  apply filter_ext. intros row. symmetry.
  now apply FilterFacts.all_pass_permutation.
Qed.

Lemma query_filters_conjunctive_any_order_witness :
  let data := [ [("name", VStr "Ana"); ("age", VStr "30")];
                [("name", VStr "Luis"); ("age", VStr "17")];
                [("name", VStr "Eva"); ("age", VStr "n/a")] ] in
  let cf := [("name", "A")] in
  let rf := [("age", {| DataTable.min := Some "18"; DataTable.max := None |})] in
  Spec.apply_stages
    (rev (Spec.query_stages Examples.blank_printer data "a" "All" cf rf)) data
  = DataTable.filtered_rows Examples.blank_printer
      (AnalysisPage.filteredData Examples.blank_printer data "a" "All") cf rf.
Proof.
  intros data cf rf.
  exact (proj1 (query_filters_conjunctive_any_order
                  Examples.blank_printer data "a" "All" cf rf _ (Permutation_rev _))).
Defined.

(** ** Range filters *)

Module RangeFacts.
Import DataTable Spec.

Lemma apply_range_filter_within (filtered : list DataRow) (col : string) (r : Range) :
  apply_range_filter filtered (col, r) = filter (within col r) filtered.
Proof.
  unfold apply_range_filter, within, min_ok, max_ok.
  destruct (bound_set (min r)), (bound_set (max r)).
  - apply filter_filter.
  - apply filter_ext; intros row; now rewrite andb_true_r.
  - reflexivity.
  - symmetry; apply filter_true.
Qed.

Lemma isNaN_eq (x : number) : isNaN x = true -> x = NaN.
Proof. destruct x; simpl; intros H; try discriminate H; reflexivity. Qed.

Lemma ge_NaN_l (y : number) : ge NaN y = false.
Proof. destruct y; reflexivity. Qed.

Lemma le_NaN_l (y : number) : le NaN y = false.
Proof. destruct y; reflexivity. Qed.

Lemma within_NaN (col : string) (r : Range) (row : DataRow) :
  isNaN (ToNumber (read row col)) = true ->
  bound_set (min r) || bound_set (max r) = true ->
  within col r row = false.
Proof.
  intros HN Hb. apply isNaN_eq in HN. unfold within. rewrite HN.
  rewrite ge_NaN_l, le_NaN_l.
  destruct (bound_set (min r)), (bound_set (max r)); simpl in *;
    reflexivity || discriminate.
Qed.

End RangeFacts.

(** C2, as the code has it: a range filter keeps, in order, the rows whose
    numeric cast at the column is at least the minimum when one is set and
    at most the maximum when one is set; a row whose cast is [NaN] is
    dropped as soon as a bound is set; the minimum "18" over the ages
    17, 25 and "n/a" keeps 25 alone. *)
Theorem range_filter_keeps_rows_within_bounds :
  forall (filtered : list DataRow) (col : string) (r : DataTable.Range),
    DataTable.apply_range_filter filtered (col, r)
    = filter (Spec.within col r) filtered
    /\ (forall row,
          In row (DataTable.apply_range_filter filtered (col, r))
          <-> In row filtered
              /\ (DataTable.bound_set (DataTable.min r) = true ->
                  ge (ToNumber (read row col)) (DataTable.bound_number (DataTable.min r)) = true)
              /\ (DataTable.bound_set (DataTable.max r) = true ->
                  le (ToNumber (read row col)) (DataTable.bound_number (DataTable.max r)) = true))
    /\ (forall row,
          isNaN (ToNumber (read row col)) = true ->
          DataTable.bound_set (DataTable.min r) || DataTable.bound_set (DataTable.max r) = true ->
          ~ In row (DataTable.apply_range_filter filtered (col, r)))
    /\ DataTable.apply_range_filter
         [ [("age", VNum (of_Z 17))]; [("age", VNum (of_Z 25))]; [("age", VStr "n/a")] ]
         ("age", {| DataTable.min := Some "18"; DataTable.max := None |})
       = [ [("age", VNum (of_Z 25))] ].
Proof.
  intros filtered col r.
  pose proof (RangeFacts.apply_range_filter_within filtered col r) as HE.
  split; [exact HE|]. split; [|split].
  - intros row. rewrite HE, filter_In. unfold Spec.within.
    destruct (DataTable.bound_set (DataTable.min r)),
             (DataTable.bound_set (DataTable.max r));
      rewrite ?andb_true_iff; intuition (auto; discriminate).
  - intros row HN Hb. rewrite HE, filter_In.
    rewrite (RangeFacts.within_NaN col r row HN Hb). intros [_ H]; discriminate.
  - reflexivity.
Qed.

Lemma range_filter_keeps_rows_within_bounds_witness :
  let rows := [ [("age", VNum (of_Z 17))]; [("age", VStr "n/a")] ] in
  ~ In [("age", VStr "n/a")]
       (DataTable.apply_range_filter rows
          ("age", {| DataTable.min := None; DataTable.max := Some "18" |})).
Proof.
  intros rows.
  apply (proj1 (proj2 (proj2 (range_filter_keeps_rows_within_bounds
                                rows "age"
                                {| DataTable.min := None; DataTable.max := Some "18" |})))).
  - reflexivity.
  - reflexivity.
Defined.

(** A cell that holds no number is not always cast to [NaN]: the empty
    text, which the value parser stores for an empty cell, is cast to 0.
    In a column of ages 17, 25 and an empty cell (typed numeric, two
    numbers of three), the maximum "20" keeps the record with the empty
    cell along with 17.  Likewise "1e3", a text for the parser, is cast to
    1000. *)
Lemma range_filter_keeps_empty_text :
  let blank : DataRow := [("age", VStr "")] in
  let rows : list DataRow :=
    [ [("age", VNum (of_Z 17))]; [("age", VNum (of_Z 25))]; blank ] in
  ProfilePage.robustParseValue (ProfilePage.RString "") = VStr ""
  /\ AnalysisPage.metadata rows = [ {| name := "age"; type := TNumber |} ]
  /\ is_number (read blank "age") = false
  /\ ToNumber (read blank "age") = zero
  /\ DataTable.bound_set (Some "20") = true
  /\ DataTable.apply_range_filter rows
       ("age", {| DataTable.min := None; DataTable.max := Some "20" |})
     = [ [("age", VNum (of_Z 17))]; blank ]
  /\ ProfilePage.robustParseValue (ProfilePage.RString "1e3") = VStr "1e3"
  /\ ToNumber (Own (VStr "1e3")) = of_Z 1000.
Proof. repeat split. Qed.

(** ** Numbers read from text are numbers *)

Module NumberFacts.

Lemma shr_1_nonneg (mrs : shr_record) :
  0 <= shr_m mrs -> 0 <= shr_m (shr_1 mrs).
Proof.
  destruct mrs as [m r s]; destruct m as [|p|p]; simpl; try lia;
    destruct p; simpl; lia.
Qed.

Lemma iter_shr_1_nonneg (n : positive) (mrs : shr_record) :
  0 <= shr_m mrs -> 0 <= shr_m (iter_pos shr_1 n mrs).
Proof.
  revert mrs; induction n as [n IH|n IH|]; intros mrs H; simpl.
  - apply IH, IH, shr_1_nonneg, H.
  - apply IH, IH, H.
  - apply shr_1_nonneg, H.
Qed.

Lemma shr_record_of_loc_m (m : Z) (l : location) :
  shr_m (shr_record_of_loc m l) = m.
Proof. destruct l as [|[]]; reflexivity. Qed.

Lemma shr_fexp_nonneg (m e : Z) (l : location) :
  0 <= m -> 0 <= shr_m (fst (shr_fexp prec emax m e l)).
Proof.
  intros H. unfold shr_fexp, shr.
  destruct (fexp prec emax (Zdigits2 m + e) - e) as [|p|p]; simpl;
    rewrite ?shr_record_of_loc_m; try assumption.
  apply iter_shr_1_nonneg. now rewrite shr_record_of_loc_m.
Qed.

Lemma round_nearest_even_nonneg (m : Z) (l : location) :
  0 <= m -> 0 <= round_nearest_even m l.
Proof.
  intros H. destruct l as [|[]]; simpl; try lia. destruct (Z.even m); lia.
Qed.

Lemma binary_round_aux_number (s : bool) (m e : Z) (l : location) :
  0 <= m -> isNaN (binary_round_aux prec emax s m e l) = false.
Proof.
  intros H. unfold binary_round_aux.
  pose proof (shr_fexp_nonneg m e l H) as H1.
  destruct (shr_fexp prec emax m e l) as [mrs' e'] eqn:E1; simpl in H1.
  pose proof (shr_fexp_nonneg _ e' loc_Exact
                (round_nearest_even_nonneg (shr_m mrs') (loc_of_shr_record mrs') H1)) as H2.
  destruct (shr_fexp prec emax (round_nearest_even _ _) e' loc_Exact)
    as [mrs'' e''] eqn:E2; simpl in H2.
  destruct (shr_m mrs'') as [|p|p]; [reflexivity| |lia].
  destruct (e'' <=? emax - prec); reflexivity.
Qed.

Lemma binary_normalize_number (m e : Z) (s : bool) :
  isNaN (binary_normalize prec emax m e s) = false.
Proof.
  destruct m as [|p|p]; simpl; [reflexivity| |];
    unfold binary_round;
    destruct (shl_align _ _ _) as [mz ez];
    apply binary_round_aux_number; lia.
Qed.

Lemma of_ratio_number (s : bool) (n d : Z) :
  0 <= n -> 0 < d -> isNaN (of_ratio s n d) = false.
Proof.
  intros Hn Hd. unfold of_ratio.
  set (k := Z.max 0 (55 + Z.log2 d - Z.log2 n)).
  destruct (Z.div_eucl (Z.shiftl n k) d) as [q r] eqn:E.
  apply binary_round_aux_number.
  assert (Hq : q = Z.shiftl n k / d) by (unfold Z.div; now rewrite E).
  rewrite Hq. apply Z.div_pos; [|assumption].
  apply Z.shiftl_nonneg; assumption.
Qed.

Lemma of_decimal_number (s : bool) (m e10 : Z) :
  0 <= m -> isNaN (of_decimal s m e10) = false.
Proof.
  intros H. unfold of_decimal.
  destruct (m =? 0); [reflexivity|].
  destruct (Z.leb_spec 0 e10).
  - apply binary_normalize_number.
  - apply of_ratio_number; [assumption|]. apply Z.pow_pos_nonneg; lia.
Qed.

Lemma digits_val_nonneg (s : string) (acc : Z) :
  forallb_str is_digit s = true -> 0 <= acc ->
  0 <= digits_val_from 10 digit_val acc s.
Proof.
  revert acc; induction s as [|c s IH]; intros acc H Ha;
    cbn [digits_val_from forallb_str] in *; [assumption|].
  apply andb_true_iff in H. destruct H as [Hc Hs].
  apply IH; [assumption|].
  unfold is_digit in Hc. apply andb_true_iff in Hc. destruct Hc as [H1 H2].
  apply Z.leb_le in H1. unfold digit_val. lia.
Qed.

Lemma forallb_str_app (p : ascii -> bool) (a b : string) :
  forallb_str p (a ++ b) = forallb_str p a && forallb_str p b.
Proof.
  induction a as [|c a IH]; simpl; [reflexivity|].
  now rewrite IH, andb_assoc.
Qed.

(** What [span] returns: the run, the rest, and why the run stopped. *)
Lemma span_spec (p : ascii -> bool) (s a b : string) :
  span p s = (a, b) ->
  s = a ++ b /\ forallb_str p a = true
  /\ match b with String c _ => p c = false | EmptyString => True end.
Proof.
  revert a b; induction s as [|c s IH]; intros a b H; simpl in H.
  - inversion H; subst; simpl; auto.
  - destruct (p c) eqn:Hc.
    + destruct (span p s) as [a' b'] eqn:E. inversion H; subst.
      destruct (IH a' b eq_refl) as [-> [Ha Hb]]. simpl. rewrite Hc. auto.
    + inversion H; subst; simpl; auto.
Qed.

Lemma span_run (p : ascii -> bool) (a b : string) :
  forallb_str p a = true ->
  match b with String c _ => p c = false | EmptyString => True end ->
  span p (a ++ b) = (a, b).
Proof.
  intros Ha Hb; induction a as [|c a IH]; simpl in *.
  - destruct b as [|c b]; [reflexivity|]. simpl. now rewrite Hb.
  - apply andb_true_iff in Ha. destruct Ha as [Hc Ha].
    rewrite Hc, (IH Ha). reflexivity.
Qed.

(** A decimal literal made of digits denotes a number. *)
Lemma literal_value_number (neg : bool) (int frac : string) (e : Z) :
  forallb_str is_digit int = true -> forallb_str is_digit frac = true ->
  isNaN (literal_value (LitDecimal neg int frac e)) = false.
Proof.
  intros Hi Hf. simpl. apply of_decimal_number.
  apply digits_val_nonneg; [|lia].
  rewrite forallb_str_app, Hi, Hf. reflexivity.
Qed.

Lemma with_exponent_number (neg : bool) (int frac s rest : string) (l : literal) :
  forallb_str is_digit int = true -> forallb_str is_digit frac = true ->
  with_exponent neg int frac s = Some (l, rest) ->
  isNaN (literal_value l) = false.
Proof.
  intros Hi Hf. unfold with_exponent.
  destruct (int ++ frac); [discriminate|].
  destruct (parse_exponent s) as [e r]. intros H; inversion H; subst.
  now apply literal_value_number.
Qed.

Lemma parse_unsigned_number (neg : bool) (s rest : string) (l : literal) :
  parse_unsigned neg s = Some (l, rest) -> isNaN (literal_value l) = false.
Proof.
  unfold parse_unsigned.
  destruct (span is_digit s) as [int s2] eqn:E1.
  destruct (span_spec _ _ _ _ E1) as [_ [Hi _]].
  destruct s2 as [|c s3]; [now apply with_exponent_number|].
  destruct (Ascii.eqb c "."); [|now apply with_exponent_number].
  destruct (span is_digit s3) as [frac s4] eqn:E2.
  destruct (span_spec _ _ _ _ E2) as [_ [Hf _]].
  now apply with_exponent_number.
Qed.

(** Every literal the parser recognises denotes a number. *)
Lemma parse_decimal_prefix_number (s rest : string) (l : literal) :
  parse_decimal_prefix s = Some (l, rest) -> isNaN (literal_value l) = false.
Proof.
  unfold parse_decimal_prefix.
  destruct (split_sign s) as [neg s1].
  destruct (strip_prefix "Infinity" s1) as [r|].
  - intros H; inversion H; reflexivity.
  - apply parse_unsigned_number.
Qed.

Lemma parseFloat_number_iff (s : string) :
  isNaN (parseFloat s) = false <-> parse_decimal_prefix (trimStart s) <> None.
Proof.
  unfold parseFloat.
  destruct (parse_decimal_prefix (trimStart s)) as [[l r]|] eqn:E.
  - rewrite (parse_decimal_prefix_number _ _ _ E). split; congruence.
  - simpl. split; congruence.
Qed.

End NumberFacts.

(** ** The value parser *)

Module ParserFacts.
Import ProfilePage NumberFacts Spec.

(** Case analysis on the 256 code units. *)
Ltac each_char c :=
  destruct c as [[] [] [] [] [] [] [] []]; try discriminate; try reflexivity.



Lemma candidate_not_space (c : ascii) : candidate_char c = true -> is_space c = false.
Proof. each_char c. Qed.

Lemma candidate_not_plus (c : ascii) : candidate_char c = true -> Ascii.eqb c "+" = false.
Proof. each_char c. Qed.

Lemma candidate_is_guard (c : ascii) : candidate_char c = true -> guard_char c = true.
Proof. each_char c. Qed.

Lemma digit_is_candidate (c : ascii) : is_digit c = true -> candidate_char c = true.
Proof. each_char c. Qed.

Lemma digit_not_comma (c : ascii) : is_digit c = true -> Ascii.eqb c "," = false.
Proof. each_char c. Qed.

Lemma digit_not_minus (c : ascii) : is_digit c = true -> Ascii.eqb c "-" = false.
Proof. each_char c. Qed.

Lemma strip_infinity_candidate (c : ascii) (t : string) :
  candidate_char c = true -> strip_prefix "Infinity" (String c t) = None.
Proof. each_char c. Qed.

Lemma forallb_str_impl (p q : ascii -> bool) (s : string) :
  (forall c, p c = true -> q c = true) ->
  forallb_str p s = true -> forallb_str q s = true.
Proof.
  intros H; induction s as [|c s IH]; simpl; [reflexivity|].
  rewrite !andb_true_iff. intros [Hc Hs]. auto.
Qed.

(** *** Trimming *)




Lemma trimEnd_no_space (s : string) :
  forallb_str (fun c => negb (is_space c)) s = true -> trimEnd s = s.
Proof.
  induction s as [|c s IH]; simpl; [reflexivity|].
  rewrite andb_true_iff, negb_true_iff. intros [Hc Hs].
  rewrite (IH Hs), Hc. destruct s; reflexivity.
Qed.

Lemma trim_no_space (s : string) :
  forallb_str (fun c => negb (is_space c)) s = true -> trim s = s.
Proof.
  intros H. unfold trim.
  replace (trimStart s) with s; [now apply trimEnd_no_space|].
  destruct s as [|c s]; [reflexivity|]. simpl in *.
  apply andb_true_iff in H. destruct H as [Hc _].
  apply negb_true_iff in Hc. now rewrite Hc.
Qed.

(** *** The guard *)


Lemma guard_nonempty (s : string) : guard s = true -> String.eqb s "" = false.
Proof.
  unfold guard, nonempty. intros H. apply andb_true_iff in H.
  destruct H as [H _]. now apply negb_true_iff in H.
Qed.

(** *** The stripped candidate *)

Lemma filter_str_class (p : ascii -> bool) (s : string) :
  forallb_str p (filter_str p s) = true.
Proof.
  induction s as [|c s IH]; simpl; [reflexivity|].
  destruct (p c) eqn:E; simpl; [now rewrite E|assumption].
Qed.

Lemma filter_str_all (p : ascii -> bool) (s : string) :
  forallb_str p s = true -> filter_str p s = s.
Proof.
  induction s as [|c s IH]; simpl; [reflexivity|].
  rewrite andb_true_iff. intros [Hc Hs]. now rewrite Hc, IH.
Qed.

Lemma replace_first_class (p : ascii -> bool) (a b : ascii) (s : string) :
  p b = true -> forallb_str p s = true -> forallb_str p (replace_first a b s) = true.
Proof.
  intros Hb; induction s as [|c s IH]; simpl; [reflexivity|].
  rewrite andb_true_iff. intros [Hc Hs].
  destruct (Ascii.eqb c a); simpl; rewrite ?Hb, ?Hc, ?Hs, ?IH; auto.
Qed.

(** Only the first occurrence is replaced: what follows it is untouched. *)
Lemma replace_first_at (a b : ascii) (pre post : string) :
  forallb_str (fun c => negb (Ascii.eqb c a)) pre = true ->
  replace_first a b (pre ++ String a post) = pre ++ String b post.
Proof.
  induction pre as [|c pre IH]; simpl.
  - now rewrite Ascii.eqb_refl.
  - rewrite andb_true_iff, negb_true_iff. intros [Hc Hp]. now rewrite Hc, IH.
Qed.

Lemma numericCandidate_class (clean : string) :
  forallb_str candidate_char (numericCandidate clean) = true.
Proof.
  unfold numericCandidate.
  apply replace_first_class; [reflexivity | apply filter_str_class].
Qed.

(** *** When the candidate parses *)

Lemma with_exponent_some (neg : bool) (int frac s : string) :
  with_exponent neg int frac s <> None <-> int ++ frac <> "".
Proof.
  unfold with_exponent. destruct (int ++ frac).
  - split; congruence.
  - destruct (parse_exponent s). split; congruence.
Qed.

Lemma parse_unsigned_some (neg : bool) (s : string) :
  parse_unsigned neg s <> None <-> unsigned_start s = true.
Proof.
  unfold parse_unsigned.
  destruct s as [|c t].
  - cbv. split; [intros H; now elim H | discriminate].
  - simpl. destruct (is_digit c) eqn:Hc.
    + destruct (span is_digit t) as [a b]. simpl.
      split; [reflexivity|intros _].
      destruct b as [|d b']; [now apply with_exponent_some|].
      destruct (Ascii.eqb d "."); [|now apply with_exponent_some].
      destruct (span is_digit b'). now apply with_exponent_some.
    + simpl. destruct (Ascii.eqb c ".").
      * destruct t as [|d u]; simpl.
        -- split; [intros H; now elim H | discriminate].
        -- destruct (is_digit d).
           ++ destruct (span is_digit u) as [a b].
              split; [reflexivity | intros _]. now apply with_exponent_some.
           ++ split; [intros H; now elim H | discriminate].
      * simpl. split; [intros H; now elim H | discriminate].
Qed.

Lemma parse_candidate_some (s : string) :
  forallb_str candidate_char s = true ->
  (parse_decimal_prefix s <> None <-> begins_number s = true).
Proof.
  intros H. unfold parse_decimal_prefix, split_sign, begins_number.
  destruct s as [|c t]; [cbv; split; [intros X; now elim X | discriminate]|].
  simpl in H. apply andb_true_iff in H. destruct H as [Hc Ht].
  rewrite (candidate_not_plus c Hc).
  destruct (Ascii.eqb c "-").
  - destruct t as [|d u].
    + cbv. split; [intros H; now elim H | discriminate].
    + simpl in Ht. apply andb_true_iff in Ht. destruct Ht as [Hd _].
      rewrite (strip_infinity_candidate d u Hd). apply parse_unsigned_some.
  - rewrite (strip_infinity_candidate c t Hc). apply parse_unsigned_some.
Qed.

Lemma trimStart_candidate (s : string) :
  forallb_str candidate_char s = true -> trimStart s = s.
Proof.
  destruct s as [|c t]; [reflexivity|]. simpl.
  rewrite andb_true_iff. intros [Hc _]. now rewrite (candidate_not_space c Hc).
Qed.

(** The stripped candidate parses exactly when it begins a number. *)
Lemma candidate_parses_iff (clean : string) :
  isNaN (parseFloat (numericCandidate clean)) = false
  <-> begins_number (numericCandidate clean) = true.
Proof.
  rewrite parseFloat_number_iff.
  rewrite (trimStart_candidate _ (numericCandidate_class clean)).
  apply parse_candidate_some, numericCandidate_class.
Qed.

Lemma robustParseValue_text (s : string) :
  robustParseValue (RString s)
  = let clean := trim s in
    if negb (isNaN (parseFloat (numericCandidate clean))) && guard clean
    then VNum (parseFloat (numericCandidate clean))
    else VStr clean.
Proof.
  unfold robustParseValue; simpl.
  destruct (String.eqb_spec (trim s) "") as [E|E]; [|reflexivity].
  rewrite E. reflexivity.
Qed.

End ParserFacts.




Module CommaFacts.
Import ProfilePage NumberFacts ParserFacts.

Lemma append_nil_r (s : string) : s ++ "" = s.
Proof. induction s as [|c s IH]; simpl; [reflexivity | now rewrite IH]. Qed.

Lemma at_first_comma_spec (s pre post : string) :
  Spec.at_first_comma s = Some (pre, post) ->
  s = pre ++ String "," post
  /\ forallb_str (fun c => negb (Ascii.eqb c ",")) pre = true.
Proof.
  revert pre; induction s as [|c s IH]; intros pre; simpl; [discriminate|].
  destruct (Ascii.eqb_spec c ",") as [->|Hc].
  - intros [= <- <-]. split; reflexivity.
  - destruct (Spec.at_first_comma s) as [[pre' post']|]; [|discriminate].
    intros [= <- <-]. destruct (IH pre' eq_refl) as [-> Hp].
    split; [reflexivity|]. simpl. rewrite Hp.
    apply Ascii.eqb_neq in Hc. now rewrite Hc.
Qed.

(** Every text with a comma is cut somewhere. *)
Lemma at_first_comma_some (s : string) :
  existsb_str (fun c => Ascii.eqb c ",") s = true -> Spec.at_first_comma s <> None.
Proof.
  induction s as [|c s IH]; cbn [existsb_str Spec.at_first_comma]; [discriminate|].
  destruct (Ascii.eqb c ","); cbn [orb]; [discriminate|].
  intros H. specialize (IH H).
  destruct (Spec.at_first_comma s) as [[pre post]|]; [discriminate | now elim IH].
Qed.

Lemma filter_str_keeps (p : ascii -> bool) (x : ascii) (s : string) :
  p x = true ->
  existsb_str (fun c => Ascii.eqb c x) s = true ->
  existsb_str (fun c => Ascii.eqb c x) (filter_str p s) = true.
Proof.
  intros Hx; induction s as [|c s IH]; cbn [existsb_str filter_str]; [discriminate|].
  destruct (Ascii.eqb_spec c x) as [->|Hc]; cbn [orb].
  - intros _. rewrite Hx. cbn [existsb_str]. now rewrite Ascii.eqb_refl.
  - intros H. destruct (p c); cbn [existsb_str]; [|now apply IH].
    rewrite (IH H). apply orb_true_r.
Qed.

(** The run at the head of a text that goes on with a character outside
    the class is the run at the head of the text. *)
Lemma span_before (p : ascii -> bool) (a b : string) (x : ascii) :
  p x = false ->
  span p (a ++ String x b) = (fst (span p a), snd (span p a) ++ String x b).
Proof.
  intros Hx; induction a as [|c a IH]; simpl.
  - now rewrite Hx.
  - destruct (p c); [|reflexivity].
    rewrite IH. destruct (span p a) as [u v]. reflexivity.
Qed.

Lemma span_all (p : ascii -> bool) (a : string) :
  forallb_str p a = true -> span p a = (a, "").
Proof.
  intros H. rewrite <- (append_nil_r a) at 1.
  now apply span_run.
Qed.

Lemma span_rest_class (p q : ascii -> bool) (s : string) :
  forallb_str q s = true -> forallb_str q (snd (span p s)) = true.
Proof.
  induction s as [|c s IH]; simpl; [reflexivity|].
  intros H. destruct (p c).
  - apply andb_true_iff in H. destruct H as [_ H]. specialize (IH H).
    destruct (span p s) as [u v]. exact IH.
  - exact H.
Qed.

Lemma span_not_all (p : ascii -> bool) (s : string) :
  forallb_str p s = false ->
  exists c r, snd (span p s) = String c r /\ p c = false.
Proof.
  induction s as [|c s IH]; simpl; [discriminate|].
  destruct (p c) eqn:Hc; simpl.
  - intros H. destruct (IH H) as [d [r [E Hd]]].
    destruct (span p s) as [u v]. exists d, r. split; assumption.
  - intros _. exists c, s. split; [reflexivity | assumption].
Qed.

Lemma candidate_no_exponent (c : ascii) :
  candidate_char c = true -> Ascii.eqb c "e" || Ascii.eqb c "E" = false.
Proof. each_char c. Qed.

(** No exponent follows in a text of the class. *)
Lemma parse_exponent_candidate (s : string) :
  forallb_str candidate_char s = true -> parse_exponent s = (0, s).
Proof.
  destruct s as [|c s]; [reflexivity|]. simpl.
  rewrite andb_true_iff. intros [Hc _].
  now rewrite (candidate_no_exponent c Hc).
Qed.

Lemma with_exponent_candidate (neg : bool) (int frac s : string) :
  forallb_str candidate_char s = true ->
  option_map fst (with_exponent neg int frac s)
  = match int ++ frac with
    | EmptyString => None
    | _ => Some (LitDecimal neg int frac 0)
    end.
Proof.
  intros H. unfold with_exponent. rewrite (parse_exponent_candidate s H).
  destruct (int ++ frac); reflexivity.
Qed.

Lemma split_sign_candidate (s : string) :
  forallb_str candidate_char s = true -> split_sign s = Spec.leading_minus s.
Proof.
  destruct s as [|c s]; [reflexivity|]. simpl.
  rewrite andb_true_iff. intros [Hc _].
  now rewrite (candidate_not_plus c Hc).
Qed.

Lemma leading_minus_spec (s : string) :
  s = (if fst (Spec.leading_minus s) then "-" else "") ++ snd (Spec.leading_minus s).
Proof.
  destruct s as [|c s]; [reflexivity|]. simpl.
  destruct (Ascii.eqb_spec c "-") as [->|]; reflexivity.
Qed.

Lemma leading_minus_before_point (pre post : string) :
  Spec.leading_minus (pre ++ String "." post)
  = (fst (Spec.leading_minus pre), snd (Spec.leading_minus pre) ++ String "." post).
Proof.
  destruct pre as [|c pre]; [reflexivity|]. simpl.
  destruct (Ascii.eqb c "-"); reflexivity.
Qed.

Lemma leading_minus_class (p : ascii -> bool) (s : string) :
  forallb_str p s = true -> forallb_str p (snd (Spec.leading_minus s)) = true.
Proof.
  destruct s as [|c s]; [reflexivity|]. simpl.
  destruct (Ascii.eqb c "-"); simpl; [|tauto].
  rewrite andb_true_iff. tauto.
Qed.

Lemma strip_infinity_class (s : string) :
  forallb_str candidate_char s = true -> strip_prefix "Infinity" s = None.
Proof.
  destruct s as [|c s]; [reflexivity|]. simpl.
  rewrite andb_true_iff. intros [Hc _]. now apply strip_infinity_candidate.
Qed.

(** Reading a text of the class: the literal at its head, past the
    minus sign it may start with. *)
Lemma parseFloat_candidate (s : string) :
  forallb_str candidate_char s = true ->
  parseFloat s
  = match option_map fst (parse_unsigned (fst (Spec.leading_minus s))
                                         (snd (Spec.leading_minus s))) with
    | Some l => literal_value l
    | None => NaN
    end.
Proof.
  intros H. unfold parseFloat.
  rewrite (trimStart_candidate s H). unfold parse_decimal_prefix.
  rewrite (split_sign_candidate s H).
  destruct (Spec.leading_minus s) as [neg s1] eqn:E. simpl fst. simpl snd.
  assert (H1 : forallb_str candidate_char s1 = true).
  { pose proof (leading_minus_class _ s H) as X. now rewrite E in X. }
  rewrite (strip_infinity_class s1 H1).
  destruct (parse_unsigned neg s1) as [[l r]|]; reflexivity.
Qed.

(** Digits, a point, and more: the digits are the integer part and the
    digits after the point the fraction. *)
Lemma parse_unsigned_digits_point (neg : bool) (int post : string) :
  forallb_str is_digit int = true ->
  forallb_str candidate_char post = true ->
  option_map fst (parse_unsigned neg (int ++ String "." post))
  = match int ++ Spec.leading_digits post with
    | EmptyString => None
    | _ => Some (LitDecimal neg int (Spec.leading_digits post) 0)
    end.
Proof.
  intros Hi Hp. unfold parse_unsigned, Spec.leading_digits.
  rewrite (span_run is_digit int (String "." post) Hi eq_refl).
  rewrite Ascii.eqb_refl.
  pose proof (span_rest_class is_digit candidate_char post Hp) as Hr.
  destruct (span is_digit post) as [frac rest]. simpl in *.
  now apply with_exponent_candidate.
Qed.

(** Something else than digits before the point: the number ends before
    the point, and nothing from the point on is read. *)
Lemma parse_unsigned_cut (neg : bool) (int post : string) :
  forallb_str is_digit int = false ->
  forallb_str candidate_char int = true ->
  forallb_str candidate_char post = true ->
  option_map fst (parse_unsigned neg (int ++ String "." post))
  = option_map fst (parse_unsigned neg int).
Proof.
  intros Hd Hi Hp. unfold parse_unsigned.
  rewrite (span_before is_digit int post "." eq_refl).
  destruct (span_not_all is_digit int Hd) as [c [r [E Hc]]].
  pose proof (span_rest_class is_digit candidate_char int Hi) as Hr.
  destruct (span is_digit int) as [D S]. simpl in E, Hr. subst S. simpl.
  simpl in Hr. apply andb_true_iff in Hr. destruct Hr as [Hcc Hr].
  assert (Hx : forallb_str candidate_char (r ++ String "." post) = true).
  { rewrite forallb_str_app. simpl. now rewrite Hr, Hp. }
  destruct (Ascii.eqb c ".").
  - rewrite (span_before is_digit r post "." eq_refl).
    pose proof (span_rest_class is_digit candidate_char r Hr) as Hr'.
    destruct (span is_digit r) as [F S4]. simpl in *.
    rewrite !with_exponent_candidate; [reflexivity | assumption |].
    rewrite forallb_str_app. simpl. now rewrite Hr', Hp.
  - rewrite !with_exponent_candidate; [reflexivity | |]; simpl.
    + now rewrite Hcc, Hr.
    + now rewrite Hcc, Hx.
Qed.

Lemma guard_value (s : string) :
  guard (trim s) = true ->
  robustParseValue (RString s)
  = if isNaN (parseFloat (numericCandidate (trim s)))
    then VStr (trim s)
    else VNum (parseFloat (numericCandidate (trim s))).
Proof.
  intros Hg. rewrite robustParseValue_text. cbv zeta. rewrite Hg, andb_true_r.
  destruct (isNaN _); reflexivity.
Qed.

End CommaFacts.

(** C10, as the code has it: only the first comma of the stripped
    candidate becomes a point, and the candidate is then read as far as
    it is a number.  When only digits stand between an optional leading
    [-] and the first comma, the comma is read as the decimal separator:
    the result is the number made of those digits, the point, and the
    digits that follow the comma, whatever comes after them (a text when
    there is no digit on either side).  When anything else stands before
    the comma, a point or another [-], the number ends before the comma:
    the result is what the part before the comma alone gives.  "1,234"
    is read as 1.234, not 1234, and so is "1,234,567", whose second comma
    ends the number. *)
Theorem comma_is_read_as_decimal_point :
  (forall (s pre post : string),
      let clean := trim s in
      ProfilePage.guard clean = true ->
      Spec.at_first_comma (filter_str ProfilePage.candidate_char clean)
      = Some (pre, post) ->
      let neg := fst (Spec.leading_minus pre) in
      let int := snd (Spec.leading_minus pre) in
      let frac := Spec.leading_digits post in
      ProfilePage.numericCandidate clean = pre ++ String "." post
      /\ (forallb_str is_digit int = true -> int ++ frac <> "" ->
          ProfilePage.robustParseValue (ProfilePage.RString s)
          = VNum (of_decimal neg (decimal_val (int ++ frac))
                             (- Z.of_nat (String.length frac))))
      /\ (forallb_str is_digit int = true -> int ++ frac = "" ->
          ProfilePage.robustParseValue (ProfilePage.RString s) = VStr clean)
      /\ (forallb_str is_digit int = false ->
          ProfilePage.robustParseValue (ProfilePage.RString s)
          = if isNaN (parseFloat pre) then VStr clean else VNum (parseFloat pre)))
  /\ (forall s,
        existsb_str (fun c => Ascii.eqb c ",") (trim s) = true ->
        Spec.at_first_comma (filter_str ProfilePage.candidate_char (trim s)) <> None)
  /\ ProfilePage.robustParseValue (ProfilePage.RString "1,234")
     = VNum (of_decimal false 1234 (-3))
  /\ ProfilePage.robustParseValue (ProfilePage.RString "1,234,567")
     = VNum (of_decimal false 1234 (-3))
  /\ ProfilePage.robustParseValue (ProfilePage.RString "$1,234")
     = VNum (of_decimal false 1234 (-3))
  /\ ProfilePage.robustParseValue (ProfilePage.RString "-1,5")
     = VNum (of_decimal true 15 (-1))
  /\ of_decimal false 1234 (-3) = div (of_Z 1234) (of_Z 1000)
  /\ of_decimal false 1234 (-3) <> of_Z 1234.
Proof.
  split; [|split; [|repeat split]].
  - intros s pre post clean Hg Hcut neg int frac.
    destruct (CommaFacts.at_first_comma_spec _ _ _ Hcut) as [Hs Hpre].
    assert (Hcand : ProfilePage.numericCandidate clean = pre ++ String "." post).
    { unfold ProfilePage.numericCandidate. rewrite Hs.
      now apply ParserFacts.replace_first_at. }
    pose proof (ParserFacts.filter_str_class ProfilePage.candidate_char clean) as Hc.
    rewrite Hs, NumberFacts.forallb_str_app in Hc.
    apply andb_true_iff in Hc. destruct Hc as [Hp1 Hp2].
    simpl in Hp2.
    assert (Hdot : forallb_str ProfilePage.candidate_char (pre ++ String "." post) = true).
    { rewrite NumberFacts.forallb_str_app. simpl. now rewrite Hp1, Hp2. }
    assert (Hint : forallb_str ProfilePage.candidate_char int = true)
      by (apply CommaFacts.leading_minus_class, Hp1).
    split; [exact Hcand|].
    unfold clean. rewrite (CommaFacts.guard_value s Hg). fold clean.
    rewrite Hcand, (CommaFacts.parseFloat_candidate _ Hdot).
    rewrite CommaFacts.leading_minus_before_point.
    cbn [fst snd]. fold neg int.
    split; [|split].
    + intros Hi Hne.
      rewrite (CommaFacts.parse_unsigned_digits_point neg int post Hi Hp2). fold frac.
      destruct (int ++ frac) as [|c r] eqn:E; [now elim Hne|]. rewrite <- E.
      cbn [literal_value]. rewrite NumberFacts.of_decimal_number; [reflexivity|].
      apply NumberFacts.digits_val_nonneg; [|lia].
      rewrite NumberFacts.forallb_str_app, Hi. simpl.
      unfold frac, Spec.leading_digits.
      destruct (span is_digit post) as [f r'] eqn:Ef.
      now destruct (NumberFacts.span_spec _ _ _ _ Ef) as [_ [Hf _]].
    + intros Hi He.
      rewrite (CommaFacts.parse_unsigned_digits_point neg int post Hi Hp2). fold frac.
      rewrite He. reflexivity.
    + intros Hi.
      rewrite (CommaFacts.parse_unsigned_cut neg int post Hi Hint Hp2).
      rewrite (CommaFacts.parseFloat_candidate pre Hp1). reflexivity.
  - intros s H. apply CommaFacts.at_first_comma_some.
    now apply CommaFacts.filter_str_keeps.
  - discriminate.
Qed.


Lemma comma_is_read_as_decimal_point_witness :
  ProfilePage.robustParseValue (ProfilePage.RString " -12,50 %")
  = VNum (of_decimal true 1250 (-2))
  /\ ProfilePage.robustParseValue (ProfilePage.RString "1.234,56")
     = VNum (parseFloat "1.234")
  /\ ProfilePage.robustParseValue (ProfilePage.RString "$ ,") = VStr "$ ,".
Proof.
  assert (Hne : "12" ++ "50" <> "") by discriminate.
  split; [|split].
  - exact (proj1 (proj2 (proj1 comma_is_read_as_decimal_point
                           " -12,50 %" "-12" "50" eq_refl eq_refl))
                 eq_refl Hne).
  - exact (proj2 (proj2 (proj2 (proj1 comma_is_read_as_decimal_point
                                  "1.234,56" "1.234" "56" eq_refl eq_refl)))
                 eq_refl).
  - exact (proj1 (proj2 (proj2 (proj1 comma_is_read_as_decimal_point
                                  "$ ," "" "" eq_refl eq_refl)))
                 eq_refl eq_refl).
Defined.

(** C10 fails as stated on a comma that follows a point: "1.234,56"
    passes the guard and holds a comma, which is read neither as a
    decimal separator (1.23456) nor as a thousands separator (1234.56);
    the number stops in front of it, as for "1.234".  A comma alone
    passes the guard too and is returned as a text. *)
Lemma comma_after_point_ends_the_number :
  ProfilePage.guard (trim "1.234,56") = true
  /\ existsb_str (fun c => Ascii.eqb c ",") "1.234,56" = true
  /\ ProfilePage.robustParseValue (ProfilePage.RString "1.234,56")
     = VNum (of_decimal false 1234 (-3))
  /\ ProfilePage.robustParseValue (ProfilePage.RString "1.234,56")
     = ProfilePage.robustParseValue (ProfilePage.RString "1.234")
  /\ of_decimal false 1234 (-3) <> of_decimal false 123456 (-5)
  /\ of_decimal false 1234 (-3) <> of_decimal false 123456 (-2)
  /\ ProfilePage.guard (trim ",") = true
  /\ ProfilePage.robustParseValue (ProfilePage.RString ",") = VStr ",".
Proof. repeat split; discriminate. Qed.

(** ** The CSV export *)

Module ExportFacts.





End ExportFacts.




(** ** The histogram *)

Module HistogramFacts.
Import ChartBuilder Spec.

Lemma SFcompare_refl (x : number) :
  isNaN x = false -> SFcompare x x = Some Eq.
Proof.
  destruct x as [s|s| |s m e]; simpl; try discriminate; intros _.
  - reflexivity.
  - destruct s; reflexivity.
  - rewrite Z.compare_refl.
    change (Pos.compare_cont Eq m m) with (Pos.compare m m).
    rewrite Pos.compare_refl. destruct s; reflexivity.
Qed.

Lemma min2_same (x : number) : isNaN x = false -> min2 x x = x.
Proof.
  intros H. unfold min2. rewrite (SFcompare_refl x H). destruct x as [[]|[]| |]; reflexivity.
Qed.

Lemma max2_same (x : number) : isNaN x = false -> max2 x x = x.
Proof.
  intros H. unfold max2. rewrite (SFcompare_refl x H). destruct x as [[]|[]| |]; reflexivity.
Qed.

Lemma min2_Infinity (x : number) : isNaN x = false -> min2 Infinity x = x.
Proof. destruct x as [[]|[]| |[]]; try discriminate; reflexivity. Qed.

Lemma max2_neg_Infinity (x : number) :
  isNaN x = false -> max2 (S754_infinity true) x = x.
Proof. destruct x as [[]|[]| |[]]; try discriminate; reflexivity. Qed.

Lemma fold_same (f : number -> number -> number) (x : number) (n : nat) :
  f x x = x -> fold_left f (repeat x n) x = x.
Proof. intros H; induction n as [|n IH]; simpl; [reflexivity | now rewrite H]. Qed.

Lemma min_list_repeat (x : number) (n : nat) :
  isNaN x = false -> min_list (repeat x (S n)) = x.
Proof.
  intros H. unfold min_list. simpl.
  rewrite (min2_Infinity x H). apply fold_same, min2_same, H.
Qed.

Lemma max_list_repeat (x : number) (n : nat) :
  isNaN x = false -> max_list (repeat x (S n)) = x.
Proof.
  intros H. unfold max_list. simpl.
  rewrite (max2_neg_Infinity x H). apply fold_same, max2_same, H.
Qed.

(** A number minus itself is zero, or [NaN] when it is infinite. *)
Lemma sub_same (x : number) : sub x x = zero \/ sub x x = NaN.
Proof.
  destruct x as [[]|[]| |s m e]; simpl; auto.
  left. unfold sub, SFsub. rewrite Z.sub_diag. reflexivity.
Qed.

(** With all values equal the width of the bins is zero (or [NaN]), and
    no value has a bin. *)
Lemma binIndex_same (x : number) : binIndex x (div (sub x x) (of_Z bins)) x = NaN.
Proof.
  unfold binIndex. destruct (sub_same x) as [-> | ->]; reflexivity.
Qed.

Lemma count_value_thrown (lo step : number) (values : list number) :
  fold_left (count_value lo step) values TypeError = TypeError.
Proof. induction values as [|v values IH]; simpl; auto. Qed.

Lemma increment_length (d : list Bin) (i : nat) :
  List.length (increment d i) = List.length d.
Proof.
  revert i; induction d as [|b d IH]; intros [|i]; simpl; auto.
Qed.

Lemma increment_total (d : list Bin) (i : nat) :
  (i < List.length d)%nat -> total (increment d i) = S (total d).
Proof.
  revert i; induction d as [|b d IH]; intros [|i]; simpl; intros H; try lia.
  rewrite IH by lia. lia.
Qed.

Lemma to_index_bound (len : nat) (x : number) (i : nat) :
  to_index len x = Some i -> (i < len)%nat.
Proof.
  assert (HZ : forall z, 0 <= z ->
            (if z <? Z.of_nat len then Some (Z.to_nat z) else None) = Some i ->
            (i < len)%nat).
  { intros z Hz. destruct (Z.ltb_spec z (Z.of_nat len)); [|discriminate].
    intros [= <-]. lia. }
  unfold to_index. destruct x as [s|s| |[] m e]; try discriminate.
  - destruct (Nat.ltb_spec 0 len) as [Hl|Hl]; [|discriminate].
    intros [= <-]; lia.
  - cbv zeta. destruct (Z.leb_spec 0 e) as [He|He].
    + apply HZ. apply Z.mul_nonneg_nonneg; [lia|]. apply Z.pow_nonneg; lia.
    + destruct (Z.pos m mod 2 ^ (- e) =? 0); [|discriminate].
      apply HZ. apply Z.div_pos; [lia|]. apply Z.pow_pos_nonneg; lia.
Qed.

(** When the counting returns, every value went to one bin. *)
Lemma counting_returned (lo step : number) (values : list number)
      (d d' : list Bin) :
  fold_left (count_value lo step) values (Returned d) = Returned d' ->
  List.length d' = List.length d
  /\ total d' = (total d + List.length values)%nat.
Proof.
  revert d; induction values as [|v values IH]; intros d; simpl.
  - intros H; inversion H; subst. split; [reflexivity | lia].
  - destruct (to_index (List.length d) (binIndex lo step v)) as [i|] eqn:E.
    + intros H. destruct (IH _ H) as [H1 H2].
      rewrite increment_length in H1.
      rewrite increment_total in H2 by (eapply to_index_bound; eassumption).
      split; [assumption | lia].
    + rewrite count_value_thrown. discriminate.
Qed.

(** What holds of the histogram whenever it returns: ten bins whose
    frequencies add up to the number of numeric values. *)
Lemma histogram_returned (F : Printer) (data : list DataRow) (yAxis : string)
      (d : list Bin) :
  numeric_values data yAxis <> [] ->
  histogramData F data yAxis = Returned d ->
  List.length d = 10%nat
  /\ total d = List.length (numeric_values data yAxis).
Proof.
  unfold histogramData. intros Hne.
  destruct (numeric_values data yAxis) as [|v values] eqn:E; [congruence|].
  intros H. apply counting_returned in H. destruct H as [H1 H2].
  rewrite H1, H2. split; reflexivity.
Qed.

End HistogramFacts.

(** C3 fails on the histogram: whenever the numeric values of the chosen
    column are all the same (a single record is enough) the bin width is
    zero, the bin index of every value is [NaN], and the computation
    throws a [TypeError] instead of returning bins. *)
Theorem histogram_throws_on_constant_column :
  forall (F : Printer) (data : list DataRow) (xAxis yAxis : string)
         (v : number) (n : nat),
    ChartBuilder.numeric_values data yAxis = repeat v (S n) ->
    ChartBuilder.chartData F data xAxis yAxis ChartBuilder.histogram = TypeError.
Proof.
  intros F data xAxis yAxis v n H.
  assert (Hv : isNaN v = false).
  { assert (In v (ChartBuilder.numeric_values data yAxis)) as Hin
        by (rewrite H; left; reflexivity).
    unfold ChartBuilder.numeric_values in Hin. apply filter_In in Hin.
    destruct Hin as [_ Hin]. now apply negb_true_iff in Hin. }
  unfold ChartBuilder.chartData, ChartBuilder.histogramData. rewrite H.
  rewrite (HistogramFacts.min_list_repeat v n Hv),
          (HistogramFacts.max_list_repeat v n Hv).
  cbn [repeat fold_left]. unfold ChartBuilder.count_value at 2.
  rewrite HistogramFacts.binIndex_same. cbn [to_index NaN].
  now rewrite HistogramFacts.count_value_thrown.
Qed.

Lemma histogram_throws_on_constant_column_witness :
  ChartBuilder.chartData Examples.blank_printer
    [ [("city", VStr "Lima"); ("score", VNum (of_Z 5))];
      [("city", VStr "Quito"); ("score", VNum (of_Z 5))] ]
    "city" "score" ChartBuilder.histogram = TypeError.
Proof.
  apply (histogram_throws_on_constant_column Examples.blank_printer _ "city" "score" (of_Z 5) 1).
  reflexivity.
Defined.

(** C6 fails on a column with one numeric value: there is a value to
    count, and the histogram returns no bins at all. *)
Theorem histogram_single_value_has_no_bins :
  forall (F : Printer),
    let data : list DataRow := [ [("score", VNum (of_Z 5))] ] in
    ChartBuilder.numeric_values data "score" = [of_Z 5]
    /\ ChartBuilder.binIndex (of_Z 5) (div (sub (of_Z 5) (of_Z 5)) (of_Z 10)) (of_Z 5) = NaN
    /\ ChartBuilder.histogramData F data "score" = TypeError
    /\ forall bins, ChartBuilder.histogramData F data "score" <> Returned bins.
Proof.
  intros F data. repeat split. discriminate.
Qed.

(** ** Sorting *)

Module SortFacts.
Import Spec.

Lemma insert_by_permutation {A : Type} (cmp : A -> A -> number) (x : A) (l : list A) :
  Permutation (insert_by cmp x l) (x :: l).
Proof.
  induction l as [|y l IH]; simpl; [reflexivity|].
  destruct (gt (cmp x y) zero); [|reflexivity].
  rewrite IH. apply perm_swap.
Qed.

(** Sorting rearranges: nothing is lost and nothing is added. *)
Lemma sort_permutation {A : Type} (cmp : A -> A -> number) (l : list A) :
  Permutation (sort cmp l) l.
Proof.
  induction l as [|x l IH]; simpl; [reflexivity|].
  unfold sort in *. simpl. rewrite insert_by_permutation. now constructor.
Qed.

Lemma insert_by_sorted {A : Type} (cmp : A -> A -> number) (x : A) (l : list A) :
  (forall a b, gt (cmp a b) zero = true -> gt (cmp b a) zero = false) ->
  Sorted (in_order cmp) l -> Sorted (in_order cmp) (insert_by cmp x l).
Proof.
  intros Hanti. induction l as [|y l IH]; simpl; intros Hs.
  - repeat constructor.
  - destruct (gt (cmp x y) zero) eqn:E.
    + inversion Hs as [|? ? Hs' Hhd]; subst. constructor; [now apply IH|].
      destruct l as [|z l]; simpl.
      * constructor. now apply Hanti.
      * destruct (gt (cmp x z) zero).
        -- inversion Hhd; subst. now constructor.
        -- constructor. now apply Hanti.
    + constructor; [assumption|]. constructor. exact E.
Qed.

Lemma sort_sorted {A : Type} (cmp : A -> A -> number) (l : list A) :
  (forall a b, gt (cmp a b) zero = true -> gt (cmp b a) zero = false) ->
  Sorted (in_order cmp) (sort cmp l).
Proof.
  intros Hanti. induction l as [|x l IH]; [constructor|].
  unfold sort in *. simpl. now apply insert_by_sorted.
Qed.

Lemma firstn_sorted {A : Type} (R : A -> A -> Prop) (n : nat) (l : list A) :
  Sorted R l -> Sorted R (firstn n l).
Proof.
  revert l; induction n as [|n IH]; intros l Hs; simpl; [constructor|].
  destruct l as [|x l]; [constructor|].
  inversion Hs as [|? ? Hs' Hhd]; subst. constructor; [now apply IH|].
  destruct l as [|y l]; destruct n; simpl; try constructor.
  now inversion Hhd.
Qed.

(** A rounded number carrying the sign [-] is not above zero. *)
Lemma negative_round_not_positive (m e : Z) (l : location) :
  SFltb zero (binary_round_aux prec emax true m e l) = false.
Proof.
  unfold binary_round_aux.
  destruct (shr_fexp prec emax m e l) as [mrs' e'].
  destruct (shr_fexp prec emax _ e' loc_Exact) as [mrs'' e''].
  destruct (shr_m mrs''); try reflexivity.
  destruct (e'' <=? emax - prec); reflexivity.
Qed.

Lemma negative_normalize_not_positive (p : positive) (e : Z) :
  SFltb zero (binary_normalize prec emax (Z.neg p) e false) = false.
Proof.
  simpl. unfold binary_round. destruct (shl_align _ _ _) as [mz ez].
  apply negative_round_not_positive.
Qed.

Lemma positive_normalize (m e : Z) :
  SFltb zero (binary_normalize prec emax m e false) = true -> 0 < m.
Proof.
  destruct m as [|p|p]; [discriminate | lia |].
  now rewrite negative_normalize_not_positive.
Qed.

(** If [x - y] is above zero, [y - x] is not. *)
Lemma sub_antisymmetric (x y : number) :
  gt (sub x y) zero = true -> gt (sub y x) zero = false.
Proof.
  unfold gt.
  destruct x as [sx|sx| |sx mx ex], y as [sy|sy| |sy my ey];
    try (simpl; (discriminate || reflexivity));
    try (destruct sx; simpl; (discriminate || reflexivity));
    try (destruct sy; simpl; (discriminate || reflexivity));
    try (destruct sx, sy; simpl; (discriminate || reflexivity)).
  unfold sub, SFsub. rewrite (Z.min_comm ey ex).
  set (a := cond_Zopp sx (Z.pos (fst (shl_align mx ex (Z.min ex ey))))).
  set (b := cond_Zopp sy (Z.pos (fst (shl_align my ey (Z.min ex ey))))).
  intros H. apply positive_normalize in H.
  destruct (b - a) as [|p|p] eqn:E; try lia.
  apply negative_normalize_not_positive.
Qed.

Lemma by_value_desc_antisymmetric (a b : Chart.Datum) :
  gt (Chart.by_value_desc a b) zero = true ->
  gt (Chart.by_value_desc b a) zero = false.
Proof. apply sub_antisymmetric. Qed.

(** Sorting by value puts no datum in front of one the comparator ranks
    before it. *)
Lemma sort_by_value_desc (l : list Chart.Datum) :
  Sorted (in_order Chart.by_value_desc) (sort Chart.by_value_desc l)
  /\ Permutation (sort Chart.by_value_desc l) l.
Proof.
  split; [|apply sort_permutation].
  apply sort_sorted, by_value_desc_antisymmetric.
Qed.

End SortFacts.

(** ** Grouping *)

Module GroupFacts.
Import SortFacts Spec.

Section Objects.
Context {A : Type}.

Lemma get_none_cons (k k1 : string) (v1 : A) (o : object A) :
  get ((k1, v1) :: o) k = None -> String.eqb k1 k = false /\ get o k = None.
Proof. simpl. destruct (String.eqb k1 k); [discriminate | auto]. Qed.

Lemma get_create (o : object A) (k k' : string) (v : A) :
  get o k = None ->
  get (create o k v) k' = if String.eqb k k' then Some v else get o k'.
Proof.
  induction o as [|[k1 v1] o IH]; intros H; simpl; [reflexivity|].
  destruct (get_none_cons _ _ _ _ H) as [H1 H2].
  destruct (key_before k k1); simpl; [reflexivity|].
  rewrite (IH H2).
  destruct (String.eqb_spec k1 k') as [->|]; [|reflexivity].
  rewrite String.eqb_sym in H1. now rewrite H1.
Qed.

Lemma get_update (o : object A) (k k' : string) (v v0 : A) :
  get o k = Some v0 ->
  get (update o k v) k' = if String.eqb k k' then Some v else get o k'.
Proof.
  induction o as [|[k1 v1] o IH]; simpl; [discriminate|].
  destruct (String.eqb_spec k1 k) as [->|Hne]; intros H; simpl.
  - destruct (String.eqb k k'); reflexivity.
  - rewrite (IH H).
    destruct (String.eqb_spec k1 k') as [->|]; [|reflexivity].
    destruct (String.eqb_spec k k'); [congruence | reflexivity].
Qed.

(** Reading after an assignment. *)
Lemma get_set (o : object A) (k k' : string) (v : A) :
  get (set o k v) k' = if String.eqb k k' then Some v else get o k'.
Proof.
  unfold set. destruct (get o k) eqn:E.
  - eapply get_update; eassumption.
  - now apply get_create.
Qed.

Lemma get_in_keys (o : object A) (k : string) :
  In k (keys o) <-> get o k <> None.
Proof.
  induction o as [|[k1 v1] o IH]; simpl.
  - split; [tauto | congruence].
  - destruct (String.eqb_spec k1 k) as [->|Hne].
    + split; [congruence | auto].
    + rewrite <- IH. split; [intros [?|?]; [congruence | assumption] | auto].
Qed.

Lemma keys_update (o : object A) (k : string) (v : A) :
  keys (update o k v) = keys o.
Proof.
  induction o as [|[k1 v1] o IH]; simpl; [reflexivity|].
  destruct (String.eqb k1 k); simpl; [reflexivity | now rewrite IH].
Qed.

Lemma keys_create (o : object A) (k : string) (v : A) :
  Permutation (keys (create o k v)) (k :: keys o).
Proof.
  induction o as [|[k1 v1] o IH]; simpl; [reflexivity|].
  destruct (key_before k k1); simpl; [reflexivity|].
  rewrite IH. apply perm_swap.
Qed.

(** An assignment keeps the keys distinct. *)
Lemma keys_set_nodup (o : object A) (k : string) (v : A) :
  NoDup (keys o) -> NoDup (keys (set o k v)).
Proof.
  intros H. unfold set. destruct (get o k) eqn:E.
  - now rewrite keys_update.
  - apply (Permutation_NoDup (Permutation_sym (keys_create o k v))).
    constructor; [|assumption]. rewrite get_in_keys. congruence.
Qed.
End Objects.

Lemma fill_thrown (entries : list (string * number)) :
  fold_left fill entries TypeError = TypeError.
Proof. induction entries; simpl; auto. Qed.

Lemma filed_app (pre : list (string * number)) (k k' : string) (y : number) :
  filed (pre ++ [(k, y)]) k'
  = (filed pre k' ++ if String.eqb k k' then [y] else [])%list.
Proof.
  unfold filed. rewrite filter_app, map_app. simpl.
  destruct (String.eqb k k'); reflexivity.
Qed.

Lemma push_holds (g g' : Chart.groups) (pre : list (string * number))
      (k : string) (y : number) :
  holds g pre -> Chart.push g k y = Returned g' -> holds g' (pre ++ [(k, y)]).
Proof.
  intros [Hnd Hget] Hp. unfold Chart.push in Hp.
  assert (Hg' : g' = set g k (filed pre k ++ [y])%list).
  { rewrite (Hget k) in Hp. destruct (filed pre k) eqn:E.
    - destruct (inherited k); [discriminate|]. now inversion Hp.
    - now inversion Hp. }
  subst g'. split; [now apply keys_set_nodup|].
  intros k'. rewrite get_set, filed_app, (Hget k').
  destruct (String.eqb_spec k k') as [->|Hne].
  - destruct (filed pre k'); reflexivity.
  - now rewrite app_nil_r.
Qed.

Lemma fill_holds (rest pre : list (string * number)) (g g' : Chart.groups) :
  holds g pre ->
  fold_left fill rest (Returned g) = Returned g' ->
  holds g' (pre ++ rest).
Proof.
  revert pre g; induction rest as [|[k y] rest IH]; intros pre g Hh; simpl.
  - intros [= <-]. now rewrite app_nil_r.
  - destruct (Chart.push g k y) as [g1|] eqn:E.
    + intros H. replace (pre ++ (k, y) :: rest)%list
        with ((pre ++ [(k, y)]) ++ rest)%list by (now rewrite <- app_assoc).
      eapply IH; [|eassumption]. eapply push_holds; eassumption.
    + rewrite fill_thrown. discriminate.
Qed.

(** What a run of [push] from the empty dictionary builds: one key per
    group met, holding the values of the group in order. *)
Lemma fill_groups (entries : list (string * number)) (g : Chart.groups) :
  fold_left fill entries (Returned []) = Returned g ->
  NoDup (keys g)
  /\ (forall k, In k (keys g) <-> In k (map fst entries))
  /\ (forall k, In k (keys g) -> get g k = Some (filed entries k)).
Proof.
  intros H.
  destruct (fill_holds entries [] [] g) as [Hnd Hget]; [|assumption|].
  { split; [constructor | reflexivity]. }
  simpl in Hget. split; [assumption|]. split.
  - intros k. rewrite get_in_keys, (Hget k). unfold filed.
    split.
    + intros Hne. destruct (filter _ entries) as [|e l] eqn:E; [now elim Hne|].
      assert (In e (filter (fun e => String.eqb (fst e) k) entries)) as Hin
          by (rewrite E; now left).
      apply filter_In in Hin. destruct Hin as [Hin Hk].
      apply String.eqb_eq in Hk. subst k. now apply in_map.
    + intros Hin. apply in_map_iff in Hin. destruct Hin as [e [<- Hin]].
      assert (In e (filter (fun e0 => String.eqb (fst e0) (fst e)) entries)) as Hf
          by (apply filter_In; split; [assumption | apply String.eqb_refl]).
      destruct (filter _ entries); [contradiction | discriminate].
  - intros k Hk. apply get_in_keys in Hk. rewrite (Hget k) in *.
    destruct (filed entries k); [now elim Hk | reflexivity].
Qed.

Lemma fold_left_fill_map {B : Type} (f : B -> string * number) (l : list B)
      (acc : outcome Chart.groups) :
  fold_left (fun a d => bind a (fun g => Chart.push g (fst (f d)) (snd (f d)))) l acc
  = fold_left fill (map f l) acc.
Proof. revert acc; induction l as [|d l IH]; intros acc; simpl; auto. Qed.

End GroupFacts.

(** What the chart builder returns for a grouped chart, whenever it
    returns: the first fifteen of a list that holds one datum per group of
    the first 500 records, each with the mean of the values of its group,
    and in which no datum stands in front of one with a greater value. *)
Lemma chart_builder_groups_then_sorts_then_truncates :
  forall (F : Printer) (data : list DataRow) (xAxis yAxis : string)
         (result : list Chart.Datum),
    ChartBuilder.groupedData F data xAxis yAxis = Returned result ->
    let records := slice data 0 500 in
    exists all,
      result = firstn 15 all
      /\ Sorted (Spec.in_order Chart.by_value_desc) all
      /\ NoDup (map Chart.name all)
      /\ (forall k, In k (map Chart.name all)
                    <-> exists d, In d records /\ ChartBuilder.xVal F d xAxis = k)
      /\ (forall p, In p all ->
            Chart.value p
            = Chart.mean
                (map (fun d => ChartBuilder.yVal d yAxis)
                     (filter (fun d => String.eqb (ChartBuilder.xVal F d xAxis)
                                                  (Chart.name p)) records))).
Proof.
  intros F data xAxis yAxis result H records.
  unfold ChartBuilder.groupedData in H.
  destruct (ChartBuilder.grouped F data xAxis yAxis) as [g|] eqn:E; [|discriminate].
  simpl in H. injection H as <-.
  unfold ChartBuilder.grouped in E. fold records in E.
  rewrite (GroupFacts.fold_left_fill_map
             (fun d => (ChartBuilder.xVal F d xAxis, ChartBuilder.yVal d yAxis))) in E.
  set (entries := map _ records) in E.
  destruct (GroupFacts.fill_groups entries g E) as [Hnd [Hkeys Hget]].
  set (unsorted := map (Chart.datum_of g) (keys g)).
  destruct (SortFacts.sort_by_value_desc unsorted) as [Hs Hp].
  assert (Hnames : map Chart.name unsorted = keys g).
  { unfold unsorted. rewrite map_map. simpl. apply map_id. }
  exists (sort Chart.by_value_desc unsorted). repeat split.
  - apply (PagerFacts.slice_nonneg _ 0 15).
  - exact Hs.
  - apply (Permutation_NoDup (Permutation_sym (Permutation_map Chart.name Hp))).
    now rewrite Hnames.
  - intros Hin. apply (Permutation_in _ (Permutation_map Chart.name Hp)) in Hin.
    rewrite Hnames in Hin. apply Hkeys in Hin. unfold entries in Hin.
    rewrite map_map in Hin. simpl in Hin. apply in_map_iff in Hin.
    destruct Hin as [d [Hd Hin]]. eauto.
  - intros [d [Hin Hd]].
    apply (Permutation_in _ (Permutation_sym (Permutation_map Chart.name Hp))).
    rewrite Hnames. apply Hkeys. unfold entries. rewrite map_map. simpl.
    apply in_map_iff. eauto.
  - intros p Hin. apply (Permutation_in _ Hp) in Hin.
    unfold unsorted in Hin. apply in_map_iff in Hin. destruct Hin as [k [<- Hk]].
    unfold Chart.datum_of. simpl. rewrite (Hget k Hk). f_equal.
    unfold Spec.filed, entries. rewrite filter_map_swap, map_map. reflexivity.
Qed.

(** ** The group mean *)

(** C5 fails on the dashboard chart: it keeps the first ten groups met
    and only then sorts them.  Over eleven regions of which the last has
    the greatest mean, that region is missing from the chart, whereas the
    ten greatest means (what the claim describes, and what the chart
    builder computes on the same records) start with it. *)
Theorem dashboard_chart_truncates_before_sorting :
  forall (F : Printer),
    let data := Examples.sales_by_region in
    let bar := Examples.bar in
    AnalysisPage.metadata data
    = [ {| name := "region"; type := TString |}; {| name := "sales"; type := TNumber |} ]
    /\ Dashboard.chartData F data (AnalysisPage.metadata data)
       = Returned [ bar "j" 10; bar "i" 9; bar "h" 8; bar "g" 7; bar "f" 6;
                    bar "e" 5; bar "d" 4; bar "c" 3; bar "b" 2; bar "a" 1 ]
    /\ Spec.groupMean F data "region" "sales" 10
       = [ bar "k" 11; bar "j" 10; bar "i" 9; bar "h" 8; bar "g" 7;
           bar "f" 6; bar "e" 5; bar "d" 4; bar "c" 3; bar "b" 2 ]
    /\ ChartBuilder.groupedData F data "region" "sales"
       = Returned (Spec.groupMean F data "region" "sales" 15)
    /\ Dashboard.chartData F data (AnalysisPage.metadata data)
       <> Returned (Spec.groupMean F data "region" "sales" 10).
Proof.
  intros F data bar. repeat split. discriminate.
Qed.

(** The dashboard chart has neither of the defaults of the chart builder:
    a record without the group column is filed under "undefined", and a
    value that is not a number makes the mean of its group [NaN]. *)
Lemma dashboard_chart_has_no_defaults :
  forall (F : Printer),
    let data : list DataRow :=
      [ [("sales", VNum (of_Z 4))];
        [("region", VStr "north"); ("sales", VNum (of_Z 2))];
        [("region", VStr "north"); ("sales", VStr "n/a")] ] in
    let md := [ {| name := "region"; type := TString |};
                {| name := "sales"; type := TNumber |} ] in
    Dashboard.chartData F data md
    = Returned [ {| Chart.name := "undefined"; Chart.value := of_Z 4 |};
                 {| Chart.name := "north"; Chart.value := NaN |} ]
    /\ ChartBuilder.groupedData F data "region" "sales"
       = Returned [ {| Chart.name := "N/A"; Chart.value := of_Z 4 |};
                    {| Chart.name := "north"; Chart.value := of_Z 1 |} ].
Proof. intros F data md. split; reflexivity. Qed.

(** Both charts throw on a group whose name is that of a property every
    object inherits: the dictionary of groups reads it as present. *)
Lemma grouping_throws_on_inherited_name :
  forall (F : Printer),
    let data : list DataRow :=
      [ [("word", VStr "toString"); ("count", VNum (of_Z 3))] ] in
    let md := [ {| name := "word"; type := TString |};
                {| name := "count"; type := TNumber |} ] in
    Dashboard.chartData F data md = TypeError
    /\ ChartBuilder.chartData F data "word" "count" ChartBuilder.bar = TypeError.
Proof. intros F data md. split; reflexivity. Qed.

(* ================================================================== *)
(** * Further properties of the code *)
(* ================================================================== *)

(** ** The value parser, continued *)

Module TrimFacts.

Lemma trimEnd_idempotent (s : string) : trimEnd (trimEnd s) = trimEnd s.
Proof.
  induction s as [|c s IH]; simpl; [reflexivity|].
  destruct (trimEnd s) as [|d t] eqn:E.
  - destruct (is_space c) eqn:Hc; simpl; [reflexivity | now rewrite Hc].
  - cbn [trimEnd] in *. fold trimEnd in *. rewrite IH. reflexivity.
Qed.

Lemma trimEnd_head (c : ascii) (t : string) :
  is_space c = false -> exists t', trimEnd (String c t) = String c t'.
Proof.
  intros H. simpl. destruct (trimEnd t).
  - rewrite H. eauto.
  - eauto.
Qed.

Lemma trimStart_head (s : string) :
  trimStart s = EmptyString
  \/ exists c t, trimStart s = String c t /\ is_space c = false.
Proof.
  induction s as [|c s IH]; simpl; [now left|].
  destruct (is_space c) eqn:E; [assumption|]. right. eauto.
Qed.

(** Trimming a trimmed text changes nothing. *)
Lemma trim_idempotent (s : string) : trim (trim s) = trim s.
Proof.
  unfold trim.
  destruct (trimStart_head s) as [->|[c [t [-> Hc]]]]; [reflexivity|].
  destruct (trimEnd_head c t Hc) as [t' E]. rewrite E.
  simpl trimStart. rewrite Hc. rewrite <- E. apply trimEnd_idempotent.
Qed.

End TrimFacts.

Module CellFacts.

(** A text is parsed to a clean cell. *)
Lemma parsed_text_clean (s : string) :
  Vocabulary.clean_cell (ProfilePage.robustParseValue (ProfilePage.RString s)).
Proof.
  rewrite ParserFacts.robustParseValue_text. cbv zeta.
  destruct (isNaN (parseFloat _)) eqn:E; simpl.
  - apply TrimFacts.trim_idempotent.
  - destruct (ProfilePage.guard (trim s)); simpl;
      [exact E | apply TrimFacts.trim_idempotent].
Qed.

End CellFacts.

(** X1: whatever the raw cell, a number is handed back unchanged, and
    anything else becomes either a number that is not [NaN] or a text
    without white space at its ends. *)
Theorem value_parser_yields_clean_cells :
  forall (val : ProfilePage.RawValue),
    match val with
    | ProfilePage.RNumber n => ProfilePage.robustParseValue val = VNum n
    | _ => Vocabulary.clean_cell (ProfilePage.robustParseValue val)
    end.
Proof.
  intros [| |n|s|[]]; try reflexivity. apply CellFacts.parsed_text_clean.
Qed.

(** X2: parsing is idempotent: a parsed cell parsed again is itself. *)
Theorem value_parser_idempotent :
  forall (val : ProfilePage.RawValue),
    ProfilePage.robustParseValue
      (Vocabulary.raw_of (ProfilePage.robustParseValue val))
    = ProfilePage.robustParseValue val.
Proof.
  assert (H : forall s,
             ProfilePage.robustParseValue
               (Vocabulary.raw_of (ProfilePage.robustParseValue (ProfilePage.RString s)))
             = ProfilePage.robustParseValue (ProfilePage.RString s)).
  { intros s. rewrite (ParserFacts.robustParseValue_text s). cbv zeta.
    destruct (negb (isNaN (parseFloat (ProfilePage.numericCandidate (trim s))))
              && ProfilePage.guard (trim s)) eqn:E; [reflexivity|].
    simpl Vocabulary.raw_of. rewrite ParserFacts.robustParseValue_text. cbv zeta.
    now rewrite TrimFacts.trim_idempotent, E. }
  intros [| |n|s|[]]; try reflexivity. apply H.
Qed.

(** X3: among the texts that pass the guard, the number read depends
    only on the digits, points, commas and minus signs: currency and
    percent signs, plus signs and spaces change nothing (a percentage is
    not divided by 100). *)
Theorem value_parser_ignores_symbols :
  forall (s1 s2 : string),
    ProfilePage.guard (trim s1) = true ->
    ProfilePage.guard (trim s2) = true ->
    filter_str ProfilePage.candidate_char (trim s1)
    = filter_str ProfilePage.candidate_char (trim s2) ->
    Spec.begins_number (ProfilePage.numericCandidate (trim s1)) = true ->
    ProfilePage.robustParseValue (ProfilePage.RString s1)
    = ProfilePage.robustParseValue (ProfilePage.RString s2)
    /\ exists n, ProfilePage.robustParseValue (ProfilePage.RString s1) = VNum n.
Proof.
  intros s1 s2 H1 H2 Hc Hb.
  assert (Hn : ProfilePage.numericCandidate (trim s1)
               = ProfilePage.numericCandidate (trim s2))
    by (unfold ProfilePage.numericCandidate; now rewrite Hc).
  apply ParserFacts.candidate_parses_iff in Hb.
  rewrite !ParserFacts.robustParseValue_text. cbv zeta.
  rewrite <- Hn, Hb, H1, H2. simpl. eauto.
Qed.

Lemma value_parser_ignores_symbols_witness :
  ProfilePage.robustParseValue (ProfilePage.RString " $ 1250 ")
  = ProfilePage.robustParseValue (ProfilePage.RString "+1250%")
  /\ exists n, ProfilePage.robustParseValue (ProfilePage.RString " $ 1250 ") = VNum n.
Proof.
  apply (value_parser_ignores_symbols " $ 1250 " "+1250%"); reflexivity.
Defined.

(** ** Reading a CSV file *)

Module CsvFacts.
Import FileUpload Vocabulary GroupFacts.

Lemma split_fields_cons (line : string) :
  exists field fields, split_fields line = field :: fields.
Proof.
  destruct line as [|c rest]; simpl; [eauto|].
  destruct (Ascii.eqb c "," && outside_quotes rest); [eauto|].
  destruct (split_fields rest); eauto.
Qed.

Lemma join_cons_char (c : ascii) (field : string) (fields : list string) :
  join "," (String c field :: fields) = String c (join "," (field :: fields)).
Proof. destruct fields; reflexivity. Qed.

Lemma join_cons_cons (x y : string) (l : list string) :
  join "," (x :: y :: l) = x ++ "," ++ join "," (y :: l).
Proof. reflexivity. Qed.


(** *** The keys of a row depend on the headers alone *)

Section Keys.
Context {A B : Type}.

Lemma get_none_keys (o : object A) (o' : object B) (k : string) :
  keys o = keys o' -> (get o k = None <-> get o' k = None).
Proof.
  intros H.
  assert (X : forall {C} (p : object C), get p k = None <-> ~ In k (keys p)).
  { intros C p. rewrite get_in_keys. destruct (get p k).
    - split; [discriminate | intros Hn; elim Hn; discriminate].
    - split; [intros _ Hn; now apply Hn | reflexivity]. }
  rewrite !X, H. reflexivity.
Qed.

Lemma keys_create_same (o : object A) (o' : object B) (k : string) (v : A) (v' : B) :
  keys o = keys o' -> keys (create o k v) = keys (create o' k v').
Proof.
  revert o'; induction o as [|[k1 v1] o IH]; intros [|[k1' v1'] o'] H;
    simpl in *; try discriminate; [reflexivity|].
  injection H as -> H.
  destruct (key_before k k1'); simpl;
    [do 2 f_equal; exact H | f_equal; apply IH; exact H].
Qed.

Lemma keys_set_same (o : object A) (o' : object B) (k : string) (v : A) (v' : B) :
  keys o = keys o' -> keys (set o k v) = keys (set o' k v').
Proof.
  intros H. pose proof (get_none_keys o o' k H) as Hn. unfold set.
  destruct (get o k) eqn:E, (get o' k) eqn:E'.
  - rewrite (keys_update o), (keys_update o'). exact H.
  - destruct Hn as [_ Hn]. discriminate (Hn eq_refl).
  - destruct Hn as [Hn _]. discriminate (Hn eq_refl).
  - now apply keys_create_same.
Qed.

Lemma keys_assign_same (o : object A) (o' : object B) (k : string) (v : A) (v' : B) :
  keys o = keys o' -> keys (assign o k v) = keys (assign o' k v').
Proof.
  intros H. unfold assign.
  destruct (String.eqb k "__proto__"); [assumption | now apply keys_set_same].
Qed.
End Keys.

Lemma in_keys_set {A : Type} (o : object A) (k k' : string) (v : A) :
  In k' (keys (set o k v)) <-> k' = k \/ In k' (keys o).
Proof.
  rewrite !get_in_keys, get_set.
  destruct (String.eqb_spec k k') as [->|Hne].
  - split; [auto | discriminate].
  - split; [auto | intros [E|H]; [congruence | assumption]].
Qed.

Lemma in_keys_assign {A : Type} (o : object A) (k k' : string) (v : A) :
  In k' (keys (assign o k v))
  <-> (k' = k /\ k <> "__proto__") \/ In k' (keys o).
Proof.
  unfold assign. destruct (String.eqb_spec k "__proto__") as [->|Hne].
  - split; [auto | intros [[_ H]|H]; [congruence | assumption]].
  - rewrite in_keys_set. tauto.
Qed.

Section BuildRow.
Context {I A : Type}.
Variable f : I * string -> A.

Lemma keys_fold_assign_same (g : I * string -> A) (l : list (I * string))
      (o o' : object A) :
  keys o = keys o' ->
  keys (fold_left (fun row ih => assign row (snd ih) (f ih)) l o)
  = keys (fold_left (fun row ih => assign row (snd ih) (g ih)) l o').
Proof.
  revert o o'; induction l as [|ih l IH]; intros o o' H; simpl; [assumption|].
  apply IH. now apply keys_assign_same.
Qed.

Lemma keys_fold_assign_nodup (l : list (I * string)) (o : object A) :
  NoDup (keys o) ->
  NoDup (keys (fold_left (fun row ih => assign row (snd ih) (f ih)) l o)).
Proof.
  revert o; induction l as [|ih l IH]; intros o H; simpl; [assumption|].
  apply IH. unfold assign.
  destruct (String.eqb (snd ih) "__proto__"); [assumption | now apply keys_set_nodup].
Qed.

Lemma in_keys_fold_assign (l : list (I * string)) (o : object A) (k : string) :
  In k (keys (fold_left (fun row ih => assign row (snd ih) (f ih)) l o))
  <-> (In k (map snd l) /\ k <> "__proto__") \/ In k (keys o).
Proof.
  revert o; induction l as [|ih l IH]; intros o; simpl; [tauto|].
  rewrite IH, in_keys_assign. split.
  - intros [[H1 H2]|[[-> H]|H]]; auto.
  - intros [[[<-|H1] H2]|H]; auto.
Qed.
End BuildRow.

Lemma keys_build_row (headers values : list string) :
  keys (build_row headers values) = schema headers.
Proof. unfold schema, build_row. now apply keys_fold_assign_same. Qed.

Lemma snd_combine_seq (headers : list string) (start : nat) :
  map snd (combine (seq start (List.length headers)) headers) = headers.
Proof.
  revert start; induction headers as [|h headers IH]; intros start; simpl;
    [reflexivity | now rewrite IH].
Qed.

Lemma schema_spec (headers : list string) :
  NoDup (schema headers)
  /\ forall k, In k (schema headers) <-> In k headers /\ k <> "__proto__".
Proof.
  unfold schema, build_row. split.
  - apply (keys_fold_assign_nodup
             (fun ih : nat * string => clean_field (nth (fst ih) [] EmptyString))).
    constructor.
  - intros k.
    rewrite (in_keys_fold_assign
               (fun ih : nat * string => clean_field (nth (fst ih) [] EmptyString))).
    rewrite snd_combine_seq. simpl. tauto.
Qed.

Lemma keys_processed (row : object string) :
  keys (map (fun kv => (fst kv, ProfilePage.robustParseValue (snd kv)))
            (map (fun kv => (fst kv, ProfilePage.RString (snd kv))) row))
  = keys row.
Proof. unfold keys. rewrite !map_map. reflexivity. Qed.

(** What [importCSV] returns, when it returns. *)
Lemma importCSV_rows (text : string) (rows : list DataRow) :
  importCSV text = Some rows ->
  rows = map (fun line =>
                map (fun kv => (fst kv, ProfilePage.robustParseValue
                                          (ProfilePage.RString (snd kv))))
                    (build_row (csv_headers (csv_lines text)) (split_fields line)))
             (skipn 1 (csv_lines text))
  /\ (2 <= List.length (csv_lines text))%nat.
Proof.
  unfold importCSV. destruct (Nat.ltb_spec (List.length (csv_lines text)) 2); [discriminate|].
  intros [= <-]. split; [|assumption].
  unfold ProfilePage.processDataRows. rewrite !map_map.
  apply map_ext. intros line. rewrite map_map. reflexivity.
Qed.

End CsvFacts.

(** X4: cutting a line into fields loses nothing but the separating
    commas: the fields joined by commas are the line. *)
Theorem csv_fields_joined_give_the_line :
  forall (line : string), join "," (FileUpload.split_fields line) = line.
Proof.
  induction line as [|c rest IH]; [reflexivity|].
  cbn [FileUpload.split_fields].
  destruct (CsvFacts.split_fields_cons rest) as [field [fields E]].
  rewrite E in IH |- *.
  destruct (Ascii.eqb c "," && FileUpload.outside_quotes rest) eqn:Hsep.
  - apply andb_true_iff in Hsep. destruct Hsep as [Hc _].
    apply Ascii.eqb_eq in Hc. subst c.
    rewrite CsvFacts.join_cons_cons, IH. reflexivity.
  - now rewrite CsvFacts.join_cons_char, IH.
Qed.

(** X5: a line without double quotes is cut at every comma: it has one
    field more than it has commas, and no field holds a comma. *)
Theorem csv_unquoted_line_cut_at_every_comma :
  forall (line : string),
    FileUpload.count_quotes line = 0%nat ->
    List.length (FileUpload.split_fields line) = S (Vocabulary.count_commas line)
    /\ Forall (fun field => Vocabulary.count_commas field = 0%nat)
              (FileUpload.split_fields line).
Proof.
  induction line as [|c rest IH]; intros H.
  - split; [reflexivity | repeat constructor].
  - cbn [FileUpload.count_quotes] in H.
    destruct (Ascii.eqb c FileUpload.DQUOTE); [discriminate H|].
    simpl in H. destruct (IH H) as [Hl Hf].
    cbn [FileUpload.split_fields Vocabulary.count_commas].
    unfold FileUpload.outside_quotes. rewrite H.
    change (Nat.even 0) with true. rewrite andb_true_r.
    destruct (Ascii.eqb c ",") eqn:Hc.
    + split; [simpl; now rewrite Hl | now constructor].
    + destruct (FileUpload.split_fields rest) as [|field fields]; [discriminate Hl|].
      split; [exact Hl|]. inversion Hf; subst. constructor; [|assumption].
      cbn [Vocabulary.count_commas]. now rewrite Hc.
Qed.

Lemma csv_unquoted_line_cut_at_every_comma_witness :
  List.length (FileUpload.split_fields "Ana, 30,,Lima") = 4%nat
  /\ Forall (fun field => Vocabulary.count_commas field = 0%nat)
            (FileUpload.split_fields "Ana, 30,,Lima").
Proof.
  apply (csv_unquoted_line_cut_at_every_comma "Ana, 30,,Lima"). reflexivity.
Defined.



(** X7: the records of a CSV import all have the same columns in the same
    order: the distinct headers (but [__proto__]), as the first record
    lists them.  The inferred metadata therefore names every column of
    every record. *)
Theorem csv_rows_share_columns :
  forall (text : string) (rows : list DataRow),
    FileUpload.importCSV text = Some rows ->
    let headers := FileUpload.csv_headers (FileUpload.csv_lines text) in
    let columns := Vocabulary.schema headers in
    NoDup columns
    /\ (forall k, In k columns <-> In k headers /\ k <> "__proto__")
    /\ Forall (fun row => keys row = columns) rows
    /\ map name (AnalysisPage.metadata rows) = columns.
Proof.
  intros text rows H headers columns.
  destruct (CsvFacts.importCSV_rows text rows H) as [E Hl].
  destruct (CsvFacts.schema_spec headers) as [Hnd Hin].
  assert (HF : Forall (fun row => keys row = columns) rows).
  { rewrite E. apply Forall_forall. intros row Hrow.
    apply in_map_iff in Hrow. destruct Hrow as [line [<- _]].
    unfold keys at 1. rewrite map_map. simpl.
    apply (CsvFacts.keys_build_row headers). }
  repeat split; try assumption; try (now apply Hin).
  destruct rows as [|first rest].
  - apply (f_equal (@List.length _)) in E.
    rewrite length_map, length_skipn in E. simpl in E. lia.
  - rewrite MetadataFacts.metadata_names. now inversion HF.
Qed.

Lemma csv_rows_share_columns_witness :
  let text := "id,name,id" ++ newline ++ "1,Ana,7" ++ newline ++ "2" in
  exists rows,
    FileUpload.importCSV text = Some rows
    /\ Forall (fun row => keys row = ["id"; "name"]) rows
    /\ map name (AnalysisPage.metadata rows) = ["id"; "name"].
Proof.
  intros text.
  destruct (FileUpload.importCSV text) as [rows|] eqn:E; [|discriminate E].
  exists rows. split; [reflexivity|].
  exact (proj2 (proj2 (csv_rows_share_columns text rows E))).
Defined.

(** X8: every cell of a CSV import is a number that is not [NaN] or a
    text without white space at its ends. *)
Theorem csv_import_yields_clean_cells :
  forall (text : string) (rows : list DataRow) (row : DataRow)
         (k : string) (v : CellValue),
    FileUpload.importCSV text = Some rows ->
    In row rows -> In (k, v) row -> Vocabulary.clean_cell v.
Proof.
  intros text rows row k v H Hrow Hcell.
  destruct (CsvFacts.importCSV_rows text rows H) as [-> _].
  apply in_map_iff in Hrow. destruct Hrow as [line [<- _]].
  apply in_map_iff in Hcell. destruct Hcell as [[k' s] [[= <- <-] _]].
  apply CellFacts.parsed_text_clean.
Qed.

Lemma csv_import_yields_clean_cells_witness :
  let text := "name,age" ++ newline ++ " Ana , 30 " in
  FileUpload.importCSV text
  = Some [ [("name", VStr "Ana"); ("age", VNum (of_Z 30))] ]
  /\ Vocabulary.clean_cell (VNum (of_Z 30)).
Proof.
  intros text. split; [reflexivity|].
  apply (csv_import_yields_clean_cells
           text [ [("name", VStr "Ana"); ("age", VNum (of_Z 30))] ]
           [("name", VStr "Ana"); ("age", VNum (of_Z 30))] "age" (VNum (of_Z 30)));
    [reflexivity | now left | right; now left].
Defined.

(** ** The global filters, continued *)

Module CategoryFacts.
Import AnalysisPage.

Lemma existsb_eqb_in (x : string) (seen : list string) :
  existsb (String.eqb x) seen = true <-> In x seen.
Proof.
  rewrite existsb_exists. split.
  - intros [y [Hin E]]. apply String.eqb_eq in E. now subst.
  - intros H. exists x. split; [assumption | apply String.eqb_refl].
Qed.

Lemma distinct_spec (l seen : list string) :
  NoDup (distinct seen l)
  /\ forall x, In x (distinct seen l) <-> In x l /\ ~ In x seen.
Proof.
  revert seen; induction l as [|y l IH]; intros seen; simpl.
  - split; [constructor | tauto].
  - destruct (existsb (String.eqb y) seen) eqn:E.
    + apply existsb_eqb_in in E. destruct (IH seen) as [Hnd Hin].
      split; [assumption|]. intros x. rewrite Hin. split; [tauto|].
      intros [[->|H] Hn]; [contradiction | tauto].
    + assert (Hy : ~ In y seen).
      { intros H. apply existsb_eqb_in in H. congruence. }
      destruct (IH (y :: seen)) as [Hnd Hin]. split.
      * constructor; [|assumption]. rewrite Hin. simpl. tauto.
      * intros x. simpl. rewrite Hin. simpl.
        destruct (string_dec y x) as [->|Hne]; [tauto|]. tauto.
Qed.

Lemma find_filter {A : Type} (p : A -> bool) (l : list A) :
  find p l = match filter p l with [] => None | x :: _ => Some x end.
Proof.
  induction l as [|x l IH]; simpl; [reflexivity|]. destruct (p x); auto.
Qed.

Lemma firstn_in {A : Type} (n : nat) (l : list A) (x : A) :
  In x (firstn n l) -> In x l.
Proof.
  revert l; induction n as [|n IH]; intros [|y l]; simpl; try tauto.
  intros [H|H]; [now left | right; now apply IH].
Qed.

Lemma firstn_nodup {A : Type} (n : nat) (l : list A) :
  NoDup l -> NoDup (firstn n l).
Proof.
  revert l; induction n as [|n IH]; intros [|x l] H; simpl; try constructor.
  - inversion H; subst. intros Hin. apply firstn_in in Hin. contradiction.
  - inversion H; subst. now apply IH.
Qed.

Lemma lower_char_idempotent (c : ascii) : lower_char (lower_char c) = lower_char c.
Proof. destruct c as [[] [] [] [] [] [] [] []]; reflexivity. Qed.

Lemma toLowerCase_idempotent (s : string) :
  toLowerCase (toLowerCase s) = toLowerCase s.
Proof.
  induction s as [|c s IH]; simpl; [reflexivity|].
  now rewrite lower_char_idempotent, IH.
Qed.

End CategoryFacts.

(** X9: the categories offered are distinct, none is empty, there are at
    most 30, and each is the text that some record holds in the first
    textual column; when that column has a name, choosing the category
    lets that record through the category filter. *)
Theorem categories_distinct_nonempty_capped :
  forall (F : Printer) (data : list DataRow),
    let cats := AnalysisPage.categories F data in
    NoDup cats
    /\ (List.length cats <= 30)%nat
    /\ forall c, In c cats ->
         c <> ""
         /\ exists col d,
              AnalysisPage.first_string_column (AnalysisPage.metadata data) = Some col
              /\ In d data
              /\ ToString F (read d col) = c
              /\ (col <> "" ->
                  AnalysisPage.matchesCategory F (AnalysisPage.metadata data) c d = true).
Proof.
  intros F data cats. subst cats. unfold AnalysisPage.categories.
  unfold AnalysisPage.first_string_column, AnalysisPage.matchesCategory,
         AnalysisPage.first_string_column.
  rewrite CategoryFacts.find_filter.
  destruct (filter (fun m => is_TString (type m)) (AnalysisPage.metadata data))
    as [|m rest].
  - repeat split; try constructor; simpl; try lia; contradiction.
  - set (texts := filter nonempty (map (fun d => ToString F (read d (name m))) data)).
    change (slice (AnalysisPage.distinct [] texts) 0 30)
      with (slice (AnalysisPage.distinct [] texts) (Z.of_nat 0)
                  (Z.of_nat 0 + Z.of_nat 30)).
    rewrite PagerFacts.slice_nonneg. simpl skipn.
    destruct (CategoryFacts.distinct_spec texts []) as [Hnd Hin].
    split; [now apply CategoryFacts.firstn_nodup|].
    split; [apply firstn_le_length|].
    intros c Hc. apply CategoryFacts.firstn_in in Hc. apply Hin in Hc. destruct Hc as [Hc _].
    unfold texts in Hc. apply filter_In in Hc. destruct Hc as [Hc Hne].
    apply in_map_iff in Hc. destruct Hc as [d [Hd Hin']].
    split.
    + intros ->. discriminate Hne.
    + exists (name m), d. simpl. repeat split; try assumption.
      intros Hcol. rewrite Hd, String.eqb_refl, andb_true_r.
      apply orb_true_iff. right. unfold nonempty.
      apply negb_true_iff. now apply String.eqb_neq.
Qed.

(** X10: the search does not tell capitals from small letters in the
    term: two terms that differ by case only select the same records, and
    a term selects what its lower-case form selects. *)
Theorem search_term_case_insensitive :
  forall (F : Printer) (data : list DataRow) (term1 term2 globalCategory : string),
    toLowerCase term1 = toLowerCase term2 ->
    AnalysisPage.filteredData F data term1 globalCategory
    = AnalysisPage.filteredData F data term2 globalCategory
    /\ AnalysisPage.filteredData F data (toLowerCase term1) globalCategory
       = AnalysisPage.filteredData F data term1 globalCategory.
Proof.
  intros F data t1 t2 c H. unfold AnalysisPage.filteredData. split.
  - apply filter_ext. intros row. unfold AnalysisPage.matchesSearch. now rewrite H.
  - apply filter_ext. intros row. unfold AnalysisPage.matchesSearch.
    now rewrite CategoryFacts.toLowerCase_idempotent.
Qed.

Lemma search_term_case_insensitive_witness :
  let data := [ [("name", VStr "Ana Ruiz")]; [("name", VStr "Luis")] ] in
  AnalysisPage.filteredData Examples.blank_printer data "RUIZ" "All"
  = AnalysisPage.filteredData Examples.blank_printer data "ruiz" "All".
Proof.
  intros data.
  apply (proj1 (search_term_case_insensitive
                  Examples.blank_printer data "RUIZ" "ruiz" "All" eq_refl)).
Defined.

Lemma categories_distinct_nonempty_capped_witness :
  let data := [ [("city", VStr "Lima"); ("n", VNum (of_Z 1))];
                [("city", VStr ""); ("n", VNum (of_Z 2))];
                [("city", VStr "Lima"); ("n", VNum (of_Z 3))] ] in
  AnalysisPage.categories Examples.blank_printer data = ["Lima"]
  /\ "Lima" <> ""
  /\ exists col d,
       AnalysisPage.first_string_column (AnalysisPage.metadata data) = Some col
       /\ In d data
       /\ ToString Examples.blank_printer (read d col) = "Lima"
       /\ (col <> "" ->
           AnalysisPage.matchesCategory Examples.blank_printer
             (AnalysisPage.metadata data) "Lima" d = true).
Proof.
  intros data. split; [reflexivity|].
  apply (proj2 (proj2 (categories_distinct_nonempty_capped
                         Examples.blank_printer data)) "Lima").
  now left.
Defined.

(** ** The order of numbers *)

Module OrderFacts.

(** Comparing the other way round gives the opposite answer. *)
Lemma SFcompare_antisym (x y : number) :
  SFcompare y x = option_map CompOpp (SFcompare x y).
Proof.
  destruct x as [sx|sx| |sx mx ex], y as [sy|sy| |sy my ey]; simpl;
    try reflexivity;
    try (destruct sx; reflexivity); try (destruct sy; reflexivity);
    try (destruct sx, sy; reflexivity).
  rewrite (Z.compare_antisym ex ey).
  change (Pos.compare_cont Eq my mx) with (Pos.compare my mx).
  change (Pos.compare_cont Eq mx my) with (Pos.compare mx my).
  rewrite (Pos.compare_antisym mx my).
  destruct sx, sy; simpl; try reflexivity;
    destruct (ex ?= ey); simpl; try reflexivity;
    destruct (mx ?= my)%positive; reflexivity.
Qed.

Lemma lt_not_le (x y : number) : lt x y = true -> le y x = false.
Proof.
  unfold lt, le, SFltb, SFleb. rewrite (SFcompare_antisym x y).
  destruct (SFcompare x y) as [[]|]; simpl; congruence.
Qed.

Lemma lt_asymmetric (x y : number) : lt x y = true -> lt y x = false.
Proof.
  unfold lt, SFltb. rewrite (SFcompare_antisym x y).
  destruct (SFcompare x y) as [[]|]; simpl; congruence.
Qed.

Ltac order_cases :=
  repeat match goal with
         | H : context [Z.compare ?a ?b] |- _ => destruct (Z.compare_spec a b)
         | |- context [Z.compare ?a ?b] => destruct (Z.compare_spec a b)
         | H : context [Pos.compare ?a ?b] |- _ => destruct (Pos.compare_spec a b)
         | |- context [Pos.compare ?a ?b] => destruct (Pos.compare_spec a b)
         end;
  subst; simpl in *; try discriminate; try reflexivity; try lia.

(** At most is transitive. *)
Lemma le_trans (x y z : number) :
  le x y = true -> le y z = true -> le x z = true.
Proof.
  unfold le, SFleb.
  destruct x as [sx|sx| |sx mx ex], y as [sy|sy| |sy my ey],
           z as [sz|sz| |sz mz ez]; simpl;
    try discriminate; try reflexivity;
    repeat match goal with s : bool |- _ => destruct s end; simpl;
    try discriminate; try reflexivity;
    change (Pos.compare_cont Eq) with Pos.compare;
    intros H1 H2; order_cases.
Qed.

Lemma le_refl (x : number) : isNaN x = false -> le x x = true.
Proof.
  intros H. unfold le, SFleb. now rewrite (HistogramFacts.SFcompare_refl x H).
Qed.

Lemma min2_cases (x y : number) :
  isNaN x = false -> isNaN y = false ->
  (min2 x y = x \/ min2 x y = y)
  /\ le (min2 x y) x = true /\ le (min2 x y) y = true.
Proof.
  intros Hx Hy. unfold min2, le, SFleb.
  pose proof (SFcompare_antisym x y) as Ha.
  pose proof (HistogramFacts.SFcompare_refl x Hx) as Rx.
  pose proof (HistogramFacts.SFcompare_refl y Hy) as Ry.
  destruct (SFcompare x y) as [[]|] eqn:E; simpl in Ha.
  - destruct x as [[]| | |]; rewrite ?E, ?Ha, ?Rx, ?Ry; auto.
  - rewrite E, Rx. auto.
  - rewrite Ha, Ry. auto.
  - destruct x, y; simpl in *; discriminate.
Qed.

Lemma max2_cases (x y : number) :
  isNaN x = false -> isNaN y = false ->
  (max2 x y = x \/ max2 x y = y)
  /\ le x (max2 x y) = true /\ le y (max2 x y) = true.
Proof.
  intros Hx Hy. unfold max2, le, SFleb.
  pose proof (SFcompare_antisym x y) as Ha.
  pose proof (HistogramFacts.SFcompare_refl x Hx) as Rx.
  pose proof (HistogramFacts.SFcompare_refl y Hy) as Ry.
  destruct (SFcompare x y) as [[]|] eqn:E; simpl in Ha.
  - destruct x as [[]| | |]; rewrite ?E, ?Ha, ?Rx, ?Ry; auto.
  - rewrite E, Ry. auto.
  - rewrite Ha, Rx. auto.
  - destruct x, y; simpl in *; discriminate.
Qed.

Lemma isNaN_cases (x y r : number) :
  isNaN x = false -> isNaN y = false -> (r = x \/ r = y) -> isNaN r = false.
Proof. intros Hx Hy [->| ->]; assumption. Qed.

(** The least of a list is at most its starting point and at most every
    element; the greatest is at least them. *)
Lemma fold_min2_bound (l : list number) (acc : number) :
  isNaN acc = false -> forallb (fun v => negb (isNaN v)) l = true ->
  let m := fold_left min2 l acc in
  isNaN m = false /\ le m acc = true /\ forall v, In v l -> le m v = true.
Proof.
  revert acc; induction l as [|x l IH]; intros acc Ha Hl; simpl.
  - repeat split; [assumption | now apply le_refl | contradiction].
  - simpl in Hl. apply andb_true_iff in Hl. destruct Hl as [Hx Hl].
    apply negb_true_iff in Hx.
    destruct (min2_cases acc x Ha Hx) as [Hc [H1 H2]].
    destruct (IH (min2 acc x) (isNaN_cases _ _ _ Ha Hx Hc) Hl) as [Hm [Hle Hall]].
    repeat split; [assumption | eapply le_trans; eassumption |].
    intros v [<-|Hv]; [eapply le_trans; eassumption | now apply Hall].
Qed.

Lemma fold_max2_bound (l : list number) (acc : number) :
  isNaN acc = false -> forallb (fun v => negb (isNaN v)) l = true ->
  let m := fold_left max2 l acc in
  isNaN m = false /\ le acc m = true /\ forall v, In v l -> le v m = true.
Proof.
  revert acc; induction l as [|x l IH]; intros acc Ha Hl; simpl.
  - repeat split; [assumption | now apply le_refl | contradiction].
  - simpl in Hl. apply andb_true_iff in Hl. destruct Hl as [Hx Hl].
    apply negb_true_iff in Hx.
    destruct (max2_cases acc x Ha Hx) as [Hc [H1 H2]].
    destruct (IH (max2 acc x) (isNaN_cases _ _ _ Ha Hx Hc) Hl) as [Hm [Hle Hall]].
    repeat split; [assumption | eapply le_trans; eassumption |].
    intros v [<-|Hv]; [eapply le_trans; eassumption | now apply Hall].
Qed.

End OrderFacts.

Module ExtremeFacts.
Import OrderFacts.

Lemma numeric_values_numbers (data : list DataRow) (col : string) :
  forallb (fun v => negb (isNaN v)) (Kpis.values data col) = true.
Proof. unfold Kpis.values. apply forallb_filter. Qed.

Lemma fold_min2_attained (l : list number) (acc : number) :
  isNaN acc = false -> forallb (fun v => negb (isNaN v)) l = true ->
  fold_left min2 l acc = acc \/ In (fold_left min2 l acc) l.
Proof.
  revert acc; induction l as [|x l IH]; intros acc Ha Hl; simpl; [now left|].
  simpl in Hl. apply andb_true_iff in Hl. destruct Hl as [Hx Hl].
  apply negb_true_iff in Hx.
  destruct (min2_cases acc x Ha Hx) as [Hc _].
  destruct (IH (min2 acc x) (isNaN_cases _ _ _ Ha Hx Hc) Hl) as [E|Hin]; [|auto].
  rewrite E. destruct Hc as [-> | ->]; auto.
Qed.

Lemma fold_max2_attained (l : list number) (acc : number) :
  isNaN acc = false -> forallb (fun v => negb (isNaN v)) l = true ->
  fold_left max2 l acc = acc \/ In (fold_left max2 l acc) l.
Proof.
  revert acc; induction l as [|x l IH]; intros acc Ha Hl; simpl; [now left|].
  simpl in Hl. apply andb_true_iff in Hl. destruct Hl as [Hx Hl].
  apply negb_true_iff in Hx.
  destruct (max2_cases acc x Ha Hx) as [Hc _].
  destruct (IH (max2 acc x) (isNaN_cases _ _ _ Ha Hx Hc) Hl) as [E|Hin]; [|auto].
  rewrite E. destruct Hc as [-> | ->]; auto.
Qed.

Lemma min_list_attained (l : list number) :
  l <> [] -> forallb (fun v => negb (isNaN v)) l = true -> In (min_list l) l.
Proof.
  destruct l as [|x l]; [congruence|]. intros _ H. unfold min_list. simpl.
  simpl in H. apply andb_true_iff in H. destruct H as [Hx Hl].
  apply negb_true_iff in Hx. rewrite (HistogramFacts.min2_Infinity x Hx).
  destruct (fold_min2_attained l x Hx Hl) as [-> |Hin]; auto.
Qed.

Lemma max_list_attained (l : list number) :
  l <> [] -> forallb (fun v => negb (isNaN v)) l = true -> In (max_list l) l.
Proof.
  destruct l as [|x l]; [congruence|]. intros _ H. unfold max_list. simpl.
  simpl in H. apply andb_true_iff in H. destruct H as [Hx Hl].
  apply negb_true_iff in Hx. rewrite (HistogramFacts.max2_neg_Infinity x Hx).
  destruct (fold_max2_attained l x Hx Hl) as [-> |Hin]; auto.
Qed.

End ExtremeFacts.



(** X12: the numeric values of a column, as the indicators and the
    histogram take them, lie between the minimum and the maximum that are
    computed from them, and both are values of the column. *)
Theorem column_extremes_bound_values :
  forall (data : list DataRow) (col : string),
    let values := Kpis.values data col in
    ChartBuilder.numeric_values data col = values
    /\ (forall v, In v values ->
          le (min_list values) v = true /\ le v (max_list values) = true)
    /\ (values <> [] -> In (min_list values) values /\ In (max_list values) values).
Proof.
  intros data col values.
  pose proof (ExtremeFacts.numeric_values_numbers data col) as Hn. fold values in Hn.
  split; [reflexivity|]. split.
  - intros v Hv. split.
    + now apply (OrderFacts.fold_min2_bound values Infinity eq_refl Hn).
    + now apply (OrderFacts.fold_max2_bound values (S754_infinity true) eq_refl Hn).
  - intros Hne. split.
    + now apply ExtremeFacts.min_list_attained.
    + now apply ExtremeFacts.max_list_attained.
Qed.

Lemma column_extremes_bound_values_witness :
  let data : list DataRow :=
    [ [("score", VNum (of_Z 7))]; [("score", VStr "n/a")]; [("score", VStr "-2")] ] in
  le (min_list (Kpis.values data "score")) (of_Z 7) = true
  /\ le (of_Z 7) (max_list (Kpis.values data "score")) = true.
Proof.
  intros data.
  apply (proj1 (proj2 (column_extremes_bound_values data "score")) (of_Z 7)).
  now left.
Defined.

(** ** The table, continued *)

Module TableFacts.
Import DataTable OrderFacts.

Lemma less_asymmetric (a b : CellValue) : less a b = true -> less b a = false.
Proof.
  destruct a as [x|s], b as [y|t]; simpl; try apply lt_asymmetric.
  unfold String.ltb. rewrite (String.compare_antisym t s).
  destruct (String.compare s t); simpl; intros H; (discriminate H || reflexivity).
Qed.

Lemma compare_rows_antisymmetric (F : Printer) (cfg : SortConfig) (a b : DataRow) :
  gt (compare_rows F cfg a b) zero = true ->
  gt (compare_rows F cfg b a) zero = false.
Proof.
  unfold compare_rows.
  set (x := value_or_empty F a (key cfg)). set (y := value_or_empty F b (key cfg)).
  pose proof (less_asymmetric x y) as Hxy. pose proof (less_asymmetric y x) as Hyx.
  destruct (less x y), (less y x), (direction cfg);
    try (discriminate (Hxy eq_refl)); intros H; try discriminate H; reflexivity.
Qed.

Lemma in_order_follows (F : Printer) (cfg : SortConfig) (a b : DataRow) :
  Spec.in_order (compare_rows F cfg) a b -> Vocabulary.follows F cfg a b.
Proof.
  unfold Spec.in_order, Vocabulary.follows, compare_rows. cbv zeta.
  set (x := value_or_empty F a (key cfg)). set (y := value_or_empty F b (key cfg)).
  pose proof (less_asymmetric x y) as Hxy.
  destruct (less x y), (less y x), (direction cfg);
    try (discriminate (Hxy eq_refl)); intros H; try discriminate H; reflexivity.
Qed.

Lemma sorted_weaken {A : Type} (R R' : A -> A -> Prop) (l : list A) :
  (forall a b, R a b -> R' a b) -> Sorted R l -> Sorted R' l.
Proof.
  intros H. induction 1 as [|x l Hs IH Hhd]; constructor; [assumption|].
  destruct Hhd; constructor. now apply H.
Qed.

Lemma filter_none {A : Type} (p : A -> bool) (l : list A) :
  (forall x, p x = false) -> filter p l = [].
Proof.
  intros H. induction l as [|x l IH]; simpl; [reflexivity|]. now rewrite (H x).
Qed.

End TableFacts.

(** X13: sorting the table rearranges the filtered rows, losing and
    adding none, so that the number of pages stays the same; and when the
    cells of the sort column can be ranked together (all texts, or all
    numbers without [NaN]) it leaves no row above one that the sort
    column ranks strictly before it (after it, when descending). *)
Theorem sorted_table_is_ordered_rearrangement :
  forall (F : Printer) (data : list DataRow)
         (columnFilters : object string) (rangeFilters : object DataTable.Range)
         (cfg : DataTable.SortConfig),
    let shown := DataTable.processedData F data columnFilters rangeFilters (Some cfg) in
    Permutation shown (DataTable.processedData F data columnFilters rangeFilters None)
    /\ (Vocabulary.rankable
          (Vocabulary.cells_at F
             (DataTable.filtered_rows F data columnFilters rangeFilters)
             (DataTable.key cfg)) = true ->
        Sorted (Vocabulary.follows F cfg) shown)
    /\ DataTable.totalPages shown
       = DataTable.totalPages
           (DataTable.processedData F data columnFilters rangeFilters None).
Proof.
  intros F data cf rf cfg shown. subst shown. unfold DataTable.processedData.
  pose proof (SortFacts.sort_permutation (DataTable.compare_rows F cfg)
                (DataTable.filtered_rows F data cf rf)) as HP.
  split; [exact HP|]. split.
  - intros _.
    apply (TableFacts.sorted_weaken (Spec.in_order (DataTable.compare_rows F cfg))).
    + apply TableFacts.in_order_follows.
    + apply SortFacts.sort_sorted, TableFacts.compare_rows_antisymmetric.
  - unfold DataTable.totalPages. now rewrite (Permutation_length HP).
Qed.

Lemma sorted_table_is_ordered_rearrangement_witness :
  let data : list DataRow :=
    [ [("age", VNum (of_Z 30))]; [("age", VNum (of_Z 17))]; [("age", VNum (of_Z 25))] ] in
  let cfg := {| DataTable.key := "age"; DataTable.direction := DataTable.desc |} in
  DataTable.processedData Examples.blank_printer data [] [] (Some cfg)
  = [ [("age", VNum (of_Z 30))]; [("age", VNum (of_Z 25))]; [("age", VNum (of_Z 17))] ]
  /\ Sorted (Vocabulary.follows Examples.blank_printer cfg)
            (DataTable.processedData Examples.blank_printer data [] [] (Some cfg)).
Proof.
  intros data cfg. split; [reflexivity|].
  apply (proj1 (proj2 (sorted_table_is_ordered_rearrangement
                         Examples.blank_printer data [] [] cfg))).
  reflexivity.
Defined.

(** X14: a range whose minimum is above its maximum shows no row. *)
Theorem inverted_range_shows_nothing :
  forall (rows : list DataRow) (col : string) (r : DataTable.Range),
    DataTable.bound_set (DataTable.min r) = true ->
    DataTable.bound_set (DataTable.max r) = true ->
    lt (DataTable.bound_number (DataTable.max r))
       (DataTable.bound_number (DataTable.min r)) = true ->
    DataTable.apply_range_filter rows (col, r) = [].
Proof.
  intros rows col r Hmin Hmax Hlt.
  rewrite RangeFacts.apply_range_filter_within.
  apply TableFacts.filter_none. intros row. unfold Spec.within.
  rewrite Hmin, Hmax.
  change (ge (ToNumber (read row col)) (DataTable.bound_number (DataTable.min r)))
    with (le (DataTable.bound_number (DataTable.min r)) (ToNumber (read row col))).
  destruct (le (DataTable.bound_number (DataTable.min r)) (ToNumber (read row col))) eqn:E1;
    [|reflexivity].
  destruct (le (ToNumber (read row col)) (DataTable.bound_number (DataTable.max r))) eqn:E2;
    [|reflexivity].
  pose proof (OrderFacts.le_trans _ _ _ E1 E2) as Ht.
  rewrite (OrderFacts.lt_not_le _ _ Hlt) in Ht. discriminate.
Qed.

Lemma inverted_range_shows_nothing_witness :
  DataTable.apply_range_filter
    [ [("age", VNum (of_Z 17))]; [("age", VNum (of_Z 25))] ]
    ("age", {| DataTable.min := Some "30"; DataTable.max := Some "20" |}) = [].
Proof.
  apply (inverted_range_shows_nothing _ "age"
           {| DataTable.min := Some "30"; DataTable.max := Some "20" |});
    reflexivity.
Defined.

(** ** Pages *)

Module PageFacts.
Import DataTable.

(** The length of a page from 1 on. *)
Lemma page_length (processed : list DataRow) (i : nat) :
  List.length (paginatedData processed (Z.of_nat (S i)))
  = Nat.min 10 (List.length processed - i * 10).
Proof.
  rewrite PagerFacts.paginatedData_firstn, length_firstn, length_skipn. reflexivity.
Qed.

Lemma totalPages_bounds (processed : list DataRow) :
  10 * (totalPages processed - 1) < Z.of_nat (List.length processed)
  <= 10 * totalPages processed.
Proof.
  rewrite PagerFacts.totalPages_div.
  pose proof (Z.div_mod (Z.of_nat (List.length processed) + 9) 10 ltac:(lia)).
  pose proof (Z.mod_pos_bound (Z.of_nat (List.length processed) + 9) 10 ltac:(lia)).
  lia.
Qed.

End PageFacts.

(** X15: every page before the last holds exactly ten rows, the last
    page holds the rest (at least one), and a page past the last is
    empty. *)
Theorem pages_full_then_rest_then_empty :
  forall (processed : list DataRow) (p : Z),
    1 <= p ->
    let total := DataTable.totalPages processed in
    let size := Z.of_nat (List.length (DataTable.paginatedData processed p)) in
    (p < total -> size = 10)
    /\ (p = total ->
        size = Z.of_nat (List.length processed) - 10 * (total - 1) /\ 1 <= size <= 10)
    /\ (total < p -> DataTable.paginatedData processed p = []).
Proof.
  intros processed p Hp total size.
  pose proof (PageFacts.totalPages_bounds processed) as Hb. fold total in Hb.
  assert (Hs : size = Z.of_nat (Nat.min 10 (List.length processed - Z.to_nat (p - 1) * 10))).
  { unfold size. replace p with (Z.of_nat (S (Z.to_nat (p - 1)))) at 1 by lia.
    now rewrite PageFacts.page_length. }
  repeat split; try lia.
  intros Hlt. apply length_zero_iff_nil. fold size in Hs. lia.
Qed.

Lemma pages_full_then_rest_then_empty_witness :
  DataTable.paginatedData (repeat ([] : DataRow) 12) 3 = [].
Proof.
  apply (proj2 (proj2 (pages_full_then_rest_then_empty (repeat [] 12) 3 ltac:(lia)))).
  reflexivity.
Defined.

(** X16: on a page within range, the line under the table shows the rank
    of the first row of the page and that of its last row, which are as
    many apart as the page has rows; with no row it shows 0 - 0. *)
Theorem showing_matches_page :
  forall (processed : list DataRow) (p : Z),
    1 <= p <= DataTable.totalPages processed ->
    let n := Z.of_nat (List.length processed) in
    fst (TableState.showing n p) = (p - 1) * 10 + 1
    /\ snd (TableState.showing n p) - fst (TableState.showing n p) + 1
       = Z.of_nat (List.length (DataTable.paginatedData processed p))
    /\ TableState.showing 0 1 = (0, 0).
Proof.
  intros processed p Hp n.
  pose proof (PageFacts.totalPages_bounds processed) as Hb. fold n in Hb.
  assert (Hs : Z.of_nat (List.length (DataTable.paginatedData processed p))
               = Z.of_nat (Nat.min 10 (List.length processed - Z.to_nat (p - 1) * 10))).
  { replace p with (Z.of_nat (S (Z.to_nat (p - 1)))) at 1 by lia.
    now rewrite PageFacts.page_length. }
  unfold TableState.showing, DataTable.PAGE_SIZE. simpl fst. simpl snd.
  unfold n in *. repeat split; (lia || reflexivity).
Qed.

Lemma showing_matches_page_witness :
  fst (TableState.showing 12 2) = 11
  /\ snd (TableState.showing 12 2) - fst (TableState.showing 12 2) + 1 = 2.
Proof.
  assert (Hp : 1 <= 2 <= DataTable.totalPages (repeat ([] : DataRow) 12))
    by (split; vm_compute; discriminate).
  pose proof (showing_matches_page (repeat ([] : DataRow) 12) 2 Hp) as H.
  split; [exact (proj1 H) | exact (proj1 (proj2 H))].
Defined.

(** X17: from a page within range, the previous and next buttons, when
    enabled, and the numbered buttons lead to a page within range. *)
Theorem navigation_stays_in_range :
  forall (p total : Z),
    1 <= p <= total ->
    (TableState.prev_enabled p = true -> 1 <= TableState.prev_page p <= total)
    /\ (TableState.next_enabled p total = true -> 1 <= TableState.next_page p <= total)
    /\ (forall q, In q (TableState.page_buttons total) -> 1 <= q <= total).
Proof.
  intros p total Hp.
  unfold TableState.prev_enabled, TableState.next_enabled,
         TableState.prev_page, TableState.next_page, TableState.page_buttons.
  repeat split.
  - apply negb_true_iff, Z.eqb_neq in H. lia.
  - lia.
  - lia.
  - apply negb_true_iff, Z.eqb_neq in H. lia.
  - apply in_map_iff in H. destruct H as [i [<- _]]. lia.
  - apply in_map_iff in H. destruct H as [i [<- Hi]]. apply in_seq in Hi. lia.
Qed.

Lemma navigation_stays_in_range_witness :
  1 <= TableState.next_page 2 <= 3.
Proof.
  apply (proj1 (proj2 (navigation_stays_in_range 2 3 ltac:(lia)))). reflexivity.
Defined.

(** ** Sorting by the headers *)

(** X18: clicking a header sorts by it ascending, clicking it again
    descending, and a third time ascending again; when the cells of the
    column can be ranked together, the table then shows its rows with no
    row above one of lesser value (ascending), or of greater value
    (descending), in that column. *)
Theorem header_clicks_alternate_the_order :
  forall (F : Printer) (data : list DataRow)
         (columnFilters : object string) (rangeFilters : object DataTable.Range)
         (previous : option DataTable.SortConfig) (k : string),
    (forall cfg, previous = Some cfg -> DataTable.key cfg <> k) ->
    let once := TableState.handleSort previous k in
    let twice := TableState.handleSort (Some once) k in
    let value row := DataTable.value_or_empty F row k in
    once = {| DataTable.key := k; DataTable.direction := DataTable.asc |}
    /\ twice = {| DataTable.key := k; DataTable.direction := DataTable.desc |}
    /\ TableState.handleSort (Some twice) k = once
    /\ (Vocabulary.rankable
          (Vocabulary.cells_at F
             (DataTable.filtered_rows F data columnFilters rangeFilters) k) = true ->
        Sorted (fun above below => DataTable.less (value below) (value above) = false)
               (DataTable.processedData F data columnFilters rangeFilters (Some once))
        /\ Sorted (fun above below => DataTable.less (value above) (value below) = false)
                  (DataTable.processedData F data columnFilters rangeFilters (Some twice))).
Proof.
  intros F data cf rf previous k Hk once twice value.
  assert (H1 : once = {| DataTable.key := k; DataTable.direction := DataTable.asc |}).
  { unfold once, TableState.handleSort. destruct previous as [cfg|]; [|reflexivity].
    destruct (String.eqb_spec (DataTable.key cfg) k) as [E|E]; [|reflexivity].
    now elim (Hk cfg eq_refl). }
  assert (H2 : twice = {| DataTable.key := k; DataTable.direction := DataTable.desc |}).
  { unfold twice. rewrite H1. unfold TableState.handleSort. simpl.
    now rewrite String.eqb_refl. }
  split; [exact H1|]. split; [exact H2|]. split.
  - rewrite H2, H1. unfold TableState.handleSort. simpl. now rewrite String.eqb_refl.
  - intros _. split.
    + rewrite H1. unfold DataTable.processedData.
      apply (TableFacts.sorted_weaken
               (Spec.in_order (DataTable.compare_rows F
                  {| DataTable.key := k; DataTable.direction := DataTable.asc |}))).
      * intros a b H. exact (TableFacts.in_order_follows F _ a b H).
      * apply SortFacts.sort_sorted, TableFacts.compare_rows_antisymmetric.
    + rewrite H2. unfold DataTable.processedData.
      apply (TableFacts.sorted_weaken
               (Spec.in_order (DataTable.compare_rows F
                  {| DataTable.key := k; DataTable.direction := DataTable.desc |}))).
      * intros a b H. exact (TableFacts.in_order_follows F _ a b H).
      * apply SortFacts.sort_sorted, TableFacts.compare_rows_antisymmetric.
Qed.

Lemma header_clicks_alternate_the_order_witness :
  let data : list DataRow :=
    [ [("age", VNum (of_Z 30))]; [("age", VNum (of_Z 17))]; [("age", VNum (of_Z 25))] ] in
  let value (row : DataRow) :=
    DataTable.value_or_empty Examples.blank_printer row "age" in
  DataTable.processedData Examples.blank_printer data [] []
    (Some (TableState.handleSort None "age"))
  = [ [("age", VNum (of_Z 17))]; [("age", VNum (of_Z 25))]; [("age", VNum (of_Z 30))] ]
  /\ TableState.handleSort None "age"
     = {| DataTable.key := "age"; DataTable.direction := DataTable.asc |}
  /\ Sorted (fun above below => DataTable.less (value below) (value above) = false)
            (DataTable.processedData Examples.blank_printer data [] []
               (Some (TableState.handleSort None "age"))).
Proof.
  intros data value.
  assert (Hk : forall cfg : DataTable.SortConfig,
             None = Some cfg -> DataTable.key cfg <> "age")
    by (intros cfg H; discriminate H).
  pose proof (header_clicks_alternate_the_order
                Examples.blank_printer data [] [] None "age" Hk) as [H1 [_ [_ H4]]].
  split; [reflexivity|]. split; [exact H1|]. exact (proj1 (H4 eq_refl)).
Defined.

(** ** The state of the filters *)

Module FilterStateFacts.
Import TableState Vocabulary.

Lemma stage_create (F : Printer) (cf : object string) (col : string) :
  flat_map (Spec.column_stage F) (create cf col "")
  = flat_map (Spec.column_stage F) cf.
Proof.
  induction cf as [|[k v] cf IH]; simpl; [reflexivity|].
  destruct (key_before col k); simpl; [reflexivity | now rewrite IH].
Qed.

Lemma remove_key_absent {A : Type} (o : object A) (k : string) :
  ~ In k (keys o) -> remove_key o k = o.
Proof.
  induction o as [|[k1 v1] o IH]; simpl; [reflexivity|]. intros H.
  destruct (String.eqb_spec k1 k) as [->|Hne]; simpl.
  - elim H. now left.
  - rewrite IH; [reflexivity | tauto].
Qed.

Lemma stage_update (F : Printer) (cf : object string) (col : string) :
  NoDup (keys cf) ->
  flat_map (Spec.column_stage F) (update cf col "")
  = flat_map (Spec.column_stage F) (remove_key cf col).
Proof.
  induction cf as [|[k v] cf IH]; simpl; [reflexivity|]. intros H.
  inversion H as [|? ? Hk Hnd]; subst.
  destruct (String.eqb_spec k col) as [->|Hne]; simpl.
  - now rewrite (remove_key_absent cf col Hk).
  - now rewrite (IH Hnd).
Qed.

End FilterStateFacts.

(** X19: emptying the text filter of a column shows the same rows as if
    the column had never had a filter. *)
Theorem emptied_text_filter_is_no_filter :
  forall (F : Printer) (data : list DataRow)
         (columnFilters : object string) (rangeFilters : object DataTable.Range)
         (col : string),
    NoDup (keys columnFilters) ->
    DataTable.filtered_rows F data
      (TableState.setColumnFilter columnFilters col "") rangeFilters
    = DataTable.filtered_rows F data
        (Vocabulary.remove_key columnFilters col) rangeFilters.
Proof.
  intros F data cf rf col Hnd. unfold DataTable.filtered_rows. f_equal.
  rewrite !FilterFacts.column_filters_stages. f_equal.
  unfold TableState.setColumnFilter, set.
  destruct (get cf col) eqn:E.
  - now apply FilterStateFacts.stage_update.
  - rewrite FilterStateFacts.stage_create.
    rewrite FilterStateFacts.remove_key_absent; [reflexivity|].
    rewrite GroupFacts.get_in_keys. congruence.
Qed.

Lemma emptied_text_filter_is_no_filter_witness :
  let data := [ [("name", VStr "Ana")]; [("name", VStr "Luis")] ] in
  DataTable.filtered_rows Examples.blank_printer data
    (TableState.setColumnFilter [("name", "an")] "name" "") []
  = DataTable.filtered_rows Examples.blank_printer data [] [].
Proof.
  intros data.
  apply (emptied_text_filter_is_no_filter
           Examples.blank_printer data [("name", "an")] [] "name").
  repeat constructor. intros [].
Defined.

(** X20: the two bounds of a range are kept apart: setting one keeps the
    other, in either order, and the ranges of the other columns are not
    touched. *)
Theorem range_bounds_are_kept :
  forall (prev : object DataTable.Range) (col lo hi : string),
    get (TableState.setRangeMax (TableState.setRangeMin prev col lo) col hi) col
    = Some {| DataTable.min := Some lo; DataTable.max := Some hi |}
    /\ get (TableState.setRangeMin (TableState.setRangeMax prev col hi) col lo) col
       = Some {| DataTable.min := Some lo; DataTable.max := Some hi |}
    /\ (forall other, other <> col ->
          get (TableState.setRangeMin prev col lo) other = get prev other
          /\ get (TableState.setRangeMax prev col hi) other = get prev other).
Proof.
  intros prev col lo hi.
  unfold TableState.setRangeMax, TableState.setRangeMin, TableState.range_of.
  repeat split.
  - rewrite !GroupFacts.get_set, !String.eqb_refl. reflexivity.
  - rewrite !GroupFacts.get_set, !String.eqb_refl. reflexivity.
  - rewrite GroupFacts.get_set.
    destruct (String.eqb_spec col other); [congruence | reflexivity].
  - rewrite GroupFacts.get_set.
    destruct (String.eqb_spec col other); [congruence | reflexivity].
Qed.

(** ** The grouped charts *)

Module ChartFacts.
Import GroupFacts Spec.

(** [push] throws exactly on an inherited name, as long as no inherited
    name has been filed. *)
Lemma push_thrown_iff (g : Chart.groups) (pre : list (string * number))
      (k : string) (y : number) :
  holds g pre ->
  (forall e, In e pre -> inherited (fst e) = false) ->
  (Chart.push g k y = TypeError <-> inherited k = true).
Proof.
  intros [_ Hget] Hpre. unfold Chart.push. rewrite (Hget k).
  destruct (filed pre k) as [|v l] eqn:E.
  - destruct (inherited k); split; intros H; (reflexivity || discriminate H).
  - assert (Hin : In v (filed pre k)) by (rewrite E; now left).
    unfold filed in Hin. apply in_map_iff in Hin. destruct Hin as [e [_ Hin]].
    apply filter_In in Hin. destruct Hin as [Hin Hk].
    apply String.eqb_eq in Hk. subst k. rewrite (Hpre e Hin).
    split; intros H; discriminate H.
Qed.

Lemma fill_thrown_iff (rest pre : list (string * number)) (g : Chart.groups) :
  holds g pre ->
  (forall e, In e pre -> inherited (fst e) = false) ->
  (fold_left fill rest (Returned g) = TypeError
   <-> exists e, In e rest /\ inherited (fst e) = true).
Proof.
  revert pre g; induction rest as [|[k y] rest IH]; intros pre g Hh Hpre; simpl.
  - split; [discriminate | intros [e [[] _]]].
  - destruct (Chart.push g k y) as [g1|] eqn:E.
    + assert (Hk : inherited k = false).
      { destruct (inherited k) eqn:Ek; [|reflexivity].
        apply (push_thrown_iff g pre k y Hh Hpre) in Ek. congruence. }
      rewrite (IH (pre ++ [(k, y)])%list g1).
      * split.
        -- intros [e [Hin He]]. exists e. split; [now right | assumption].
        -- intros [e [[<- | Hin] He]]; [simpl in He; congruence|].
           exists e. split; assumption.
      * eapply push_holds; eassumption.
      * intros e Hin. apply in_app_or in Hin. destruct Hin as [Hin | [<- | []]];
          [now apply Hpre | exact Hk].
    + rewrite fill_thrown. split; [intros _ | reflexivity].
      exists (k, y). split; [now left|].
      now apply (push_thrown_iff g pre k y Hh Hpre).
Qed.

(** From the empty dictionary. *)
Lemma fill_empty_thrown_iff (entries : list (string * number)) :
  fold_left fill entries (Returned []) = TypeError
  <-> exists e, In e entries /\ inherited (fst e) = true.
Proof.
  apply (fill_thrown_iff entries [] []).
  - split; [constructor | reflexivity].
  - intros e [].
Qed.

Lemma firstn_length_le {A : Type} (n : nat) (l : list A) :
  (List.length (firstn n l) <= n)%nat.
Proof. rewrite length_firstn. lia. Qed.

End ChartFacts.

(** X21: a grouped chart of the chart builder throws exactly when, among
    the first 500 records, one has for group the name of a property that
    every object inherits. *)
Theorem chart_builder_throws_iff_inherited_group :
  forall (F : Printer) (data : list DataRow) (xAxis yAxis : string),
    ChartBuilder.groupedData F data xAxis yAxis = TypeError
    <-> exists d, In d (slice data 0 500)
                  /\ inherited (ChartBuilder.xVal F d xAxis) = true.
Proof.
  intros F data xAxis yAxis. unfold ChartBuilder.groupedData.
  assert (Hb : forall (o : outcome Chart.groups) (f : Chart.groups -> list Chart.Datum),
             bind o (fun g => Returned (f g)) = TypeError <-> o = TypeError).
  { intros [g|] f; simpl; split; intros H; (reflexivity || discriminate H). }
  rewrite Hb. unfold ChartBuilder.grouped.
  rewrite (GroupFacts.fold_left_fill_map
             (fun d => (ChartBuilder.xVal F d xAxis, ChartBuilder.yVal d yAxis))).
  rewrite ChartFacts.fill_empty_thrown_iff. split.
  - intros [e [Hin He]]. apply in_map_iff in Hin. destruct Hin as [d [<- Hin]].
    exists d. split; assumption.
  - intros [d [Hin Hd]].
    exists (ChartBuilder.xVal F d xAxis, ChartBuilder.yVal d yAxis).
    split; [|exact Hd].
    apply (in_map (fun d => (ChartBuilder.xVal F d xAxis, ChartBuilder.yVal d yAxis))).
    exact Hin.
Qed.

(** X22: the chart of the dashboard, over the first textual and the first
    numeric column: it throws exactly when one of the first 100 records
    has for group an inherited name; otherwise it has at most ten bars
    with distinct names, each bar bearing a group of the first 100
    records and the mean of the numeric casts of that group's values,
    and, when no mean is [NaN], no bar stands in front of one with a
    greater value. *)
Theorem dashboard_chart_bars :
  forall (F : Printer) (data : list DataRow) (md : list ColumnMetadata)
         (stringCol numCol : string),
    Dashboard.first_name (Dashboard.strCols md) = Some stringCol ->
    Dashboard.first_name (Dashboard.numCols md) = Some numCol ->
    stringCol <> "" -> numCol <> "" ->
    let records := slice data 0 100 in
    let group d := ToString F (read d stringCol) in
    (Dashboard.chartData F data md = TypeError
     <-> exists d, In d records /\ inherited (group d) = true)
    /\ forall result,
         Dashboard.chartData F data md = Returned result ->
         (List.length result <= 10)%nat
         /\ NoDup (map Chart.name result)
         /\ (forallb (fun p => negb (isNaN (Chart.value p))) result = true ->
             Sorted (Spec.in_order Chart.by_value_desc) result)
         /\ forall p, In p result ->
              (exists d, In d records /\ group d = Chart.name p)
              /\ Chart.value p
                 = Chart.mean
                     (map (fun d => ToNumber (read d numCol))
                          (filter (fun d => String.eqb (group d) (Chart.name p))
                                  records)).
Proof.
  intros F data md stringCol numCol Hs Hn Hse Hne records group.
  unfold Dashboard.chartData. rewrite Hs, Hn.
  assert (Hnon : nonempty stringCol && nonempty numCol = true).
  { unfold nonempty. apply andb_true_iff.
    split; apply negb_true_iff; now apply String.eqb_neq. }
  rewrite Hnon. unfold Dashboard.grouped. fold records.
  rewrite (GroupFacts.fold_left_fill_map
             (fun d => (group d, ToNumber (read d numCol)))).
  set (entries := map _ records). split.
  - assert (Hb : forall (o : outcome Chart.groups) (f : Chart.groups -> list Chart.Datum),
               bind o (fun g => Returned (f g)) = TypeError <-> o = TypeError).
    { intros [g|] f; simpl; split; intros H; (reflexivity || discriminate H). }
    rewrite Hb, ChartFacts.fill_empty_thrown_iff. split.
    + intros [e [Hin He]]. apply in_map_iff in Hin. destruct Hin as [d [<- Hin]].
      exists d. split; assumption.
    + intros [d [Hin Hd]]. exists (group d, ToNumber (read d numCol)).
      split; [|exact Hd].
      apply (in_map (fun d => (group d, ToNumber (read d numCol)))). exact Hin.
  - intros result H.
    destruct (fold_left Spec.fill entries (Returned [])) as [g|] eqn:E; [|discriminate H].
    simpl in H. injection H as <-.
    destruct (GroupFacts.fill_groups entries g E) as [Hnd [Hkeys Hget]].
    change (slice (keys g) 0 10)
      with (slice (keys g) (Z.of_nat 0) (Z.of_nat 0 + Z.of_nat 10)).
    rewrite PagerFacts.slice_nonneg. simpl skipn.
    set (shown := firstn 10 (keys g)).
    set (unsorted := map (Chart.datum_of g) shown).
    destruct (SortFacts.sort_by_value_desc unsorted) as [Hsorted Hp].
    assert (Hnames : map Chart.name unsorted = shown).
    { unfold unsorted. rewrite map_map. simpl. apply map_id. }
    split.
    { rewrite (Permutation_length Hp). unfold unsorted. rewrite length_map.
      apply ChartFacts.firstn_length_le. }
    split.
    { apply (Permutation_NoDup (Permutation_sym (Permutation_map Chart.name Hp))).
      rewrite Hnames. now apply CategoryFacts.firstn_nodup. }
    split; [intros _; exact Hsorted|].
    intros p Hin. apply (Permutation_in _ Hp) in Hin.
    unfold unsorted in Hin. apply in_map_iff in Hin. destruct Hin as [k [<- Hk]].
    apply CategoryFacts.firstn_in in Hk. split.
    + apply Hkeys in Hk. unfold entries in Hk. rewrite map_map in Hk. simpl in Hk.
      apply in_map_iff in Hk. destruct Hk as [d [Hd Hin]]. exists d. split; assumption.
    + unfold Chart.datum_of. simpl. rewrite (Hget k Hk). f_equal.
      unfold Spec.filed, entries. rewrite filter_map_swap, map_map. reflexivity.
Qed.

Lemma dashboard_chart_bars_witness :
  let data : list DataRow :=
    [ Examples.sale "north" 2; Examples.sale "south" 8; Examples.sale "north" 4 ] in
  let result := [ Examples.bar "south" 8; Examples.bar "north" 3 ] in
  Dashboard.chartData Examples.blank_printer data (AnalysisPage.metadata data)
  = Returned result
  /\ (List.length result <= 10)%nat
  /\ NoDup (map Chart.name result)
  /\ Sorted (Spec.in_order Chart.by_value_desc) result.
Proof.
  intros data result. split; [reflexivity|].
  assert (Hs : "region" <> "") by discriminate.
  assert (Hn : "sales" <> "") by discriminate.
  destruct (proj2 (dashboard_chart_bars Examples.blank_printer data
                     (AnalysisPage.metadata data) "region" "sales"
                     eq_refl eq_refl Hs Hn) result eq_refl) as [H1 [H2 [H3 _]]].
  split; [exact H1|]. split; [exact H2|]. exact (H3 eq_refl).
Defined.

(** ** The histogram *)

Module BinFacts.
Import ChartBuilder Vocabulary.

Lemma increment_ranges (d : list Bin) (i : nat) :
  map range (increment d i) = map range d.
Proof.
  revert i; induction d as [|b d IH]; intros [|i]; simpl; auto.
  now rewrite IH.
Qed.

Lemma increment_frequency (d : list Bin) (i j : nat) :
  (i < List.length d)%nat ->
  frequency_at (increment d i) j
  = (frequency_at d j + if Nat.eqb i j then 1 else 0)%nat.
Proof.
  unfold frequency_at.
  revert i j; induction d as [|b d IH]; intros [|i] [|j]; simpl; intros H;
    try lia.
  apply IH. lia.
Qed.

(** The counting keeps the labels, and adds to each bin the number of
    values that it sends there. *)
Lemma counting_frequencies (lo step : number) (values : list number)
      (d d' : list Bin) :
  fold_left (count_value lo step) values (Returned d) = Returned d' ->
  map range d' = map range d
  /\ forall i, frequency_at d' i
               = (frequency_at d i + landed (List.length d) lo step values i)%nat.
Proof.
  revert d; induction values as [|v values IH]; intros d; simpl.
  - intros [= <-]. split; [reflexivity|]. intros i. unfold landed. simpl. lia.
  - destruct (to_index (List.length d) (binIndex lo step v)) as [j|] eqn:E.
    + intros H. destruct (IH _ H) as [H1 H2].
      rewrite increment_ranges in H1. split; [assumption|].
      intros i. rewrite (H2 i), HistogramFacts.increment_length.
      rewrite increment_frequency by (eapply HistogramFacts.to_index_bound; eassumption).
      unfold landed. simpl. rewrite E.
      destruct (Nat.eqb j i); simpl; lia.
    + rewrite HistogramFacts.count_value_thrown. discriminate.
Qed.

Lemma frequency_at_empty (F : Printer) (lo step : number) (n i : nat) (start : nat) :
  frequency_at (map (fun k => empty_bin F lo step (Z.of_nat k)) (seq start n)) i = 0%nat.
Proof.
  unfold frequency_at. rewrite nth_error_map.
  destruct (nth_error (seq start n) i); reflexivity.
Qed.

End BinFacts.

(** X23: whenever the histogram returns for a column with numeric
    values, it has ten bins, labelled from the least value in steps of a
    tenth of the spread; the frequency of each bin is the number of
    values whose index is that bin, and the frequencies add up to the
    number of values. *)
Theorem histogram_counts_each_value_once :
  forall (F : Printer) (data : list DataRow) (yAxis : string)
         (d : list ChartBuilder.Bin),
    ChartBuilder.numeric_values data yAxis <> [] ->
    ChartBuilder.histogramData F data yAxis = Returned d ->
    let values := ChartBuilder.numeric_values data yAxis in
    let lo := min_list values in
    let step := div (sub (max_list values) lo) (of_Z 10) in
    map ChartBuilder.range d
    = map (fun i => ChartBuilder.range (ChartBuilder.empty_bin F lo step (Z.of_nat i)))
          (seq 0 10)
    /\ (forall i, Vocabulary.frequency_at d i = Vocabulary.landed 10 lo step values i)
    /\ Spec.total d = List.length values.
Proof.
  intros F data yAxis d Hne H values lo step.
  unfold ChartBuilder.histogramData in H. fold values in H, Hne.
  destruct values as [|v rest] eqn:E; [congruence|].
  cbv zeta in H. fold lo in H. fold step in H.
  pose proof (BinFacts.counting_frequencies _ _ _ _ _ H) as [H1 H2].
  pose proof (HistogramFacts.counting_returned _ _ _ _ _ H) as [_ H3].
  split; [|split].
  - rewrite H1, map_map. reflexivity.
  - intros i. rewrite (H2 i).
    change (Z.to_nat ChartBuilder.bins) with 10%nat.
    rewrite BinFacts.frequency_at_empty. rewrite length_map, length_seq. reflexivity.
  - rewrite H3. reflexivity.
Qed.

Lemma histogram_counts_each_value_once_witness :
  let data : list DataRow :=
    [ [("score", VNum (of_Z 0))]; [("score", VNum (of_Z 5))];
      [("score", VNum (of_Z 10))]; [("score", VNum (of_Z 10))] ] in
  let d := map (fun n => {| ChartBuilder.range := " - "; ChartBuilder.frequency := n |})
               [1; 0; 0; 0; 0; 1; 0; 0; 0; 2]%nat in
  ChartBuilder.histogramData Examples.blank_printer data "score" = Returned d
  /\ Spec.total d = List.length (ChartBuilder.numeric_values data "score").
Proof.
  intros data d.
  assert (H : ChartBuilder.histogramData Examples.blank_printer data "score" = Returned d)
    by (vm_compute; reflexivity).
  assert (Hne : ChartBuilder.numeric_values data "score" <> []) by discriminate.
  split; [exact H|].
  exact (proj2 (proj2 (histogram_counts_each_value_once
                         Examples.blank_printer data "score" d Hne H))).
Defined.

(** ** The axes first selected *)

(** X24: the chart builder cannot be shown without columns: choosing the
    first axis throws exactly when there is no column.  With columns it
    selects the name of one of them: that of the first column of the
    wanted type when there is one and its name is not empty, that of the
    first column otherwise. *)
Theorem initial_axis_is_a_column :
  forall (wanted : ColumnType -> bool) (md : list ColumnMetadata),
    (ChartAxes.initial_axis wanted md = TypeError <-> md = [])
    /\ (forall x, ChartAxes.initial_axis wanted md = Returned x -> In x (map name md))
    /\ (forall m, find (fun m => wanted (type m)) md = Some m -> name m <> "" ->
                  ChartAxes.initial_axis wanted md = Returned (name m))
    /\ (forall first rest, md = first :: rest ->
                  find (fun m => wanted (type m)) md = None ->
                  ChartAxes.initial_axis wanted md = Returned (name first)).
Proof.
  intros wanted md. unfold ChartAxes.initial_axis.
  destruct (find (fun m => wanted (type m)) md) as [m|] eqn:E.
  - apply find_some in E. destruct E as [Hin _].
    destruct md as [|first rest]; [contradiction|].
    unfold nonempty. destruct (String.eqb_spec (name m) "") as [He|He]; simpl.
    + repeat split; try discriminate.
      * intros x [= <-]. now left.
      * intros m' [= <-] Hm. now elim Hm.
    + repeat split; try discriminate.
      * intros x [= <-]. exact (in_map name (first :: rest) m Hin).
      * now intros m' [= <-] _.
  - destruct md as [|first rest].
    + repeat split; try discriminate; try reflexivity.
    + repeat split; try discriminate.
      * intros x [= <-]. now left.
      * now intros f r [= <- <-] _.
Qed.

Lemma initial_axis_is_a_column_witness :
  ChartAxes.initial_xAxis
    [ {| name := "age"; type := TNumber |}; {| name := "city"; type := TString |} ]
  = Returned "city"
  /\ ChartAxes.initial_yAxis
       [ {| name := "city"; type := TString |}; {| name := "town"; type := TString |} ]
     = Returned "city".
Proof.
  split.
  - assert (Hn : "city" <> "") by discriminate.
    exact (proj1 (proj2 (proj2 (initial_axis_is_a_column is_TString
             [ {| name := "age"; type := TNumber |};
               {| name := "city"; type := TString |} ])))
             {| name := "city"; type := TString |} eq_refl Hn).
  - exact (proj2 (proj2 (proj2 (initial_axis_is_a_column is_TNumber
             [ {| name := "city"; type := TString |};
               {| name := "town"; type := TString |} ])))
             _ _ eq_refl eq_refl).
Defined.

(** ** When the histogram returns *)

Module SpreadFacts.
Import ChartBuilder Vocabulary.

Lemma shr_fexp_exponent (m e : Z) (l : location) :
  e <= snd (shr_fexp prec emax m e l).
Proof.
  unfold shr_fexp, shr.
  destruct (fexp prec emax (Zdigits2 m + e) - e) as [|p|p]; simpl; lia.
Qed.

Lemma binary_round_aux_rounded (m e : Z) (l : location) :
  0 <= m -> rounded_from e (binary_round_aux prec emax false m e l).
Proof.
  intros H. unfold binary_round_aux.
  pose proof (NumberFacts.shr_fexp_nonneg m e l H) as H1.
  pose proof (shr_fexp_exponent m e l) as E1'.
  destruct (shr_fexp prec emax m e l) as [mrs' e'] eqn:E1; simpl in H1, E1'.
  pose proof (NumberFacts.shr_fexp_nonneg _ e' loc_Exact
                (NumberFacts.round_nearest_even_nonneg
                   (shr_m mrs') (loc_of_shr_record mrs') H1)) as H2.
  pose proof (shr_fexp_exponent
                (round_nearest_even (shr_m mrs') (loc_of_shr_record mrs'))
                e' loc_Exact) as E2'.
  destruct (shr_fexp prec emax (round_nearest_even _ _) e' loc_Exact)
    as [mrs'' e''] eqn:E2; simpl in H2, E2'.
  destruct (shr_m mrs'') as [|p|p]; [reflexivity| |lia].
  destruct (e'' <=? emax - prec); simpl; [split; [reflexivity | lia] | reflexivity].
Qed.

Lemma rounded_not_negative (e : Z) (x : number) :
  rounded_from e x -> not_negative x = true.
Proof.
  destruct x as [s|s| |s m e']; simpl; try tauto; try (now intros ->).
  now intros [-> _].
Qed.

Lemma shl_align_exponent (m : positive) (e e' : Z) :
  Z.min e e' <= snd (shl_align m e e').
Proof. unfold shl_align. destruct (e' - e) eqn:E; simpl; lia. Qed.

Lemma binary_normalize_not_negative (m e : Z) :
  0 <= m -> not_negative (binary_normalize prec emax m e false) = true.
Proof.
  intros H. destruct m as [|p|p]; [reflexivity| |lia]. simpl.
  unfold binary_round. destruct (shl_align _ _ _) as [mz ez].
  eapply rounded_not_negative, binary_round_aux_rounded. lia.
Qed.

Lemma digits2_bounds (m : positive) :
  2 ^ (Z.pos (digits2_pos m) - 1) <= Z.pos m < 2 ^ Z.pos (digits2_pos m).
Proof.
  induction m as [m IH|m IH|]; simpl digits2_pos.
  - rewrite Pos2Z.inj_succ.
    replace (Z.succ (Z.pos (digits2_pos m)) - 1) with (Z.succ (Z.pos (digits2_pos m) - 1)) by lia.
    rewrite !Z.pow_succ_r by lia. lia.
  - rewrite Pos2Z.inj_succ.
    replace (Z.succ (Z.pos (digits2_pos m)) - 1) with (Z.succ (Z.pos (digits2_pos m) - 1)) by lia.
    rewrite !Z.pow_succ_r by lia. lia.
  - simpl. lia.
Qed.

(** A mantissa of a double is below 2^53, its exponent is at least the
    least one, and above the least exponent the mantissa has 53 bits. *)
Lemma bounded_spec (m : positive) (e : Z) :
  bounded prec emax m e = true ->
  Z.pos m < 2 ^ 53 /\ -1074 <= e /\ (-1074 < e -> 2 ^ 52 <= Z.pos m).
Proof.
  unfold bounded, canonical_mantissa, fexp. intros H.
  apply andb_true_iff in H. destruct H as [H _]. apply Z.eqb_eq in H.
  change (emin prec emax) with (-1074) in H. change prec with 53 in H.
  pose proof (digits2_bounds m) as [Hlo Hhi].
  set (d := Z.pos (digits2_pos m)) in *.
  assert (Hd : 0 < d) by (unfold d; lia).
  assert (Hmax : Z.max (d + e - 53) (-1074) = e) by exact H.
  split; [|split].
  - assert (d <= 53) by lia.
    eapply Z.lt_le_trans; [exact Hhi|]. apply Z.pow_le_mono_r; lia.
  - lia.
  - intros He. assert (d = 53) by lia.
    replace 52 with (d - 1) by lia. exact Hlo.
Qed.

Lemma shl_align_value (m : positive) (e ez : Z) :
  ez <= e -> Z.pos (fst (shl_align m e ez)) = Z.pos m * 2 ^ (e - ez).
Proof.
  intros H. unfold shl_align. destruct (ez - e) as [|p|p] eqn:E; cbn [fst].
  - replace (e - ez) with 0 by lia. rewrite Z.pow_0_r. lia.
  - lia.
  - change (Pos.iter xO m p) with (shift_pos p m).
    rewrite shift_pos_correct, Z.pow_pos_fold.
    replace (e - ez) with (Z.pos p)
      by (rewrite <- (Pos2Z.opp_neg p), <- E; ring).
    lia.
Qed.

Lemma scaled_mantissa_above (m1 m2 : positive) (k : Z) :
  Z.pos m1 < 2 ^ 53 -> 2 ^ 52 <= Z.pos m2 -> 0 < k ->
  Z.pos m1 <= Z.pos m2 * 2 ^ k.
Proof.
  intros H1 H2 Hk.
  assert (H : 2 ^ 1 <= 2 ^ k) by (apply Z.pow_le_mono_r; lia).
  change (2 ^ 1) with 2 in H.
  assert (2 ^ 52 * 2 <= Z.pos m2 * 2 ^ k) by (apply Z.mul_le_mono_nonneg; lia).
  change (2 ^ 53) with (2 ^ 52 * 2) in H1. lia.
Qed.

(** Between doubles, a number minus one that is at most it is not
    negative. *)
Lemma sub_not_negative (lo v : number) :
  is_double lo = true -> is_double v = true ->
  bounded_number lo = true -> bounded_number v = true ->
  le lo v = true ->
  not_negative (sub v lo) = true.
Proof.
  unfold is_double, le, SFleb.
  destruct lo as [sl|sl| |sl ml el], v as [sv|sv| |sv mv ev]; simpl;
    try discriminate; intros Vl Vv _ _ H.
  - destruct sv, sl; reflexivity.
  - destruct sv; [discriminate | reflexivity].
  - destruct sl; [reflexivity | discriminate].
  - apply binary_normalize_not_negative.
    destruct (bounded_spec ml el Vl) as [Ll [Ll1 Ll2]].
    destruct (bounded_spec mv ev Vv) as [Lv [Lv1 Lv2]].
    rewrite (shl_align_value mv ev (Z.min ev el)) by lia.
    rewrite (shl_align_value ml el (Z.min ev el)) by lia.
    change (Pos.compare_cont Eq) with Pos.compare in H.
    assert (Hpv : 0 < 2 ^ (ev - Z.min ev el)) by (apply Z.pow_pos_nonneg; lia).
    assert (Hpl : 0 < 2 ^ (el - Z.min ev el)) by (apply Z.pow_pos_nonneg; lia).
    destruct sl, sv; unfold cond_Zopp; try discriminate H.
    + destruct (Z.compare_spec el ev) as [He|He|He]; try discriminate H.
      * subst. rewrite Z.min_id, Z.sub_diag, Z.pow_0_r.
        destruct (Pos.compare_spec ml mv); simpl in H; try discriminate H; subst; lia.
      * rewrite Z.min_l by lia. rewrite Z.sub_diag, Z.pow_0_r.
        pose proof (scaled_mantissa_above mv ml (el - ev) Lv (Ll2 ltac:(lia)) ltac:(lia)).
        lia.
    + pose proof (Z.mul_pos_pos _ _ (Pos2Z.is_pos mv) Hpv).
      pose proof (Z.mul_pos_pos _ _ (Pos2Z.is_pos ml) Hpl). lia.
    + destruct (Z.compare_spec el ev) as [He|He|He]; try discriminate H.
      * subst. rewrite Z.min_id, Z.sub_diag, Z.pow_0_r.
        destruct (Pos.compare_spec ml mv); try discriminate H; subst; lia.
      * rewrite Z.min_r by lia. rewrite Z.sub_diag, Z.pow_0_r.
        pose proof (scaled_mantissa_above ml mv (ev - el) Ll (Lv2 ltac:(lia)) ltac:(lia)).
        lia.
Qed.

(** A number that is not negative, over a positive one, is not
    negative. *)
Lemma div_not_negative (w step : number) :
  not_negative w = true -> positive_finite step = true ->
  not_negative (div w step) = true.
Proof.
  destruct step as [| | |[] ms es]; try discriminate.
  destruct w as [s|s| |s mw ew]; simpl; try discriminate; intros H _.
  - reflexivity.
  - now destruct s.
  - destruct s; [discriminate|]. unfold div, SFdiv. simpl xorb.
    destruct (SFdiv_core_binary prec emax (Z.pos mw) ew (Z.pos ms) es)
      as [[mz ez] lz] eqn:E.
    eapply rounded_not_negative, binary_round_aux_rounded.
    unfold SFdiv_core_binary in E.
    set (m' := match _ - _ - _ with 0 => Z.pos mw | Z.pos _ => _ | Z.neg _ => 0 end) in E.
    assert (Hm : 0 <= m').
    { unfold m'. destruct (_ - _ - _); [lia | | lia].
      apply Z.shiftl_nonneg. lia. }
    cbv zeta in E. fold m' in E.
    destruct (Z.div_eucl m' (Z.pos ms)) as [q r] eqn:Eq.
    injection E as <- _ _.
    assert (Hq : q = m' / Z.pos ms) by (unfold Z.div; now rewrite Eq).
    rewrite Hq. apply Z.div_pos; lia.
Qed.

Lemma nine_spec : of_Z (bins - 1) = nine.
Proof. reflexivity. Qed.

(** What is rounded from an exponent above that of 9 is capped at 9,
    unless it is zero. *)
Lemma capped_index (x : number) :
  rounded_from (-48) x -> to_index 10 (min2 x nine) <> None.
Proof.
  destruct x as [s|s| |s m e]; simpl; try tauto.
  - intros ->. discriminate.
  - intros ->. discriminate.
  - intros [-> He]. unfold min2, nine, SFcompare. cbv beta iota.
    destruct (Z.compare_spec e (-49)); try lia. discriminate.
Qed.

Lemma of_Z_rounded (z : Z) : 16 <= z -> rounded_from (-48) (of_Z z).
Proof.
  intros Hz. destruct z as [|p|p]; try lia.
  unfold of_Z, binary_normalize, binary_round.
  pose proof (digits2_bounds p) as [_ Hd].
  assert (H5 : 5 <= Z.pos (digits2_pos p)).
  { destruct (Z.le_gt_cases 5 (Z.pos (digits2_pos p))) as [|Hlt]; [assumption|].
    assert (2 ^ Z.pos (digits2_pos p) <= 2 ^ 4) by (apply Z.pow_le_mono_r; lia).
    change (2 ^ 4) with 16 in *. lia. }
  pose proof (shl_align_exponent p 0 (fexp prec emax (Z.pos (digits2_pos p) + 0))) as He.
  destruct (shl_align p 0 _) as [mz ez]. simpl in He.
  assert (Hez : -48 <= ez).
  { unfold fexp in He. change prec with 53 in He.
    change (emin 53 emax) with (-1074) in He. lia. }
  pose proof (binary_round_aux_rounded (Z.pos mz) ez loc_Exact ltac:(lia)) as H.
  destruct (binary_round_aux prec emax false (Z.pos mz) ez loc_Exact) as [s|s| |s m e];
    simpl in *; try tauto.
  destruct H as [-> H]. split; [reflexivity | lia].
Qed.

Lemma of_Z_index (z : Z) : 0 < z -> to_index 10 (min2 (of_Z z) nine) <> None.
Proof.
  intros Hz. destruct (Z.le_gt_cases 16 z) as [H|H].
  - apply capped_index, of_Z_rounded, H.
  - assert (Hc : z = 1 \/ z = 2 \/ z = 3 \/ z = 4 \/ z = 5 \/ z = 6 \/ z = 7 \/ z = 8
                 \/ z = 9 \/ z = 10 \/ z = 11 \/ z = 12 \/ z = 13 \/ z = 14 \/ z = 15)
      by lia.
    repeat (destruct Hc as [-> | Hc]; [vm_compute; discriminate|]).
    subst z. vm_compute. discriminate.
Qed.

(** Every number that is not negative has a bin. *)
Lemma floor_index (r : number) :
  not_negative r = true -> to_index 10 (min2 (floor r) nine) <> None.
Proof.
  destruct r as [s|s| |s m e]; cbn [not_negative].
  - intros _. destruct s; vm_compute; discriminate.
  - destruct s; [discriminate|]. intros _. vm_compute. discriminate.
  - discriminate.
  - destruct s; [discriminate|]. intros _. unfold floor.
    destruct (Z.leb_spec 0 e) as [He|He].
    + apply capped_index. simpl. split; [reflexivity | lia].
    + destruct (Z.eqb_spec (Z.pos m / 2 ^ (- e)) 0) as [Hq|Hq]; [discriminate|].
      apply of_Z_index.
      assert (0 <= Z.pos m / 2 ^ (- e)); [|lia].
      apply Z.div_pos; [lia|]. apply Z.pow_pos_nonneg; lia.
Qed.

(** The counting returns when every value has a bin. *)
Lemma counting_returns (lo step : number) (values : list number) (d : list Bin) :
  (forall v, In v values -> to_index (List.length d) (binIndex lo step v) <> None) ->
  exists d', fold_left (count_value lo step) values (Returned d) = Returned d'.
Proof.
  revert d; induction values as [|v values IH]; intros d H; simpl.
  - now exists d.
  - destruct (to_index (List.length d) (binIndex lo step v)) as [i|] eqn:E.
    + apply IH. intros v' Hv'. rewrite HistogramFacts.increment_length.
      apply H. now right.
    + elim (H v (or_introl eq_refl)). exact E.
Qed.

(** When the difference of two numbers is finite, so are they. *)
Lemma sub_bounded (a b : number) :
  bounded_number (sub a b) = true ->
  bounded_number a = true /\ bounded_number b = true.
Proof.
  destruct a as [sa|sa| |sa ma ea], b as [sb|sb| |sb mb eb]; simpl;
    try discriminate; try (split; reflexivity);
    destruct sa, sb; discriminate.
Qed.

Lemma div_bounded (x y : number) :
  positive_finite (div x y) = true -> positive_finite y = true ->
  bounded_number x = true.
Proof.
  destruct y as [| | |[] my ey]; try discriminate.
  destruct x as [s|s| |s m e]; simpl; try discriminate; reflexivity.
Qed.

(** Between two finite numbers there are only finite numbers. *)
Lemma between_bounded (lo v hi : number) :
  bounded_number lo = true -> bounded_number hi = true ->
  le lo v = true -> le v hi = true -> bounded_number v = true.
Proof.
  unfold le, SFleb.
  destruct lo as [sl|sl| |sl ml el], hi as [sh|sh| |sh mh eh]; try discriminate;
    destruct v as [sv|sv| |sv mv ev]; simpl; try reflexivity; try discriminate;
    destruct sv; discriminate.
Qed.

End SpreadFacts.

(** X25: the histogram returns, with its ten bins, whenever the width of
    a bin is a positive finite number (the numeric values of the column
    being binary64 numbers): no value is then left without a bin. *)
Theorem histogram_returns_on_a_spread :
  forall (F : Printer) (data : list DataRow) (yAxis : string),
    let values := ChartBuilder.numeric_values data yAxis in
    let step := div (sub (max_list values) (min_list values)) (of_Z 10) in
    (forall v, In v values -> Vocabulary.is_double v = true) ->
    Vocabulary.positive_finite step = true ->
    exists d, ChartBuilder.histogramData F data yAxis = Returned d
              /\ List.length d = 10%nat.
Proof.
  intros F data yAxis values step Hdouble Hstep.
  assert (Hnum : forallb (fun v => negb (isNaN v)) values = true)
    by (apply forallb_filter).
  assert (Hne : values <> []).
  { intros E. unfold step in Hstep. rewrite E in Hstep.
    vm_compute in Hstep. discriminate Hstep. }
  destruct (OrderFacts.fold_min2_bound values Infinity eq_refl Hnum) as [_ [_ Hlo]].
  destruct (OrderFacts.fold_max2_bound values (S754_infinity true) eq_refl Hnum)
    as [_ [_ Hhi]].
  fold (min_list values) in Hlo. fold (max_list values) in Hhi.
  pose proof (ExtremeFacts.min_list_attained values Hne Hnum) as Hin.
  set (lo := min_list values) in *. set (hi := max_list values) in *.
  assert (Hb : Vocabulary.bounded_number hi = true /\ Vocabulary.bounded_number lo = true).
  { apply SpreadFacts.sub_bounded.
    apply (SpreadFacts.div_bounded _ (of_Z 10) Hstep). reflexivity. }
  destruct Hb as [Hbh Hbl].
  assert (Hbin : forall v, In v values ->
            to_index 10 (ChartBuilder.binIndex lo step v) <> None).
  { intros v Hv. unfold ChartBuilder.binIndex. rewrite SpreadFacts.nine_spec.
    apply SpreadFacts.floor_index, SpreadFacts.div_not_negative; [|exact Hstep].
    apply SpreadFacts.sub_not_negative.
    - now apply Hdouble.
    - now apply Hdouble.
    - exact Hbl.
    - exact (SpreadFacts.between_bounded lo v hi Hbl Hbh (Hlo v Hv) (Hhi v Hv)).
    - exact (Hlo v Hv). }
  unfold ChartBuilder.histogramData. fold values.
  destruct values as [|v0 rest] eqn:E; [congruence|].
  cbv zeta. fold lo hi. fold step.
  set (distribution := map _ (seq 0 (Z.to_nat ChartBuilder.bins))).
  assert (Hlen : List.length distribution = 10%nat)
    by (unfold distribution; now rewrite length_map, length_seq).
  destruct (SpreadFacts.counting_returns lo step (v0 :: rest) distribution) as [d Hd].
  { rewrite Hlen. exact Hbin. }
  exists d. split; [exact Hd|].
  destruct (HistogramFacts.counting_returned _ _ _ _ _ Hd) as [H1 _].
  now rewrite H1.
Qed.

Lemma histogram_returns_on_a_spread_witness :
  exists d,
    ChartBuilder.histogramData Examples.blank_printer
      [ [("score", VNum (of_Z 0))]; [("score", VStr "n/a")];
        [("score", VNum (of_Z 7))]; [("score", VNum (of_Z 10))] ] "score"
    = Returned d
    /\ List.length d = 10%nat.
Proof.
  apply histogram_returns_on_a_spread.
  - intros v H. vm_compute in H.
    destruct H as [<-|[<-|[<-|[]]]]; vm_compute; reflexivity.
  - vm_compute. reflexivity.
Defined.
